(** * Multi-state design: the optimizer's data pipeline

    A shallow embedding of [optimization-amn/Optimizer.py]: the parameter
    IDs of the model cache, the construction of the target frequency
    profile from a FASTA alignment, the ingestion of macrostate and
    microstate energy tables, the position re-indexers, the lookup of
    frequencies by parameters, and the writer of FASTA files.

    Conventions of the embedding.
    - A text file is the list of its lines, each line carrying its
      terminating newline, as iteration over a Python file object yields
      them.
    - A Python exception is a value of [exn]; a method of [Optimizer] is a
      function from the object's state to an outcome and the state the
      object is left in, also when the method raises.
    - A Python [float] hyperparameter is a binary64 number ([float]).  The
      entries of the numpy arrays of counts and frequencies are idealised
      as exact rationals, with the two values IEEE division by zero
      produces ([NaN], [Inf]) next to them.
    - The Python builtins [int], [float], [str] on floats and
      [ast.literal_eval] are an interface ([PyBuiltins]) the development is
      parametric in.
    - The array handed to [writeFrequenciesToFASTA] is an array of
      binary64 numbers with the arithmetic of binary64, and the files the
      method writes are a map from names to texts.
    - Console output and [warnings.warn] are not modelled. *)

From Stdlib Require Import ZArith QArith Lqa String Ascii List Lia.
From Stdlib Require Import Floats DecimalString DecimalPos DecimalZ.
From stdpp Require Import gmap strings list fin_maps.

Open Scope string_scope.
Open Scope Z_scope.

(** ** Exceptions, outcomes and the state monad of a method *)

Inductive exn : Type :=
| IndexError
| KeyError (key : string)
| ValueError (text : string)
| TypeError.

(** [KeyError] and [IndexError] are the subclasses of Python's
    [LookupError]. *)
Definition is_LookupError (e : exn) : Prop :=
  match e with
  | IndexError | KeyError _ => True
  | _ => False
  end.

Inductive result (A : Type) : Type :=
| Ok (a : A)
| Raise (e : exn).

Arguments Ok {A} a.
Arguments Raise {A} e.

#[global] Instance result_ret : MRet result := fun A a => Ok a.

#[global] Instance result_bind : MBind result := fun A B f r =>
  match r with
  | Ok a => f a
  | Raise e => Raise e
  end.

(** A method running on an object of type [S]: the outcome, and the state
    of the object afterwards. *)
Definition M (S A : Type) : Type := S -> result A * S.

#[global] Instance M_ret {S} : MRet (M S) := fun A a s => (Ok a, s).

#[global] Instance M_bind {S} : MBind (M S) := fun A B f m s =>
  match m s with
  | (Ok a, s') => f a s'
  | (Raise e, s') => (Raise e, s')
  end.

Definition get {S} : M S S := fun s => (Ok s, s).
Definition put {S} (s : S) : M S unit := fun _ => (Ok tt, s).
Definition modify {S} (f : S -> S) : M S unit := fun s => (Ok tt, f s).
Definition lift {S A} (r : result A) : M S A := fun s => (r, s).

(** ** Python strings, lists and dicts *)

(** [s[i]], with Python's negative indices. *)
Definition str_getitem (s : string) (i : Z) : result ascii :=
  let n := Z.of_nat (String.length s) in
  let j := if i <? 0 then i + n else i in
  if (0 <=? j) && (j <? n)
  then match String.get (Z.to_nat j) s with
       | Some c => Ok c
       | None => Raise IndexError
       end
  else Raise IndexError.

(** [s.split(sep)] for a separator of one character. *)
Fixpoint split (sep : ascii) (s : string) : list string :=
  match s with
  | EmptyString => [EmptyString]
  | String c s' =>
      if Ascii.eqb c sep then EmptyString :: split sep s'
      else match split sep s' with
           | [] => [String c EmptyString]
           | w :: ws => String c w :: ws
           end
  end.

Fixpoint lstrip (c : ascii) (s : string) : string :=
  match s with
  | EmptyString => EmptyString
  | String a s' => if Ascii.eqb a c then lstrip c s' else s
  end.

Fixpoint rstrip (c : ascii) (s : string) : string :=
  match s with
  | EmptyString => EmptyString
  | String a s' =>
      match rstrip c s' with
      | EmptyString => if Ascii.eqb a c then EmptyString else String a EmptyString
      | r => String a r
      end
  end.

(** [s.strip(c)] for a set of one character. *)
Definition strip (c : ascii) (s : string) : string := rstrip c (lstrip c s).

(** [l[i]] for a list and an index that is not negative. *)
Definition list_getitem {A} (l : list A) (i : nat) : result A :=
  match l !! i with
  | Some x => Ok x
  | None => Raise IndexError
  end.

(** A subscript of a list is an integer or, as in [positionReindexer], a
    string. *)
Inductive subscript : Type :=
| SubInt (i : Z)
| SubStr (s : string).

(** [l[k] = v]: a list accepts integer subscripts only, and only those
    within its length. *)
Definition list_setitem {A} (l : list A) (k : subscript) (v : A) : result (list A) :=
  match k with
  | SubStr _ => Raise TypeError
  | SubInt i =>
      let n := Z.of_nat (length l) in
      let j := if i <? 0 then i + n else i in
      if (0 <=? j) && (j <? n) then Ok (<[Z.to_nat j := v]> l)
      else Raise IndexError
  end.

(** [d[k]] for a dict with string keys. *)
Definition dict_getitem {A} (d : gmap string A) (k : string) : result A :=
  match d !! k with
  | Some x => Ok x
  | None => Raise (KeyError k)
  end.

(** [str(z)] for an [int]. *)
Definition str_int (z : Z) : string := NilZero.string_of_int (Z.to_int z).

(** ** Residues *)

(** The dict [resToIndex] of [readTargetFrequencies]. *)
Definition resToIndex_items : list (ascii * nat) :=
  [("A"%char, 0%nat); ("C"%char, 1%nat); ("D"%char, 2%nat); ("E"%char, 3%nat);
   ("F"%char, 4%nat); ("G"%char, 5%nat); ("H"%char, 6%nat); ("I"%char, 7%nat);
   ("K"%char, 8%nat); ("L"%char, 9%nat); ("M"%char, 10%nat); ("N"%char, 11%nat);
   ("P"%char, 12%nat); ("Q"%char, 13%nat); ("R"%char, 14%nat); ("S"%char, 15%nat);
   ("T"%char, 16%nat); ("V"%char, 17%nat); ("W"%char, 18%nat); ("Y"%char, 19%nat)].

Fixpoint assoc_lookup {A} (c : ascii) (items : list (ascii * A)) : option A :=
  match items with
  | [] => None
  | (k, v) :: items' => if Ascii.eqb k c then Some v else assoc_lookup c items'
  end.

(** [resToIndex[c]]; [None] stands for the [KeyError]. *)
Definition resToIndex (c : ascii) : option nat := assoc_lookup c resToIndex_items.

(** The dict [indexToRes] of [readData] and [readMicrostateData], as the
    list of its values at the keys 0 to 19. *)
Definition indexToRes : list string :=
  ["A"; "C"; "D"; "E"; "F"; "G"; "H"; "I"; "K"; "L";
   "M"; "N"; "P"; "Q"; "R"; "S"; "T"; "V"; "W"; "Y"].

(** ** Entries of the numpy arrays of counts and frequencies *)

Inductive npfloat : Type :=
| Val (q : Q)
| Inf
| NaN.

(** [x += 1]. *)
Definition np_incr (x : npfloat) : npfloat :=
  match x with
  | Val q => Val (q + 1)
  | other => other
  end.

(** [x /= n] for an integer [n]: numpy does not raise on a zero divisor,
    it warns and yields [nan] for 0/0 and an infinity otherwise. *)
Definition np_div (x : npfloat) (n : Z) : npfloat :=
  match x with
  | Val q =>
      if n =? 0 then (if Qeq_bool q 0 then NaN else Inf)
      else Val (q / inject_Z n)
  | Inf => Inf
  | NaN => NaN
  end.

Definition np_eqb (x y : npfloat) : bool :=
  match x, y with
  | Val p, Val q => Qeq_bool p q
  | Inf, Inf => true
  | NaN, NaN => true
  | _, _ => false
  end.

(** Rows compared entry by entry, rationals up to [Qeq]. *)
Fixpoint row_eqb (r1 r2 : list npfloat) : bool :=
  match r1, r2 with
  | [], [] => true
  | x :: r1', y :: r2' => np_eqb x y && row_eqb r1' r2'
  | _, _ => false
  end.

(** The sum of a row whose entries are all numbers. *)
Fixpoint row_sum (r : list npfloat) : option Q :=
  match r with
  | [] => Some 0%Q
  | Val q :: r' => match row_sum r' with Some t => Some (q + t)%Q | None => None end
  | _ :: _ => None
  end.

(** [numpy.zeros([n, m])] and [numpy.zeros([n], dtype = int)]. *)
Definition zeros2 (n m : nat) : list (list npfloat) := replicate n (replicate m (Val 0)).
Definition zeros1 (n : nat) : list Z := replicate n 0.

(** ** Hyperparameter values and the models *)

(** The values a hyperparameter takes in the calls of this module. *)
Inductive pyval : Type :=
| PyNone
| PyInt (z : Z)
| PyFloat (f : float).

(** [z == x] for an [int] and a [float]: Python compares the two numbers
    exactly. *)
Definition int_eq_float (z : Z) (x : float) : bool :=
  match Prim2SF x with
  | S754_zero _ => z =? 0
  | S754_finite s m e =>
      let sign := if s then -1 else 1 in
      if 0 <=? e then z =? sign * (Zpos m * 2 ^ e)
      else (Zpos m mod 2 ^ (- e) =? 0) && (z =? sign * (Zpos m / 2 ^ (- e)))
  | _ => false
  end.

(** [v == w] on hyperparameter values. *)
Definition py_eqb (v w : pyval) : bool :=
  match v, w with
  | PyNone, PyNone => true
  | PyInt a, PyInt b => a =? b
  | PyFloat x, PyFloat y => PrimFloat.eqb x y
  | PyInt a, PyFloat y => int_eq_float a y
  | PyFloat x, PyInt b => int_eq_float b x
  | _, _ => false
  end.

(** Modelled from the spec: class [Model] of module [model], which is not
    among the sources.  Of a model the spec fixes the hyperparameters it is
    built with, its position range, and that [addMacrostateData] stores the
    energy vector of a (macrostate, position) slot, a later record for the
    slot replacing the earlier one, while [addMicrostateData] retains the
    records of a slot one by one. *)
Record Model : Type := mkModel {
  ensembleSize : pyval;
  backrubTemp : pyval;
  boltzmannTemp : pyval;
  weights : option (list Z);
  steepness : Z;
  model_nPositions : Z;
  model_minPosition : Z;
  useMicrostateData : bool;
  model_positionMap : option (gmap Z Z);
  macrostateData : gmap (Z * Z) (list float);
  microstateData : list (Z * Z * list float)
}.

(** Modelled from the spec: the constructor of [Model], which is not among
    the sources; a new model holds no record. *)
Definition Model_init (ensembleSize backrubTemp boltzmannTemp : pyval)
    (weights : option (list Z)) (steepness nPositions minPosition : Z)
    (useMicrostateData : bool) (positionMap : option (gmap Z Z)) : Model :=
  mkModel ensembleSize backrubTemp boltzmannTemp weights steepness
          nPositions minPosition useMicrostateData positionMap ∅ [].

(** Modelled from the spec: [Model.addMacrostateData], which is not among
    the sources; the energy vector is stored at the slot of the macrostate
    and position and replaces what the slot held. *)
Definition addMacrostateData (m : Model) (macrostate position : Z)
    (energies : list float) : Model :=
  mkModel (ensembleSize m) (backrubTemp m) (boltzmannTemp m) (weights m)
          (steepness m) (model_nPositions m) (model_minPosition m)
          (useMicrostateData m) (model_positionMap m)
          (<[(macrostate, position) := energies]> (macrostateData m))
          (microstateData m).

(** Modelled from the spec: [Model.addMicrostateData], which is not among
    the sources; the record is retained next to the earlier ones. *)
Definition addMicrostateData (m : Model) (macrostate position : Z)
    (energies : list float) : Model :=
  mkModel (ensembleSize m) (backrubTemp m) (boltzmannTemp m) (weights m)
          (steepness m) (model_nPositions m) (model_minPosition m)
          (useMicrostateData m) (model_positionMap m)
          (macrostateData m)
          (microstateData m ++ [(macrostate, position, energies)]).

(** The positions of the records a model holds. *)
Definition stored_position (m : Model) (position : Z) : Prop :=
  (exists macrostate, is_Some (macrostateData m !! (macrostate, position)))
  \/ (exists macrostate energies, In (macrostate, position, energies) (microstateData m)).

(** ** The optimizer *)

Record Optimizer : Type := mkOptimizer {
  models : gmap string Model;
  nPositions : Z;
  contiguousPositions : bool;
  positionMap : option (gmap Z Z);
  minPosition : Z;
  targetFrequencies : list (list npfloat);
  macStateToIndex : gmap string Z;
  targetFreqsRead : bool
}.

Definition set_models (f : gmap string Model -> gmap string Model) (self : Optimizer) : Optimizer :=
  mkOptimizer (f (models self)) (nPositions self) (contiguousPositions self)
              (positionMap self) (minPosition self) (targetFrequencies self)
              (macStateToIndex self) (targetFreqsRead self).

Definition set_nPositions (n : Z) (self : Optimizer) : Optimizer :=
  mkOptimizer (models self) n (contiguousPositions self)
              (positionMap self) (minPosition self) (targetFrequencies self)
              (macStateToIndex self) (targetFreqsRead self).

Definition set_minPosition (p : Z) (self : Optimizer) : Optimizer :=
  mkOptimizer (models self) (nPositions self) (contiguousPositions self)
              (positionMap self) p (targetFrequencies self)
              (macStateToIndex self) (targetFreqsRead self).

Definition set_targetFrequencies (f : list (list npfloat) -> list (list npfloat))
    (self : Optimizer) : Optimizer :=
  mkOptimizer (models self) (nPositions self) (contiguousPositions self)
              (positionMap self) (minPosition self) (f (targetFrequencies self))
              (macStateToIndex self) (targetFreqsRead self).

Definition set_targetFreqsRead (b : bool) (self : Optimizer) : Optimizer :=
  mkOptimizer (models self) (nPositions self) (contiguousPositions self)
              (positionMap self) (minPosition self) (targetFrequencies self)
              (macStateToIndex self) b.

(** [Optimizer(macrostates)], the macrostate enum given as the dict
    [macStateToIndex] the constructor derives from it. *)
Definition Optimizer_init (macrostates : gmap string Z) (contiguous : bool) : Optimizer :=
  mkOptimizer ∅ 0 contiguous (if contiguous then None else Some ∅) 0 [] macrostates false.

(** ** Rows of the energy tables *)

(** A data line of a macrostate table after [readData] has split it and
    converted the macrostate, the position and the ensemble size. *)
Record macro_row : Type := mkMacroRow {
  row_macrostate : Z;
  row_backrubT : string;
  row_ensembleS : Z;
  row_boltzmanT : string;
  row_position : Z;
  row_energies : gmap string float
}.

(** A data line of a microstate table after [readMicrostateData] has split
    it and converted the position. *)
Record micro_row : Type := mkMicroRow {
  mrow_macrostate : string;
  mrow_backrubT : string;
  mrow_position : Z;
  mrow_energies : gmap string float
}.

(** ** The builtins the module calls *)

(** [py_int] and [py_float] are [int(s)] and [float(s)] on a string, [None]
    standing for the [ValueError] they raise; [float_str] is [str(x)] on a
    float; [literal_eval] is [ast.literal_eval] on the text of an energy
    dict, residue code to energy. *)
Class PyBuiltins : Type := {
  py_int : string -> option Z;
  py_float : string -> option float;
  float_str : float -> string;
  literal_eval : string -> result (gmap string float)
}.

Definition NL : ascii := "010"%char.
Definition TAB : ascii := "009"%char.

Section Program.
Context `{PyBuiltins}.

Definition int_of (s : string) : result Z :=
  match py_int s with
  | Some z => Ok z
  | None => Raise (ValueError s)
  end.

Definition float_of (s : string) : result float :=
  match py_float s with
  | Some x => Ok x
  | None => Raise (ValueError s)
  end.

(** [str(v)]. *)
Definition str (v : pyval) : string :=
  match v with
  | PyNone => "None"
  | PyInt z => str_int z
  | PyFloat x => float_str x
  end.

(** *** Parameter IDs and lookup *)

Definition calcParamsID (param1 param2 param3 : pyval) : string :=
  str param1 +:+ " " +:+ str param2 +:+ " " +:+ str param3.

Definition getModelByParams (param1 param2 param3 : pyval) : M Optimizer Model :=
  self ← get;
  lift (dict_getitem (models self) (calcParamsID param1 param2 param3)).

(** *** readTargetFrequencies *)

(** The [while] loop that collects the first entry. [lines] is what is left
    of the file, its head the line [readline] returns next; at the end of
    the file [readline] returns the empty string, which has no character
    0. *)
Fixpoint first_entry (entry : string) (lines : list string) : result string :=
  match lines with
  | [] => Raise IndexError
  | thisLine :: lines' =>
      c ← str_getitem thisLine 0;
      if Ascii.eqb c ">" then Ok entry
      else first_entry (entry +:+ thisLine) lines'
  end.

(** The [for i in range(self.nPositions)] loop that adds one entry to the
    counts; [positions] is the range. A character that is no key of
    [resToIndex] is skipped by the [except KeyError] clause. *)
Fixpoint count_entry (thisEntry : string) (positions : list nat) (nEntries : list Z)
    : M Optimizer (list Z) :=
  match positions with
  | [] => mret nEntries
  | i :: positions' =>
      c ← lift (str_getitem thisEntry (Z.of_nat i));
      if Ascii.eqb c "-" then count_entry thisEntry positions' nEntries
      else match resToIndex c with
           | Some j =>
               modify (set_targetFrequencies (alter (alter np_incr j) i));;
               count_entry thisEntry positions' (alter Z.succ i nEntries)
           | None => count_entry thisEntry positions' nEntries
           end
  end.

(** The [for line in infile] loop. An entry is added to the counts when the
    header line after it is read. *)
Fixpoint read_entries (positions : list nat) (lines : list string)
    (thisEntry : string) (nEntries : list Z) : M Optimizer (list Z) :=
  match lines with
  | [] => mret nEntries
  | line :: lines' =>
      c ← lift (str_getitem line 0);
      if Ascii.eqb c ">" then
        if String.eqb thisEntry "" then read_entries positions lines' "" nEntries
        else
          nEntries' ← count_entry thisEntry positions nEntries;
          read_entries positions lines' "" nEntries'
      else read_entries positions lines' (thisEntry +:+ line) nEntries
  end.

(** The counting pass: the array of counts is allocated, the file is read
    again from its start, and the result is [nEntries], the number of
    residues counted at each position. *)
Definition count_residues (n : nat) (source : list string) : M Optimizer (list Z) :=
  modify (set_targetFrequencies (fun _ => zeros2 n 20));;
  read_entries (seq 0 n) source "" (zeros1 n).

(** Counts to frequencies: every entry of row [i] is divided by
    [nEntries[i]]. *)
Definition counts_to_frequencies (nEntries : list Z) (tf : list (list npfloat))
    : list (list npfloat) :=
  zip_with (fun row n => (fun x => np_div x n) <$> row) tf nEntries.

(** [readTargetFrequencies(source)], [posPicker] left at its default
    [None]. The test [entry[-2] == 0] compares a character with an integer
    and is never true, but the subscript is evaluated. *)
Definition readTargetFrequencies (source : list string) : M Optimizer (list (list npfloat)) :=
  entry ← lift (first_entry "" (tail source));
  modify (set_nPositions (Z.of_nat (String.length entry) - 1));;
  _ ← lift (str_getitem entry (-2));
  self ← get;
  nEntries ← count_residues (Z.to_nat (nPositions self)) source;
  modify (set_targetFrequencies (counts_to_frequencies nEntries));;
  modify (set_targetFreqsRead true);;
  self ← get;
  mret (targetFrequencies self).

(** *** readData *)

(** The array of the 20 energies, in the order of [indexToRes]. *)
Definition energy_array (energies : gmap string float) : result (list float) :=
  mapM (dict_getitem energies) indexToRes.

(** The text of the Boltzmann temperature field. *)
Definition boltzmann_of (boltzmanT : string) : result float :=
  if String.eqb boltzmanT "min" then Ok 0%float
  else if String.eqb boltzmanT "mean" then Ok (-1)%float
  else float_of boltzmanT.

(** The fields of one data line, once the first conversions are done: the
    line is split at the tabs, the energy literal is evaluated, the
    macrostate name is looked up and the position and ensemble size are
    converted to integers; the two temperatures are still text. *)
Definition readData_fields (self : Optimizer) (line : string) : result macro_row :=
  let entries := split TAB line in
  macrostate ← list_getitem entries 0;
  backrubT ← list_getitem entries 1;
  ensembleS ← list_getitem entries 2;
  boltzmanT ← list_getitem entries 3;
  position ← list_getitem entries 4;
  literal ← list_getitem entries 5;
  energies ← literal_eval literal;
  macrostate ← dict_getitem (macStateToIndex self) macrostate;
  position ← int_of position;
  ensembleS ← int_of ensembleS;
  Ok (mkMacroRow macrostate backrubT ensembleS boltzmanT position energies).

(** What follows the test of the window: the temperatures are converted,
    the ID is computed, the energies are put in an array and the record
    goes into the model of that ID, which is created when the cache has
    none. *)
Definition readData_store (r : macro_row) : M Optimizer unit :=
  backrubT ← lift (float_of (row_backrubT r));
  boltzmanT ← lift (boltzmann_of (row_boltzmanT r));
  let ID := calcParamsID (PyFloat backrubT) (PyInt (row_ensembleS r)) (PyFloat boltzmanT) in
  energies ← lift (energy_array (row_energies r));
  self ← get;
  match models self !! ID with
  | Some model =>
      modify (set_models
                <[ID := addMacrostateData model (row_macrostate r) (row_position r) energies]>)
  | None =>
      let model := Model_init (PyInt (row_ensembleS r)) (PyFloat backrubT) (PyFloat boltzmanT)
                              (Some [0; 0; 0; 0]) 1 (nPositions self) (minPosition self)
                              false None in
      modify (set_models
                <[ID := addMacrostateData model (row_macrostate r) (row_position r) energies]>)
  end.

(** The body of the loop for one data line; the result is the value of
    [isFirstEntry] afterwards. The first data line records its position as
    [minPosition]; a line outside the window is left by [continue]. *)
Definition readData_line (isFirstEntry : bool) (line : string) : M Optimizer bool :=
  self ← get;
  r ← lift (readData_fields self line);
  (if isFirstEntry then modify (set_minPosition (row_position r)) else mret tt);;
  self ← get;
  if (row_position r <? minPosition self)
     || (minPosition self + nPositions self <=? row_position r)
  then mret false
  else readData_store r;; mret false.

Fixpoint readData_loop (isFirstLine isFirstEntry : bool) (lines : list string)
    : M Optimizer unit :=
  match lines with
  | [] => mret tt
  | line :: lines' =>
      if isFirstLine then readData_loop false isFirstEntry lines'
      else
        isFirstEntry' ← readData_line isFirstEntry line;
        readData_loop false isFirstEntry' lines'
  end.

Definition readData (source : list string) : M Optimizer unit :=
  modify (set_models (fun _ => ∅));;
  modify (set_minPosition 65535);;
  readData_loop true true source.

(** *** readMicrostateData *)

(** The fields of one data line of a microstate table: the position is
    converted and the energy literal evaluated before the window is
    tested; the fourth column, the backbone, is not read. *)
Definition readMicrostateData_fields (line : string) : result micro_row :=
  let entries := split TAB line in
  macrostate ← list_getitem entries 0;
  backrubT ← list_getitem entries 1;
  position ← list_getitem entries 2;
  position ← int_of position;
  literal ← list_getitem entries 4;
  energies ← literal_eval literal;
  Ok (mkMicroRow macrostate backrubT position energies).

(** What follows the test of the window; the result is the value of
    [maxPos] afterwards. The ID is computed from the backrub temperature
    and two [None]. *)
Definition readMicrostateData_store (maxPos : Z) (r : micro_row) : M Optimizer Z :=
  self ← get;
  backrubT ← lift (float_of (mrow_backrubT r));
  macrostate ← lift (dict_getitem (macStateToIndex self) (mrow_macrostate r));
  energies ← lift (energy_array (mrow_energies r));
  let maxPos' := if maxPos <? mrow_position r then mrow_position r else maxPos in
  let ID := calcParamsID (PyFloat backrubT) PyNone PyNone in
  match models self !! ID with
  | Some model =>
      modify (set_models
                <[ID := addMicrostateData model macrostate (mrow_position r) energies]>);;
      mret maxPos'
  | None =>
      let model := Model_init (PyInt 0) (PyFloat backrubT) (PyInt 0) None 0
                              (nPositions self) (minPosition self)
                              true (positionMap self) in
      modify (set_models
                <[ID := addMicrostateData model macrostate (mrow_position r) energies]>);;
      mret maxPos'
  end.

(** The body of the loop for one data line; the result is the value of
    [maxPos] afterwards. *)
Definition readMicrostateData_line (maxPos : Z) (line : string) : M Optimizer Z :=
  r ← lift (readMicrostateData_fields line);
  self ← get;
  if (mrow_position r <? minPosition self)
     || (minPosition self + nPositions self <=? mrow_position r)
  then mret maxPos
  else readMicrostateData_store maxPos r.

Fixpoint readMicrostateData_loop (isFirstLine : bool) (maxPos : Z) (lines : list string)
    : M Optimizer Z :=
  match lines with
  | [] => mret maxPos
  | line :: lines' =>
      if isFirstLine then readMicrostateData_loop false maxPos lines'
      else
        maxPos' ← readMicrostateData_line maxPos line;
        readMicrostateData_loop false maxPos' lines'
  end.

Definition readMicrostateData (source : list string) (minPosition : Z) : M Optimizer unit :=
  modify (set_models (fun _ => ∅));;
  modify (set_minPosition minPosition);;
  maxPos ← readMicrostateData_loop true 0 source;
  self ← get;
  if contiguousPositions self
  then modify (set_nPositions (maxPos - minPosition + 1))
  else mret tt.

End Program.

(** *** positionReindexer *)

(** The loop over the lines; [indices] is a Python list and [i] a
    string. *)
Fixpoint positionReindexer_loop (lines : list string) (indices : list Z) (n : Z)
    : result (list Z * Z) :=
  match lines with
  | [] => Ok (indices, n)
  | line :: lines' =>
      let entries := split " " line in
      field ← list_getitem entries 2;
      let i := strip NL field in
      indices' ← list_setitem indices (SubStr i) n;
      positionReindexer_loop lines' indices' (n + 1)
  end.

Definition positionReindexer (data : list string) : result (list Z) :=
  r ← positionReindexer_loop data [] 0;
  list_setitem r.1 (SubStr "nPos") r.2.

(** *** positionReindexerFASTA and the choice of positions *)

Definition set_contiguousPositions (b : bool) (self : Optimizer) : Optimizer :=
  mkOptimizer (models self) (nPositions self) b
              (positionMap self) (minPosition self) (targetFrequencies self)
              (macStateToIndex self) (targetFreqsRead self).

Definition set_positionMap (f : option (gmap Z Z) -> option (gmap Z Z)) (self : Optimizer)
    : Optimizer :=
  mkOptimizer (models self) (nPositions self) (contiguousPositions self)
              (f (positionMap self)) (minPosition self) (targetFrequencies self)
              (macStateToIndex self) (targetFreqsRead self).

Section Picker.
Context `{PyBuiltins}.

(** [self.positionMap[p] = i]: the map is a dict, or [None] for an
    optimizer made with contiguous positions, and [None] takes no item. *)
Definition positionMap_setitem (p i : Z) : M Optimizer unit :=
  self ← get;
  match positionMap self with
  | None => lift (Raise TypeError)
  | Some pm => modify (set_positionMap (fun _ => Some (<[p := i]> pm)))
  end.

(** The loop over the lines of the file of positions; [index] is the list
    built so far and [i] the rank of the line. The first column is
    appended to the list before the third column is read. *)
Fixpoint positionReindexerFASTA_loop (lines : list string) (index : list Z) (i : Z)
    : M Optimizer (list Z) :=
  match lines with
  | [] => mret index
  | line :: lines' =>
      let entries := split " " line in
      first ← lift (list_getitem entries 0);
      v ← lift (int_of first);
      third ← lift (list_getitem entries 2);
      p ← lift (int_of (strip NL third));
      positionMap_setitem p i;;
      positionReindexerFASTA_loop lines' (index ++ [v]) (i + 1)
  end.

Definition positionReindexerFASTA (data : list string) : M Optimizer (list Z) :=
  positionReindexerFASTA_loop data [] 0.

End Picker.

(** [tf[k]] for a row index of numpy, which may be negative. *)
Definition np_getrow (tf : list (list npfloat)) (k : Z) : result (list npfloat) :=
  let n := Z.of_nat (length tf) in
  let j := if k <? 0 then k + n else k in
  if (0 <=? j) && (j <? n) then list_getitem tf (Z.to_nat j)
  else Raise IndexError.

Section PickedProfile.
Context `{PyBuiltins}.

(** [readTargetFrequencies] up to the closing of the file: the profile of
    all the positions of the alignment. *)
Definition readTargetFrequencies_counts (source : list string) : M Optimizer unit :=
  entry ← lift (first_entry "" (tail source));
  modify (set_nPositions (Z.of_nat (String.length entry) - 1));;
  _ ← lift (str_getitem entry (-2));
  self ← get;
  nEntries ← count_residues (Z.to_nat (nPositions self)) source;
  modify (set_targetFrequencies (counts_to_frequencies nEntries)).

(** The part of [readTargetFrequencies] that removes the superfluous
    positions: the rows the file [posPicker] lists replace the profile. The
    rows have 20 entries, as those of [freqs] have. *)
Definition pick_positions (posPicker : list string) : M Optimizer unit :=
  modify (set_contiguousPositions false);;
  indices ← positionReindexerFASTA posPicker;
  modify (set_nPositions (Z.of_nat (length indices)));;
  self ← get;
  freqs ← lift (mapM (np_getrow (targetFrequencies self)) indices);
  modify (set_targetFrequencies (fun _ => freqs)).

(** [readTargetFrequencies(source, posPicker)]. *)
Definition readTargetFrequencies_posPicker (source : list string)
    (posPicker : option (list string)) : M Optimizer (list (list npfloat)) :=
  readTargetFrequencies_counts source;;
  match posPicker with
  | None => mret tt
  | Some data => pick_positions data
  end;;
  modify (set_targetFreqsRead true);;
  self ← get;
  mret (targetFrequencies self).

End PickedProfile.

(** *** getFrequenciesByParams *)

(** Modelled from the spec: [Model.constructFromExisting] and
    [Model.getFrequencies] of module [model], which is not among the
    sources; they are parameters here. *)
Class ModelOps : Type := {
  constructFromExisting :
    Model -> pyval -> pyval -> pyval -> list float -> float -> result Model;
  getFrequencies : Model -> result (list (list npfloat))
}.

Section Accessors.
Context `{PyBuiltins} `{ModelOps}.

(** The model is looked up with the backrub temperature first, and built
    with the ensemble size first. *)
Definition getFrequenciesByParams (ensembleSize backrubT boltzmannT : pyval)
    (steepness : float) (weights : list float) : M Optimizer (list (list npfloat)) :=
  template ← getModelByParams backrubT ensembleSize boltzmannT;
  model ← lift (constructFromExisting template ensembleSize backrubT boltzmannT
                                      weights steepness);
  lift (getFrequencies model).

End Accessors.

(** *** writeFrequenciesToFASTA *)

(** The files the method can write to are a map: the text of each file
    by its name. Every name can be opened for writing; the failures of
    [open] that the file system decides are not modelled. *)

(** [open(name, 'w')]: the file is created, or emptied. *)
Definition open_w (name : string) : M (gmap string string) unit :=
  modify (<[name := ""]>).

(** [outfile.write(text)]. *)
Definition file_write (name text : string) : M (gmap string string) unit :=
  modify (alter (fun written => written +:+ text) name).

(** An integer of numpy's [int64]: the arithmetic wraps around. *)
Definition wrap64 (z : Z) : Z := (z + 2 ^ 63) mod 2 ^ 64 - 2 ^ 63.

(** [numpy.power(base, exponent)] on integers of 64 bits. *)
Definition np_power (base exponent : Z) : result Z :=
  if exponent <? 0
  then Raise (ValueError "Integers to negative integer powers are not allowed.")
  else Ok (wrap64 (base ^ exponent)).

(** The binary64 number an [int64] is converted to, the nearest one, ties
    to even. *)
Definition float_of_int64 (n : Z) : float :=
  SF2Prim (binary_normalize prec emax n 0 false).

(** [m / 2 ^ k] rounded to the nearest integer, ties to the even one. *)
Definition round_half_even (m k : Z) : Z :=
  let q := m / 2 ^ k in
  let r := m mod 2 ^ k in
  let half := 2 ^ (k - 1) in
  if r <? half then q
  else if half <? r then q + 1
  else if Z.even q then q else q + 1.

(** [numpy.round(x)] of a binary64 number: the nearest integer, ties to the
    even one, with the sign of [x]; infinities and [nan] are kept. *)
Definition np_round (x : float) : float :=
  match Prim2SF x with
  | S754_finite s m e =>
      if 0 <=? e then x
      else let n := round_half_even (Zpos m) (- e) in
           SF2Prim (binary_normalize prec emax (if s then - n else n) 0 s)
  | _ => x
  end.

(** [numpy.round(frequencies * nEntries)]. *)
Definition scaled_numbers (frequencies : list (list float)) (nEntries : Z)
    : list (list float) :=
  (fun row : list float =>
     (fun x => np_round (x * float_of_int64 nEntries)%float) <$> row) <$> frequencies.

(** [numpy.zeros([n], dtype = int)] for an [n] that may be negative. *)
Definition np_zeros_int (n : Z) : result (list Z) :=
  if n <? 0 then Raise (ValueError "negative dimensions are not allowed")
  else Ok (zeros1 (Z.to_nat n)).

Definition residues : string := "ACDEFGHIKLMNPQRSTVWY".

(** The loop [while numbers[j][r] == 0 and r < 19: r += 1] on the row
    [numbers[j]], for [left = 19 - r]: the entry is read at each turn, and
    the loop goes on when it is zero and [left] is not. *)
Fixpoint skip_zeros (left : nat) (row : list float) (r : Z) : result Z :=
  x ← list_getitem row (Z.to_nat r);
  match left with
  | O => Ok r
  | S left' => if (x =? 0)%float then skip_zeros left' row (r + 1) else Ok r
  end.

(** The loop over the positions of one entry: the residue of a position
    is the first one at or after the residue written last whose number is
    not zero, or the residue 19; its number is decremented and its letter
    written. *)
Fixpoint write_residues (name : string) (positions : list nat)
    (numbers : list (list float)) (residueToWrite : list Z)
    : M (gmap string string) (list (list float) * list Z) :=
  match positions with
  | [] => mret (numbers, residueToWrite)
  | j :: positions' =>
      row ← lift (list_getitem numbers j);
      r0 ← lift (list_getitem residueToWrite j);
      r ← lift (skip_zeros (Z.to_nat (19 - r0)) row r0);
      x ← lift (list_getitem row (Z.to_nat r));
      c ← lift (str_getitem residues r);
      file_write name (String c EmptyString);;
      write_residues name positions'
        (<[j := <[Z.to_nat r := (x - 1)%float]> row]> numbers)
        (<[j := r]> residueToWrite)
  end.

(** The loop over the entries. *)
Fixpoint write_entries (name : string) (nEntries : nat) (positions : list nat)
    (numbers : list (list float)) (residueToWrite : list Z) : M (gmap string string) unit :=
  match nEntries with
  | O => mret tt
  | S nEntries' =>
      file_write name ("> Null" +:+ String NL EmptyString);;
      state ← write_residues name positions numbers residueToWrite;
      file_write name (String NL EmptyString);;
      write_entries name nEntries' positions state.1 state.2
  end.

(** The name of the file that is written. *)
Definition fasta_name (outFileName : string) : string :=
  if String.eqb (List.last (split "." outFileName) "") "fasta" then outFileName
  else outFileName +:+ ".fasta".

(** [writeFrequenciesToFASTA(frequencies, outFileName, precision)], for a
    [precision] that is an integer of 64 bits and an array of two
    dimensions, the list of its rows. Opening a file for writing does not
    raise [FileExistsError], so that the method returns 0 or raises. *)
Definition writeFrequenciesToFASTA (self : Optimizer) (frequencies : list (list float))
    (outFileName : string) (precision : Z) : M (gmap string string) Z :=
  let outFileName := fasta_name outFileName in
  open_w outFileName;;
  nEntries ← lift (np_power 10 precision);
  let numbers := scaled_numbers frequencies nEntries in
  residueToWrite ← lift (np_zeros_int (nPositions self));
  write_entries outFileName (Z.to_nat nEntries) (seq 0 (Z.to_nat (nPositions self)))
                numbers residueToWrite;;
  mret 0.

(** ** Vocabulary of the statements *)

(** A line of a sequence: it has a first character, which is not the [>]
    of a header. *)
Definition sequence_line (line : string) : Prop :=
  exists c s, line = String c s /\ c <> ">"%char.

(** The row of a profile that gives the listed residues their frequency
    and every other residue 0. *)
Definition profile_row (freqs : list (ascii * Q)) : list npfloat :=
  (fun item => Val (default 0%Q (assoc_lookup item.1 freqs))) <$> resToIndex_items.

(** Row [i] of the profile [tf] is the row [expected]. *)
Definition row_is (tf : list (list npfloat)) (i : nat) (expected : list npfloat) : bool :=
  match tf !! i with
  | Some r => row_eqb r expected
  | None => false
  end.

(** The entries of the row are numbers and add up to [t]. *)
Definition row_sums_to (r : list npfloat) (t : Q) : Prop :=
  exists q, row_sum r = Some q /\ (q == t)%Q.

(** An entry of the array of counts: a number that is not negative. *)
Definition count_val (x : npfloat) : Prop := exists q, x = Val q /\ (0 <= q)%Q.

(** A row of the array of counts next to its denominator [k]: 20 counts
    that add up to [k]. *)
Definition row_counts (r : list npfloat) (k : Z) : Prop :=
  length r = 20%nat /\ Forall count_val r /\ row_sums_to r (inject_Z k) /\ 0 <= k.

(** A row of the profile next to its denominator [k]: frequencies that add
    up to 1 when something was counted, and the outcome of 0/0 in every
    entry when nothing was. *)
Definition row_normalised (r : list npfloat) (k : Z) : Prop :=
  (0 < k /\ row_sums_to r 1) \/ (k = 0 /\ r = replicate 20 NaN).

(** Every record the models of the cache hold has its position in the
    window of [n] positions that starts at [lo]. *)
Definition models_in_window (ms : gmap string Model) (lo n : Z) : Prop :=
  forall ID m p, ms !! ID = Some m -> stored_position m p -> lo <= p < lo + n.

(** The test both ingestors make of a position: it is before the window
    or from its end on. *)
Definition outside_window (self : Optimizer) (position : Z) : bool :=
  (position <? minPosition self) || (minPosition self + nPositions self <=? position).

(** No record the models of the cache hold has a position beyond [hi]. *)
Definition models_upto (ms : gmap string Model) (hi : Z) : Prop :=
  forall ID m p, ms !! ID = Some m -> stored_position m p -> p <= hi.

(** The optimizer as [readData] and [readMicrostateData] prepare it before
    the first line is read. *)
Definition cleared (minPosition : Z) (self : Optimizer) : Optimizer :=
  set_minPosition minPosition (set_models (fun _ => ∅) self).

Section Stored.
Context `{PyBuiltins}.

(** The model a line of a macrostate table leaves under its ID: the record
    added to the model the cache holds there, or to a new one. *)
Definition stored_model (s : Optimizer) (r : macro_row) (backrubT boltzmanT : float)
    (energies : list float) : Model :=
  addMacrostateData
    (default (Model_init (PyInt (row_ensembleS r)) (PyFloat backrubT) (PyFloat boltzmanT)
                         (Some [0; 0; 0; 0]) 1 (nPositions s) (minPosition s) false None)
             (models s !! calcParamsID (PyFloat backrubT) (PyInt (row_ensembleS r))
                                       (PyFloat boltzmanT)))
    (row_macrostate r) (row_position r) energies.

(** The model a line of a microstate table leaves under its ID. *)
Definition stored_micro_model (s : Optimizer) (r : micro_row) (backrubT : float)
    (macrostate : Z) (energies : list float) : Model :=
  addMicrostateData
    (default (Model_init (PyInt 0) (PyFloat backrubT) (PyInt 0) None 0
                         (nPositions s) (minPosition s) true (positionMap s))
             (models s !! calcParamsID (PyFloat backrubT) PyNone PyNone))
    macrostate (mrow_position r) energies.

(** Every model of the cache is keyed by the ID of its own backrub
    temperature and two [None]. *)
Definition keyed_by_backrub (ms : gmap string Model) : Prop :=
  forall ID m, ms !! ID = Some m ->
    exists x, backrubTemp m = PyFloat x /\ ID = calcParamsID (PyFloat x) PyNone PyNone.

(** The records of microstates the cache [ms] holds, the cache [ms'] holds
    under the same IDs. *)
Definition records_kept (ms ms' : gmap string Model) : Prop :=
  forall ID m rec, ms !! ID = Some m -> In rec (microstateData m) ->
    exists m', ms' !! ID = Some m' /\ In rec (microstateData m').

(** The data line [line] of a microstate table has had its columns read
    and, when its position is in the window, its backrub temperature
    converted, its macrostate looked up in [index] and its energies put in
    an array: the record of this macrostate, position and array is in the
    model keyed by this backrub temperature. *)
Definition routed (index : gmap string Z) (ms : gmap string Model) (lo n : Z)
    (line : string) : Prop :=
  exists f,
    readMicrostateData_fields line = Ok f
    /\ (lo <= mrow_position f < lo + n ->
        exists x macrostate energies m,
          py_float (mrow_backrubT f) = Some x
          /\ index !! mrow_macrostate f = Some macrostate
          /\ energy_array (mrow_energies f) = Ok energies
          /\ ms !! calcParamsID (PyFloat x) PyNone PyNone = Some m
          /\ In (macrostate, mrow_position f, energies) (microstateData m)).

End Stored.

(** ** Vocabulary of the further properties *)

(** The index of the residue an entry has at character [i]: none for a gap,
    for a character that is no key of [resToIndex], and beyond the end of
    the entry. *)
Definition residue_at (thisEntry : string) (i : nat) : option nat :=
  match String.get i thisEntry with
  | Some c => if Ascii.eqb c "-" then None else resToIndex c
  | None => None
  end.

(** The entries of a FASTA file that the reading loop adds to the counts,
    in the order of the file: an entry is complete when the header after it
    is read. [thisEntry] is what has been read of the current entry. *)
Fixpoint counted_entries (lines : list string) (thisEntry : string) : list string :=
  match lines with
  | [] => []
  | line :: lines' =>
      match line with
      | String c _ =>
          if Ascii.eqb c ">" then
            if String.eqb thisEntry "" then counted_entries lines' ""
            else thisEntry :: counted_entries lines' ""
          else counted_entries lines' (thisEntry +:+ line)
      | EmptyString => counted_entries lines' (thisEntry +:+ line)
      end
  end.

(** How many of the entries have residue [j] at character [i], and how many
    have one of the 20 residues there. *)
Fixpoint residue_count (entries : list string) (i j : nat) : nat :=
  match entries with
  | [] => 0
  | e :: entries' =>
      match residue_at e i with
      | Some j' => if Nat.eqb j' j then S (residue_count entries' i j)
                   else residue_count entries' i j
      | None => residue_count entries' i j
      end
  end.

Fixpoint observation_count (entries : list string) (i : nat) : nat :=
  match entries with
  | [] => 0
  | e :: entries' =>
      match residue_at e i with
      | Some _ => S (observation_count entries' i)
      | None => observation_count entries' i
      end
  end.

(** The residue the loop over the positions [a] to [a + k - 1] counts at
    position [i]. *)
Definition counted_at (thisEntry : string) (a k i : nat) : option nat :=
  if (a <=? i)%nat && (i <? a + k)%nat then residue_at thisEntry i else None.

(** The entries of a list added to the counts one after the other. *)
Fixpoint count_entries (positions : list nat) (entries : list string) (nEntries : list Z)
    : M Optimizer (list Z) :=
  match entries with
  | [] => mret nEntries
  | e :: entries' =>
      nEntries' ← count_entry e positions nEntries;
      count_entries positions entries' nEntries'
  end.

(** The entry of row [i] and column [j] of an array. *)
Definition cell (tf : list (list npfloat)) (i j : nat) : option npfloat :=
  tf !! i ≫= fun row => row !! j.

(** The optimizer [s'] differs from [s] in the profile only. *)
Definition same_but_profile (s s' : Optimizer) : Prop :=
  s' = set_targetFrequencies (fun _ => targetFrequencies s') s.

(** The optimizer [s'] differs from [s] in the cache and in [minPosition]
    only. *)
Definition same_but_cache (s s' : Optimizer) : Prop :=
  s' = set_models (fun _ => models s') (set_minPosition (minPosition s') s).

(** The records of the cache [ms] are still in the cache [ms']: positions
    stay stored, under the same IDs. *)
Definition positions_kept (ms ms' : gmap string Model) : Prop :=
  forall ID m p, ms !! ID = Some m -> stored_position m p ->
    exists m', ms' !! ID = Some m' /\ stored_position m' p.

Section PickerVocabulary.
Context `{PyBuiltins}.

(** What [positionReindexerFASTA] reads of a line: the integers of the
    first and of the third column. *)
Definition picker_fields (line : string) : result (Z * Z) :=
  let entries := split " " line in
  first ← list_getitem entries 0;
  v ← int_of first;
  third ← list_getitem entries 2;
  p ← int_of (strip NL third);
  Ok (v, p).

(** The rank, among the lines, of the last one whose third column is the
    position [p]. *)
Fixpoint last_rank (p : Z) (lines : list string) : option nat :=
  match lines with
  | [] => None
  | line :: lines' =>
      match last_rank p lines' with
      | Some k => Some (S k)
      | None =>
          match picker_fields line with
          | Ok (_, q) => if q =? p then Some 0%nat else None
          | Raise _ => None
          end
      end
  end.

End PickerVocabulary.

(** The letters of residues given by their indices. *)
Definition letters (rs : list Z) : string :=
  fold_right (fun r text =>
                match str_getitem residues r with
                | Ok c => String c text
                | Raise _ => text
                end) "" rs.

(** The text of a FASTA file whose entries are all called Null and hold
    the residues of [rows]. *)
Definition fasta_text (rows : list (list Z)) : string :=
  fold_right (fun rs text =>
                "> Null" +:+ String NL EmptyString +:+ letters rs
                +:+ String NL EmptyString +:+ text) "" rows.

(** Each row gives every position a residue index that is at least the one
    the row before gives it. *)
Fixpoint columns_ascend (previous : list Z) (rows : list (list Z)) : Prop :=
  match rows with
  | [] => True
  | rs :: rows' => Forall2 Z.le previous rs /\ columns_ascend rs rows'
  end.

(** The files [fs'] are the files [fs] with [text] appended to the file
    [name]. *)
Definition appended (name text : string) (fs fs' : gmap string string) : Prop :=
  fs' = alter (fun written => written +:+ text) name fs.

(** Between [fs] and [fs'] no file but [name] has changed, and [name] has
    not been removed. *)
Definition only_file (name : string) (fs fs' : gmap string string) : Prop :=
  (forall other, other <> name -> fs' !! other = fs !! other)
  /\ (is_Some (fs !! name) -> is_Some (fs' !! name)).

(** An index of a residue. *)
Definition residue_index (r : Z) : Prop := 0 <= r <= 19.

(** An array with at least [nPositions] rows, the first [nPositions] of
    them of at least 20 entries, has room for all that
    [writeFrequenciesToFASTA] reads. *)
Definition profile_shaped (nPositions : Z) (frequencies : list (list float)) : Prop :=
  nPositions <= Z.of_nat (length frequencies)
  /\ forall (j : nat) row, Z.of_nat j < nPositions -> frequencies !! j = Some row ->
                           (20 <= length row)%nat.

(** The lines of a text, each with the newline that ends it, as the
    iteration over a file opened for reading yields them. *)
Fixpoint lines_of (text : string) : list string :=
  match text with
  | EmptyString => []
  | String c text' =>
      if Ascii.eqb c NL then String c EmptyString :: lines_of text'
      else match lines_of text' with
           | [] => [String c EmptyString]
           | line :: lines => String c line :: lines
           end
  end.

(** How many of the rows have the residue [j] at the position [i]. *)
Fixpoint column_count (rows : list (list Z)) (i j : nat) : nat :=
  match rows with
  | [] => 0
  | rs :: rows' =>
      match rs !! i with
      | Some r => if r =? Z.of_nat j then S (column_count rows' i j)
                  else column_count rows' i j
      | None => column_count rows' i j
      end
  end.

(** The two lines of an entry of [fasta_text]. *)
Definition header_line : string := "> Null" +:+ String NL EmptyString.
Definition entry_line (rs : list Z) : string := letters rs +:+ String NL EmptyString.

(** The optimizer [s'] differs from [s] in the map of positions only. *)
Definition same_but_positionMap (s s' : Optimizer) : Prop :=
  s' = set_positionMap (fun _ => positionMap s') s.

Section Loaded.
Context `{PyBuiltins}.

(** The data line with the fields [f] has been loaded into the cache [ms]:
    its temperatures and energies convert, and the model under its ID has
    the slot of its macrostate and position filled; for [exact] the slot
    holds the energies of this very line. *)
Definition line_loaded (exact : bool) (ms : gmap string Model) (f : macro_row) : Prop :=
  exists backrubT boltzmanT energies m,
    py_float (row_backrubT f) = Some backrubT
    /\ boltzmann_of (row_boltzmanT f) = Ok boltzmanT
    /\ energy_array (row_energies f) = Ok energies
    /\ ms !! calcParamsID (PyFloat backrubT) (PyInt (row_ensembleS f)) (PyFloat boltzmanT)
       = Some m
    /\ if exact
       then macrostateData m !! (row_macrostate f, row_position f) = Some energies
       else is_Some (macrostateData m !! (row_macrostate f, row_position f)).

End Loaded.

(** ** Properties the development asks of [str] on floats *)

(** [occurs c s]: the character [c] occurs in [s]. *)
Fixpoint occurs (c : ascii) (s : string) : Prop :=
  match s with
  | EmptyString => False
  | String a s' => a = c \/ occurs c s'
  end.

(** What is used of Python's [str] on a float: the text has no blank, is
    not the text of [None] or of an integer, and determines the float (the
    shortest text that reads back as the same float, sign of zero
    included). *)
Class FloatStrSpec `{PyBuiltins} : Prop := {
  float_str_no_space : forall x, ~ occurs " " (float_str x);
  float_str_inj : forall x y, float_str x = float_str y -> x = y;
  float_str_not_None : forall x, float_str x <> "None";
  float_str_not_int : forall x z, float_str x <> str_int z
}.

(** ** Concrete inputs *)

Module Fixtures.

(** A line of a text file. *)
Definition ln (s : string) : string := s +:+ String NL EmptyString.

(** A row of a tab-delimited table. *)
Fixpoint tsv (fields : list string) : string :=
  match fields with
  | [] => String NL EmptyString
  | [f] => ln f
  | f :: fields' => f +:+ String TAB (tsv fields')
  end.

(** The alignment of the three sequences AC-D, AC-E and A-ED, as a FASTA
    file, and the same file with one more header line at its end. *)
Definition alignment : list string :=
  [ln ">NULL"; ln "AC-D"; ln ">seq2"; ln "AC-E"; ln ">seq3"; ln "A-ED"].

Definition alignment_closed : list string := alignment ++ [ln ">"].

(** An alignment whose second column holds gaps only. *)
Definition gap_column : list string :=
  [ln ">NULL"; ln "A-"; ln ">seq2"; ln "C-"; ln ">"].

(** A text for floats that tells apart zeros, infinities, not-a-number and
    the finite values by a leading letter. *)
Definition tagged_float_str (x : float) : string :=
  match Prim2SF x with
  | S754_zero s => if s then "z-" else "z+"
  | S754_infinity s => if s then "i-" else "i+"
  | S754_nan => "nan"
  | S754_finite s m e =>
      String "f" (String (if s then "-" else "+")
        (str_int (Zpos m) +:+ String "p" (str_int e)))
  end.

(** The texts of the tables below, with the floats and the dict they stand
    for. *)
Definition energies_text : string :=
  "{'A': 0.0, 'C': 0.0, 'D': 0.0, 'E': 0.0, 'F': 0.0, 'G': 0.0, 'H': 0.0, 'I': 0.0, 'K': 0.0, 'L': 0.0, 'M': 0.0, 'N': 0.0, 'P': 0.0, 'Q': 0.0, 'R': 0.0, 'S': 0.0, 'T': 0.0, 'V': 0.0, 'W': 0.0, 'Y': 0.0}".

Definition energies_dict : gmap string float :=
  list_to_map ((fun r => (r, 0%float)) <$> indexToRes).

Definition table_float (s : string) : option float :=
  if String.eqb s "0.5" then Some 0.5%float
  else if String.eqb s "1.0" then Some 1%float
  else if String.eqb s "1.5" then Some 1.5%float
  else None.

Definition table_literal_eval (s : string) : result (gmap string float) :=
  if String.eqb (strip NL s) energies_text then Ok energies_dict
  else Raise (ValueError s).

(** Builtins that agree with Python's on the texts of the tables below:
    [int] on decimal numerals, [float] on three literals, and
    [ast.literal_eval] on [energies_text]. *)
#[export] Instance table_builtins : PyBuiltins := {|
  py_int s := Z.of_int <$> NilZero.int_of_string s;
  py_float := table_float;
  float_str := tagged_float_str;
  literal_eval := table_literal_eval
|}.

Definition macrostates : gmap string Z := {[ "apo" := 0; "holo" := 1 ]}.

(** An optimizer whose target profile has two positions. *)
Definition optimizer2 : Optimizer :=
  set_targetFreqsRead true (set_nPositions 2 (Optimizer_init macrostates true)).

Definition header : string :=
  tsv ["macrostate"; "backrubT"; "ensembleS"; "boltzmanT"; "position"; "energies"].

(** A macrostate table: two rows in the window that starts at position 5,
    then a row at position 4, before the window, whose Boltzmann
    temperature is no number. *)
Definition macro_table : list string :=
  [header;
   tsv ["apo"; "0.5"; "50"; "mean"; "5"; energies_text];
   tsv ["holo"; "0.5"; "50"; "min"; "6"; energies_text];
   tsv ["apo"; "0.5"; "50"; "abc"; "4"; energies_text]].

(** The same table without its last row. *)
Definition macro_table_short : list string := take 3 macro_table.


Definition micro_header : string :=
  tsv ["macrostate"; "backrubT"; "position"; "backbone"; "energies"].

(** A microstate table: two backbones of one slot, a row with another
    backrub temperature, and a row outside the window. *)
Definition micro_table : list string :=
  [micro_header;
   tsv ["apo"; "0.5"; "5"; "1"; energies_text];
   tsv ["apo"; "0.5"; "5"; "2"; energies_text];
   tsv ["holo"; "1.5"; "6"; "1"; energies_text];
   tsv ["holo"; "1.5"; "9"; "1"; energies_text]].


(** Builtins that agree with Python's on the two zeros as well: [float]
    makes 0.0 of the text 0.0 and -0.0 of the text -0.0. *)
Definition zero_float (s : string) : option float :=
  if String.eqb s "0.0" then Some 0%float
  else if String.eqb s "-0.0" then Some (-0)%float
  else table_float s.

Definition zero_builtins : PyBuiltins := {|
  py_int s := Z.of_int <$> NilZero.int_of_string s;
  py_float := zero_float;
  float_str := tagged_float_str;
  literal_eval := table_literal_eval
|}.

(** A microstate table of two rows at position 5, with the backrub
    temperatures 0.0 and -0.0. *)
Definition micro_table_zeros : list string :=
  [micro_header;
   tsv ["apo"; "0.0"; "5"; "1"; energies_text];
   tsv ["apo"; "-0.0"; "5"; "2"; energies_text]].

(** A microstate table of two rows at the positions -5 and -4. *)
Definition micro_table_negative : list string :=
  [micro_header;
   tsv ["apo"; "0.5"; "-5"; "1"; energies_text];
   tsv ["apo"; "0.5"; "-4"; "1"; energies_text]].

(** Operations of the models that hand the template and its frequencies,
    none here, back. *)
#[export] Instance template_ops : ModelOps := {|
  constructFromExisting m _ _ _ _ _ := Ok m;
  getFrequencies _ := Ok []
|}.

(** A file of positions: the columns 0 and 2 of the alignment, for the
    positions 5 and 7 of the sequence. *)
Definition positions_file : list string :=
  [ln "0 x 5"; ln "2 x 7"].

(** An optimizer for positions that are not contiguous. *)
Definition optimizer_picked : Optimizer := Optimizer_init macrostates false.

(** A profile of two positions: halves of A and C, and a quarter of A
    with three quarters of C. *)
Definition profile2 : list (list float) :=
  [ [0.5; 0.5] ++ replicate 18 0; [0.25; 0.75] ++ replicate 18 0 ]%float%list.

End Fixtures.

Import Fixtures.

(** * Properties *)

(** ** Running a method *)

Lemma run_bind {S A B} (m : M S A) (f : A -> M S B) (s : S) :
  (m ≫= f) s = match m s with
               | (Ok a, s') => f a s'
               | (Raise e, s') => (Raise e, s')
               end.
Proof. reflexivity. Qed.

Lemma run_lift_bind {S A B} (r : result A) (f : A -> M S B) (s : S) :
  (lift r ≫= f) s = match r with
                    | Ok a => f a s
                    | Raise e => (Raise e, s)
                    end.
Proof. unfold mbind, M_bind, lift. destruct r; reflexivity. Qed.

Lemma run_get_bind {S B} (f : S -> M S B) (s : S) : (get ≫= f) s = f s s.
Proof. reflexivity. Qed.

Lemma run_modify_bind {S B} (g : S -> S) (f : unit -> M S B) (s : S) :
  (modify g ≫= f) s = f tt (g s).
Proof. reflexivity. Qed.

Lemma run_ret {S A} (a : A) (s : S) : (mret a : M S A) s = (Ok a, s).
Proof. reflexivity. Qed.

(** ** positionReindexer *)

(** C9, as amended. Whatever the file holds, [positionReindexer] raises and
    returns no index: an empty file reaches [indices['nPos'] = n], which is
    a [TypeError]; otherwise the first line decides, a [TypeError] at
    [indices[i] = n] when the line has at least three fields separated by
    blanks, an [IndexError] at [entries[2]] when it has fewer. *)
Theorem positionReindexer_raises (data : list string) :
  positionReindexer data =
  Raise match data with
        | [] => TypeError
        | line :: _ =>
            if (2 <? length (split " " line))%nat then TypeError else IndexError
        end.
Proof.
  destruct data as [|line rest]; [reflexivity|].
  unfold positionReindexer. cbn [positionReindexer_loop].
  unfold list_getitem.
  destruct (split " " line !! 2%nat) as [field|] eqn:E.
  - apply lookup_lt_Some in E.
    destruct (Nat.ltb_spec 2 (length (split " " line))); [reflexivity | lia].
  - apply lookup_ge_None in E.
    destruct (Nat.ltb_spec 2 (length (split " " line))); [lia | reflexivity].
Qed.

(** C9, as stated, fails: a file whose first line has two fields raises an
    [IndexError], not a [TypeError]. *)
Lemma positionReindexer_two_fields :
  positionReindexer [Fixtures.ln "1 2"] = Raise IndexError
  /\ ~ (forall data, data <> [] -> positionReindexer data = Raise TypeError).
Proof.
  split; [reflexivity|].
  intros C. specialize (C [Fixtures.ln "1 2"]).
  assert (E : positionReindexer [Fixtures.ln "1 2"] = Raise IndexError) by reflexivity.
  rewrite E in C. discriminate C. discriminate.
Qed.

(** ** getModelByParams *)

Section Lookup.
Context `{PyBuiltins}.

(** C3. [getModelByParams] returns the model the cache holds under the
    parameter ID of its three arguments; when the cache holds none it
    raises a [KeyError], which is a [LookupError]; in both cases the
    optimizer, its cache included, is left as it was. *)
Theorem getModelByParams_lookup (self : Optimizer) (param1 param2 param3 : pyval)
    (found : option Model) :
  models self !! calcParamsID param1 param2 param3 = found ->
  match found with
  | Some model => getModelByParams param1 param2 param3 self = (Ok model, self)
  | None =>
      exists e, getModelByParams param1 param2 param3 self = (Raise e, self)
                /\ is_LookupError e
  end.
Proof.
  intros E. unfold getModelByParams. rewrite run_get_bind.
  unfold lift, dict_getitem. rewrite E.
  destruct found; [reflexivity|].
  eexists; split; [reflexivity | exact I].
Qed.

End Lookup.

(** A cache that holds a model finds it, and raises for another ID. *)
Lemma getModelByParams_lookup_witness :
  let self := (readData Fixtures.macro_table Fixtures.optimizer2).2 in
  (exists model, getModelByParams (PyFloat 0.5) (PyInt 50) (PyFloat 0) self = (Ok model, self))
  /\ (exists e, getModelByParams (PyFloat 0.5) (PyInt 51) (PyFloat 0) self = (Raise e, self)
                /\ is_LookupError e).
Proof.
  split.
  - eexists.
    refine (getModelByParams_lookup _ (PyFloat 0.5) (PyInt 50) (PyFloat 0) (Some _) _).
    vm_compute. reflexivity.
  - refine (getModelByParams_lookup _ (PyFloat 0.5) (PyInt 51) (PyFloat 0) None _).
    vm_compute. reflexivity.
Defined.

(** ** readTargetFrequencies on the alignment of the spec's example *)

(** C7, as amended. On the alignment AC-D, AC-E, A-ED at positions 1 to 4,
    its three sequences counted, position 2 (column 1) gets C = 1.0 and
    every other residue 0, and position 3 (column 2), which holds two gaps
    and one E, gets E = 1.0 and every other residue 0: the residues of a
    column are counted, its gaps are not. *)
Theorem alignment_profile (self : Optimizer) :
  counted_entries Fixtures.alignment_closed ""
  = [Fixtures.ln "AC-D"; Fixtures.ln "AC-E"; Fixtures.ln "A-ED"]
  /\ exists tf, (readTargetFrequencies Fixtures.alignment_closed self).1 = Ok tf
       /\ row_is tf 1 (profile_row [("C"%char, 1%Q)]) = true
       /\ row_is tf 2 (profile_row [("E"%char, 1%Q)]) = true.
Proof.
  split; [vm_compute; reflexivity|].
  eexists. split; [vm_compute; reflexivity|]. vm_compute. auto.
Qed.

(** C7, as stated, fails: column 2 of the alignment holds no D, and row 2
    of the profile is not E = 0.5, D = 0.5, whether or not a header line
    follows the third sequence. *)
Lemma alignment_profile_column2 :
  ~ (exists tf self',
       readTargetFrequencies Fixtures.alignment_closed (Optimizer_init ∅ true)
       = (Ok tf, self')
       /\ row_is tf 2 (profile_row [("D"%char, 1 # 2); ("E"%char, 1 # 2)]) = true
       /\ row_is tf 1 (profile_row [("C"%char, 1%Q)]) = true)
  /\ ~ (exists tf self',
          readTargetFrequencies Fixtures.alignment (Optimizer_init ∅ true)
          = (Ok tf, self')
          /\ row_is tf 2 (profile_row [("D"%char, 1 # 2); ("E"%char, 1 # 2)]) = true
          /\ row_is tf 1 (profile_row [("C"%char, 1%Q)]) = true).
Proof.
  split; intros (tf & self' & E & R2 & _).
  - assert (F : (readTargetFrequencies Fixtures.alignment_closed
                   (Optimizer_init ∅ true)).1 = Ok tf) by (rewrite E; reflexivity).
    vm_compute in F. injection F as <-. vm_compute in R2. discriminate R2.
  - assert (F : (readTargetFrequencies Fixtures.alignment (Optimizer_init ∅ true)).1
                = Ok tf) by (rewrite E; reflexivity).
    vm_compute in F. injection F as <-. vm_compute in R2. discriminate R2.
Qed.

(** ** The last entry of the alignment *)

Lemma str_getitem_head (c : ascii) (s : string) : str_getitem (String c s) 0 = Ok c.
Proof.
  unfold str_getitem. cbn [String.length Z.ltb Z.compare].
  destruct (Z.ltb_spec 0 (Z.of_nat (S (String.length s)))); [reflexivity | lia].
Qed.

Lemma first_entry_sequence_lines (entry : string) (last : list string) :
  Forall sequence_line last -> first_entry entry last = Raise IndexError.
Proof.
  intros F. revert entry.
  induction F as [|line last (c & s & -> & Hc) _ IH]; intros entry; [reflexivity|].
  cbn [first_entry]. rewrite str_getitem_head. cbn [mbind result_bind].
  destruct (Ascii.eqb_spec c ">"); [contradiction | apply IH].
Qed.

Lemma first_entry_app (entry : string) (lines last : list string) :
  Forall sequence_line last ->
  first_entry entry (lines ++ last) = first_entry entry lines.
Proof.
  intros F. revert entry.
  induction lines as [|line lines IH]; intros entry.
  - apply first_entry_sequence_lines, F.
  - cbn [app first_entry]. destruct (str_getitem line 0); [|reflexivity].
    cbn [mbind result_bind]. destruct (Ascii.eqb a ">"); [reflexivity | apply IH].
Qed.

Lemma read_entries_sequence_lines (positions : list nat) (last : list string)
    (thisEntry : string) (nEntries : list Z) (self : Optimizer) :
  Forall sequence_line last ->
  read_entries positions last thisEntry nEntries self = (Ok nEntries, self).
Proof.
  intros F. revert thisEntry.
  induction F as [|line last (c & s & -> & Hc) _ IH]; intros thisEntry; [reflexivity|].
  cbn [read_entries]. rewrite run_lift_bind, str_getitem_head.
  destruct (Ascii.eqb_spec c ">"); [contradiction | apply IH].
Qed.

Lemma read_entries_app (positions : list nat) (lines last : list string)
    (thisEntry : string) (nEntries : list Z) (self : Optimizer) :
  Forall sequence_line last ->
  read_entries positions (lines ++ last) thisEntry nEntries self
  = read_entries positions lines thisEntry nEntries self.
Proof.
  intros F. revert thisEntry nEntries self.
  induction lines as [|line lines IH]; intros thisEntry nEntries self.
  - apply read_entries_sequence_lines, F.
  - cbn [app read_entries]. rewrite !run_lift_bind.
    destruct (str_getitem line 0) as [c|e]; [|reflexivity].
    destruct (Ascii.eqb c ">"); [|apply IH].
    destruct (String.eqb thisEntry ""); [apply IH|].
    rewrite !run_bind.
    destruct (count_entry thisEntry positions nEntries self) as [[nEntries'|e] self'];
      [apply IH | reflexivity].
Qed.

(** C8. Lines of sequence at the end of the file, after the last header,
    are the last entry: no header follows them, so they are never added.
    The counts, the denominators [nEntries] and with them the whole outcome
    of [readTargetFrequencies] are those of the file without these
    lines. *)
Theorem last_entry_not_counted (source last : list string) (self : Optimizer) :
  Forall sequence_line last ->
  (forall n, count_residues n (source ++ last) self = count_residues n source self)
  /\ readTargetFrequencies (source ++ last) self = readTargetFrequencies source self.
Proof.
  intros F.
  assert (C : forall n s, count_residues n (source ++ last) s = count_residues n source s).
  { intros n s. unfold count_residues. rewrite !run_modify_bind.
    apply read_entries_app, F. }
  split; [intros n; apply C|].
  unfold readTargetFrequencies.
  assert (T : first_entry "" (tail (source ++ last)) = first_entry "" (tail source)).
  { destruct source as [|l0 source]; cbn [app tail].
    - rewrite (first_entry_sequence_lines "" (tail last)); [reflexivity|].
      destruct F; [constructor | assumption].
    - apply first_entry_app, F. }
  rewrite T, !run_lift_bind.
  destruct (first_entry "" (tail source)) as [entry|e]; [|reflexivity].
  rewrite !run_modify_bind, !run_lift_bind.
  destruct (str_getitem entry (-2)); [|reflexivity].
  rewrite !run_get_bind, !run_bind, C. reflexivity.
Qed.

(** The third sequence of the alignment is its last entry. *)
Lemma last_entry_not_counted_witness :
  Forall sequence_line [Fixtures.ln "A-ED"]
  /\ readTargetFrequencies Fixtures.alignment (Optimizer_init ∅ true)
     = readTargetFrequencies (take 5 Fixtures.alignment) (Optimizer_init ∅ true).
Proof.
  assert (F : Forall sequence_line [Fixtures.ln "A-ED"]).
  { repeat constructor. eexists _, _. split; [reflexivity | discriminate]. }
  split; [exact F|].
  exact (proj2 (last_entry_not_counted (take 5 Fixtures.alignment) [Fixtures.ln "A-ED"]
                  (Optimizer_init ∅ true) F)).
Defined.

(** ** Rows of the target frequency profile *)

Lemma resToIndex_lt (c : ascii) (j : nat) : resToIndex c = Some j -> (j < 20)%nat.
Proof.
  unfold resToIndex, resToIndex_items. cbn [assoc_lookup].
  repeat case_match; intros; simplify_eq; lia.
Qed.

Lemma row_sum_nonneg (r : list npfloat) (t : Q) :
  Forall count_val r -> row_sum r = Some t -> (0 <= t)%Q.
Proof.
  intros F. revert t.
  induction F as [|x r (q & -> & Hq) _ IH]; intros t E; cbn [row_sum] in E.
  - injection E as <-. lra.
  - destruct (row_sum r) as [t0|]; [|discriminate].
    injection E as <-. specialize (IH t0 eq_refl). lra.
Qed.

Lemma row_sum_incr (r : list npfloat) (j : nat) (t : Q) :
  (j < length r)%nat -> Forall count_val r -> row_sum r = Some t ->
  exists t', row_sum (alter np_incr j r) = Some t' /\ (t' == t + 1)%Q.
Proof.
  intros Hj F. revert j t Hj.
  induction F as [|x r (q & -> & Hq) _ IH]; intros j t Hj E; cbn [length] in Hj; [lia|].
  cbn [row_sum] in E.
  destruct (row_sum r) as [t0|] eqn:E0; [|discriminate].
  injection E as <-.
  destruct j as [|j]; cbn [alter list_alter np_incr row_sum].
  - rewrite E0. eexists; split; [reflexivity | ring].
  - destruct (IH j t0 ltac:(lia) eq_refl) as (t' & -> & Ht').
    eexists; split; [reflexivity|]. rewrite Ht'. ring.
Qed.

Lemma count_val_incr (x : npfloat) : count_val x -> count_val (np_incr x).
Proof.
  intros (q & -> & Hq). exists (q + 1)%Q. split; [reflexivity | lra].
Qed.

Lemma row_counts_incr (r : list npfloat) (k : Z) (j : nat) :
  (j < 20)%nat -> row_counts r k -> row_counts (alter np_incr j r) (Z.succ k).
Proof.
  intros Hj (Hlen & F & (t & Et & Ht) & Hk).
  split; [rewrite length_alter; exact Hlen|].
  split; [apply Forall_alter; [exact F | intros; apply count_val_incr; assumption]|].
  split; [|lia].
  destruct (row_sum_incr r j t ltac:(lia) F Et) as (t' & Et' & Ht').
  exists t'. split; [exact Et'|].
  rewrite Ht', Ht. unfold Z.succ. rewrite inject_Z_plus. reflexivity.
Qed.

Lemma count_entry_counts (thisEntry : string) (positions : list nat)
    (nEntries : list Z) (s : Optimizer) :
  Forall2 row_counts (targetFrequencies s) nEntries ->
  match count_entry thisEntry positions nEntries s with
  | (Ok nEntries', s') =>
      nPositions s' = nPositions s
      /\ Forall2 row_counts (targetFrequencies s') nEntries'
  | (Raise _, _) => True
  end.
Proof.
  revert nEntries s.
  induction positions as [|i positions IH]; intros nEntries s Inv; [split; [reflexivity|exact Inv]|].
  cbn [count_entry]. rewrite run_lift_bind.
  destruct (str_getitem thisEntry (Z.of_nat i)) as [c|e]; [|exact I].
  destruct (Ascii.eqb c "-"); [apply IH, Inv|].
  destruct (resToIndex c) as [j|] eqn:Ej; [|apply IH, Inv].
  rewrite run_modify_bind.
  specialize (IH (alter Z.succ i nEntries)
                 (set_targetFrequencies (alter (alter np_incr j) i) s)).
  cbn [set_targetFrequencies targetFrequencies nPositions] in IH.
  apply IH. apply Forall2_alter; [exact Inv|].
  intros r k _ _. apply row_counts_incr. eapply resToIndex_lt, Ej.
Qed.

Lemma read_entries_counts (positions : list nat) (lines : list string)
    (thisEntry : string) (nEntries : list Z) (s : Optimizer) :
  Forall2 row_counts (targetFrequencies s) nEntries ->
  match read_entries positions lines thisEntry nEntries s with
  | (Ok nEntries', s') =>
      nPositions s' = nPositions s
      /\ Forall2 row_counts (targetFrequencies s') nEntries'
  | (Raise _, _) => True
  end.
Proof.
  revert thisEntry nEntries s.
  induction lines as [|line lines IH]; intros thisEntry nEntries s Inv;
    [split; [reflexivity|exact Inv]|].
  cbn [read_entries]. rewrite run_lift_bind.
  destruct (str_getitem line 0) as [c|e]; [|exact I].
  destruct (Ascii.eqb c ">"); [|apply IH, Inv].
  destruct (String.eqb thisEntry ""); [apply IH, Inv|].
  rewrite run_bind.
  pose proof (count_entry_counts thisEntry positions nEntries s Inv) as C.
  destruct (count_entry thisEntry positions nEntries s) as [[nEntries'|e] s']; [|exact I].
  destruct C as [Hn Inv'].
  specialize (IH "" nEntries' s' Inv').
  destruct (read_entries positions lines "" nEntries' s') as [[nEntries''|e] s'']; [|exact I].
  destruct IH as [Hn' Inv'']. split; [congruence | exact Inv''].
Qed.

Lemma zeros_counts (n : nat) : Forall2 row_counts (zeros2 n 20) (zeros1 n).
Proof.
  unfold zeros2, zeros1. apply Forall2_replicate.
  split; [reflexivity|]. split.
  - apply Forall_replicate. exists 0%Q. split; [reflexivity | lra].
  - split; [|lia]. eexists; split; [vm_compute; reflexivity | reflexivity].
Qed.

Lemma row_sum_div (r : list npfloat) (t : Q) (k : Z) :
  k <> 0 -> Forall count_val r -> row_sum r = Some t ->
  exists t', row_sum ((fun x => np_div x k) <$> r) = Some t'
             /\ (t' == t / inject_Z k)%Q.
Proof.
  intros Hk F. revert t.
  assert (Hq : ~ (inject_Z k == 0)%Q).
  { unfold Qeq, inject_Z. cbn. lia. }
  induction F as [|x r (q & -> & Hx) _ IH]; intros t E; cbn [row_sum] in E.
  - injection E as <-. exists 0%Q. split; [reflexivity | field; exact Hq].
  - destruct (row_sum r) as [t0|]; [|discriminate].
    injection E as <-.
    destruct (IH t0 eq_refl) as (t' & Et' & Ht').
    cbn [fmap list_fmap np_div row_sum].
    destruct (Z.eqb_spec k 0); [contradiction|].
    change (list_fmap _ _ ?f r) with (f <$> r). rewrite Et'.
    eexists; split; [reflexivity|]. rewrite Ht'. field. exact Hq.
Qed.

Lemma row_all_zero (r : list npfloat) (t : Q) :
  Forall count_val r -> row_sum r = Some t -> (t == 0)%Q ->
  (fun x => np_div x 0) <$> r = replicate (length r) NaN.
Proof.
  intros F. revert t.
  induction F as [|x r (q & -> & Hx) F IH]; intros t E Ht; [reflexivity|].
  cbn [row_sum] in E.
  destruct (row_sum r) as [t0|] eqn:E0; [|discriminate].
  injection E as <-.
  pose proof (row_sum_nonneg r t0 F E0) as H0.
  cbn [fmap list_fmap length replicate np_div Z.eqb].
  assert (Hq : (q == 0)%Q) by lra.
  apply Qeq_bool_iff in Hq. rewrite Hq.
  f_equal. apply (IH t0 eq_refl). lra.
Qed.

Lemma row_counts_normalised (r : list npfloat) (k : Z) :
  row_counts r k -> row_normalised ((fun x => np_div x k) <$> r) k.
Proof.
  intros (Hlen & F & (t & Et & Ht) & Hk).
  destruct (Z.eq_dec k 0) as [->|Hne].
  - right. split; [reflexivity|].
    rewrite (row_all_zero r t F Et Ht), Hlen. reflexivity.
  - left. split; [lia|].
    destruct (row_sum_div r t k Hne F Et) as (t' & Et' & Ht').
    exists t'. split; [exact Et'|]. rewrite Ht', Ht.
    field. unfold Qeq, inject_Z. cbn. lia.
Qed.

Lemma counts_to_frequencies_normalised (tf : list (list npfloat)) (nEntries : list Z) :
  Forall2 row_counts tf nEntries ->
  Forall2 row_normalised (counts_to_frequencies nEntries tf) nEntries.
Proof.
  unfold counts_to_frequencies.
  induction 1 as [|r k tf nEntries Hr _ IH]; cbn [zip_with]; constructor;
    [apply row_counts_normalised, Hr | exact IH].
Qed.

(** C2, as amended. When [readTargetFrequencies] returns, the profile it
    returns is the one the optimizer holds, and with [nEntries] the numbers
    of residues the counting pass counted at each position: the row of a
    position where something was counted adds up to 1, and the row of a
    position where nothing was counted holds the outcome of 0/0 in every
    entry, the call having returned all the same. *)
Theorem readTargetFrequencies_rows (source : list string) (self self' : Optimizer)
    (tf : list (list npfloat)) :
  readTargetFrequencies source self = (Ok tf, self') ->
  targetFrequencies self' = tf
  /\ exists nEntries counted,
       count_residues (Z.to_nat (nPositions self')) source
                      (set_nPositions (nPositions self') self)
       = (Ok nEntries, counted)
       /\ Forall2 row_normalised tf nEntries.
Proof.
  unfold readTargetFrequencies. rewrite run_lift_bind.
  destruct (first_entry "" (tail source)) as [entry|e]; [|discriminate].
  rewrite run_modify_bind, run_lift_bind.
  destruct (str_getitem entry (-2)) as [c|e]; [|discriminate].
  rewrite run_get_bind, run_bind.
  set (n := Z.of_nat (String.length entry) - 1).
  cbn [set_nPositions nPositions].
  pose proof (read_entries_counts (seq 0 (Z.to_nat n)) source "" (zeros1 (Z.to_nat n))
                (set_targetFrequencies (fun _ => zeros2 (Z.to_nat n) 20)
                   (set_nPositions n self)) (zeros_counts _)) as C.
  unfold count_residues at 1. rewrite run_modify_bind.
  destruct (read_entries _ _ _ _ _) as [[nEntries|e] s1] eqn:R; [|discriminate].
  destruct C as [Hn Inv].
  rewrite run_modify_bind, run_modify_bind, run_get_bind, run_ret.
  intros E. injection E as <- <-.
  cbn [set_targetFreqsRead set_targetFrequencies targetFrequencies nPositions].
  split; [reflexivity|].
  cbn [set_targetFrequencies set_nPositions nPositions] in Hn. rewrite Hn.
  exists nEntries, s1. split.
  - unfold count_residues. rewrite run_modify_bind. exact R.
  - apply counts_to_frequencies_normalised, Inv.
Qed.

(** A file whose second column holds gaps only: the call returns. *)
Lemma readTargetFrequencies_rows_witness :
  exists tf self',
    readTargetFrequencies Fixtures.gap_column (Optimizer_init ∅ true) = (Ok tf, self')
    /\ targetFrequencies self' = tf
    /\ exists nEntries, Forall2 row_normalised tf nEntries.
Proof.
  eexists _, _. split; [vm_compute; reflexivity|].
  refine (match readTargetFrequencies_rows Fixtures.gap_column (Optimizer_init ∅ true) _ _ _ with
          | conj A (ex_intro _ nEntries (ex_intro _ _ (conj _ B))) =>
              conj A (ex_intro _ nEntries B)
          end).
  vm_compute. reflexivity.
Defined.

(** C2, as stated, fails: with a column of gaps only the call raises
    nothing; it returns a profile whose row for that column is not a
    number. *)
Lemma gap_column_returns :
  exists tf self',
    readTargetFrequencies Fixtures.gap_column (Optimizer_init ∅ true) = (Ok tf, self')
    /\ row_is tf 0 (profile_row [("A"%char, 1 # 2); ("C"%char, 1 # 2)]) = true
    /\ row_is tf 1 (replicate 20 NaN) = true.
Proof.
  eexists _, _. split; [vm_compute; reflexivity|]. split; vm_compute; reflexivity.
Qed.

(** ** Parameter IDs *)

(** Two texts cut at the first occurrence of a separator. *)
Lemma separator_split (c : ascii) (a a' b b' : string) :
  ~ occurs c a -> ~ occurs c a' ->
  a +:+ String c b = a' +:+ String c b' -> a = a' /\ b = b'.
Proof.
  revert a'. induction a as [|x a IH]; intros [|y a'] Ha Ha' E; cbn in E.
  - injection E as ->. split; reflexivity.
  - injection E as -> _. exfalso. apply Ha'. left. reflexivity.
  - injection E as -> _. exfalso. apply Ha. left. reflexivity.
  - injection E as -> E. cbn in Ha, Ha'.
    destruct (IH a') as [-> ->]; [tauto | tauto | exact E | split; reflexivity].
Qed.

Lemma string_of_uint_digits (d : Decimal.uint) (c : ascii) :
  occurs c (NilEmpty.string_of_uint d) -> occurs c "0123456789".
Proof.
  induction d; cbn [NilEmpty.string_of_uint occurs]; intros H;
    [contradiction | destruct H as [<-|H]; [cbn; tauto | exact (IHd H)] ..].
Qed.

Lemma str_int_chars (z : Z) (c : ascii) :
  occurs c (str_int z) -> occurs c "-0123456789".
Proof.
  assert (U : forall d, occurs c (NilZero.string_of_uint d) -> occurs c "0123456789").
  { intros d. destruct d; try apply (string_of_uint_digits _ c). cbn. tauto. }
  unfold str_int. destruct (Z.to_int z) as [d|d]; cbn [NilZero.string_of_int occurs].
  - intros Hc. right. exact (U d Hc).
  - intros [<-|Hc]; [left; reflexivity | right; exact (U d Hc)].
Qed.

Lemma str_int_no_space (z : Z) : ~ occurs " " (str_int z).
Proof.
  intros Hc. apply str_int_chars in Hc. cbn in Hc.
  repeat (destruct Hc as [Hc|Hc]; [discriminate Hc|]). exact Hc.
Qed.

Lemma str_int_inj (z1 z2 : Z) : str_int z1 = str_int z2 -> z1 = z2.
Proof.
  unfold str_int. intros E.
  assert (N : forall z, Z.to_int z <> Decimal.Pos Decimal.Nil
                        /\ Z.to_int z <> Decimal.Neg Decimal.Nil).
  { intros [|p|p]; cbn; split; try discriminate;
      intros [= E']; exact (Unsigned.to_uint_nonnil p E'). }
  pose proof (NilZero.isi (Z.to_int z1) (proj1 (N z1)) (proj2 (N z1))) as E1.
  pose proof (NilZero.isi (Z.to_int z2) (proj1 (N z2)) (proj2 (N z2))) as E2.
  rewrite E in E1. rewrite E1 in E2. injection E2 as E2.
  rewrite <- (DecimalZ.of_to z1), <- (DecimalZ.of_to z2), E2. reflexivity.
Qed.

Lemma str_int_not_None (z : Z) : str_int z <> "None".
Proof.
  intros E. assert (Hc : occurs "N" (str_int z)) by (rewrite E; left; reflexivity).
  apply str_int_chars in Hc. cbn in Hc.
  repeat (destruct Hc as [Hc|Hc]; [discriminate Hc|]). exact Hc.
Qed.

Section ParamsID.
Context `{FloatStrSpec}.

Lemma str_no_space (v : pyval) : ~ occurs " " (str v).
Proof.
  destruct v; cbn [str].
  - cbn. intros Hc. repeat (destruct Hc as [Hc|Hc]; [discriminate Hc|]). exact Hc.
  - apply str_int_no_space.
  - apply float_str_no_space.
Qed.

Lemma str_inj (v w : pyval) : str v = str w -> v = w.
Proof.
  destruct v as [|z|x], w as [|z'|x']; cbn [str]; intros E; try reflexivity.
  - symmetry in E. destruct (str_int_not_None _ E).
  - symmetry in E. destruct (float_str_not_None _ E).
  - destruct (str_int_not_None _ E).
  - f_equal. apply str_int_inj, E.
  - symmetry in E. destruct (float_str_not_int _ _ E).
  - destruct (float_str_not_None _ E).
  - destruct (float_str_not_int _ _ E).
  - f_equal. apply float_str_inj, E.
Qed.

Lemma calcParamsID_inj (a1 a2 a3 b1 b2 b3 : pyval) :
  calcParamsID a1 a2 a3 = calcParamsID b1 b2 b3 -> a1 = b1 /\ a2 = b2 /\ a3 = b3.
Proof.
  unfold calcParamsID. intros E.
  apply separator_split in E as [E1 E]; [|apply str_no_space ..].
  apply separator_split in E as [E2 E3]; [|apply str_no_space ..].
  auto using str_inj.
Qed.

(** C1, as amended. Two hyperparameter tuples get the same ID exactly when
    they are the same tuple of values, each field of the same type and the
    same number, a negative zero told apart from a positive one: such
    tuples get identical IDs, whatever texts their fields were read from,
    since the ID is computed from the values; and tuples that differ in a
    field get different IDs. *)
Theorem calcParamsID_same_iff_equal (a1 a2 a3 b1 b2 b3 : pyval) :
  ((a1, a2, a3) = (b1, b2, b3) -> calcParamsID a1 a2 a3 = calcParamsID b1 b2 b3)
  /\ ((a1, a2, a3) <> (b1, b2, b3) -> calcParamsID a1 a2 a3 <> calcParamsID b1 b2 b3).
Proof.
  split.
  - intros [= -> -> ->]. reflexivity.
  - intros Hne E. apply Hne.
    apply calcParamsID_inj in E as (-> & -> & ->). reflexivity.
Qed.

End ParamsID.

(** The tagged text of floats has the properties asked of [str]. *)

Lemma occurs_app (c : ascii) (a b : string) :
  occurs c (a +:+ b) <-> occurs c a \/ occurs c b.
Proof.
  induction a as [|x a IH]; simpl; tauto.
Qed.

Lemma str_int_no_letter (z : Z) (c : ascii) :
  occurs c "zinfpN " -> ~ occurs c (str_int z).
Proof.
  intros Hl Hc. apply str_int_chars in Hc. cbn in Hl, Hc.
  repeat (destruct Hl as [<-|Hl];
          [repeat (destruct Hc as [Hc|Hc]; [discriminate Hc|]); exact Hc|]).
  exact Hl.
Qed.

Lemma tagged_float_str_head (x : float) :
  exists c s, Fixtures.tagged_float_str x = String c s /\ occurs c "zinf".
Proof.
  unfold Fixtures.tagged_float_str.
  destruct (Prim2SF x) as [[]|[]| |s m e]; eexists _, _;
    (split; [reflexivity | cbn; tauto]).
Qed.

#[export] Instance tagged_float_str_spec : @FloatStrSpec Fixtures.table_builtins.
Proof.
  split; cbn [float_str Fixtures.table_builtins].
  - intros x. unfold Fixtures.tagged_float_str.
    destruct (Prim2SF x) as [[]|[]| |s m e]; cbn [occurs];
      try (intros Hc; repeat (destruct Hc as [Hc|Hc]; [discriminate Hc|]); exact Hc).
    intros [Hc|[Hc|Hc]]; [discriminate Hc | destruct s; discriminate Hc |].
    apply occurs_app in Hc as [Hc|[Hc|Hc]].
    + revert Hc. apply str_int_no_letter. cbn; tauto.
    + discriminate Hc.
    + revert Hc. apply str_int_no_letter. cbn; tauto.
  - intros x y E. apply Prim2SF_inj. revert E. unfold Fixtures.tagged_float_str.
    destruct (Prim2SF x) as [[]|[]| |s m e], (Prim2SF y) as [[]|[]| |s' m' e'];
      try discriminate; try reflexivity.
    intros [= Es E].
    apply separator_split in E as [Em Ee];
      [|apply str_int_no_letter; cbn; tauto ..].
    apply str_int_inj in Em, Ee. injection Em as ->. subst e'.
    destruct s, s'; try discriminate Es; reflexivity.
  - intros x. unfold Fixtures.tagged_float_str.
    destruct (Prim2SF x) as [[]|[]| |s m e]; discriminate.
  - intros x z E.
    destruct (tagged_float_str_head x) as (c & s & Ex & Hc).
    apply (str_int_no_letter z c); [cbn in Hc |- *; tauto|].
    rewrite <- E, Ex. left. reflexivity.
Qed.

(** C1, as stated, fails: the floats 0.0 and -0.0 are equal for Python's
    [==], and so are the integer 0 and the float 0.0, yet the IDs of two
    tuples that differ in nothing else are different, for every [str] that
    tells floats apart, that of the tables included. *)
Lemma signed_zero_IDs_differ :
  (py_eqb (PyFloat 0) (PyFloat (-0)) = true /\ py_eqb (PyInt 0) (PyFloat 0) = true)
  /\ (forall (B : PyBuiltins), FloatStrSpec ->
      forall (backrubT : float) (ensembleS : Z),
        calcParamsID (PyFloat backrubT) (PyInt ensembleS) (PyFloat 0)
        <> calcParamsID (PyFloat backrubT) (PyInt ensembleS) (PyFloat (-0))
        /\ calcParamsID (PyFloat backrubT) (PyInt ensembleS) (PyInt 0)
           <> calcParamsID (PyFloat backrubT) (PyInt ensembleS) (PyFloat 0))
  /\ @calcParamsID Fixtures.table_builtins (PyFloat 0.5) (PyInt 50) (PyFloat 0)
     <> @calcParamsID Fixtures.table_builtins (PyFloat 0.5) (PyInt 50) (PyFloat (-0)).
Proof.
  assert (Z0 : 0%float <> (-0)%float).
  { intros E. apply (f_equal Prim2SF) in E. vm_compute in E. discriminate E. }
  split; [split; vm_compute; reflexivity|]. split.
  - intros B S backrubT ensembleS. split; intros E.
    + apply calcParamsID_inj in E as (_ & _ & E).
      exact (Z0 (f_equal (fun v => match v with PyFloat x => x | _ => 0%float end) E)).
    + apply calcParamsID_inj in E as (_ & _ & E). discriminate E.
  - vm_compute. discriminate.
Qed.

(** Two IDs of the tables: the tuples differ in the ensemble size. *)
Lemma calcParamsID_same_iff_equal_witness :
  calcParamsID (PyFloat 0.5) (PyInt 50) (PyFloat 0)
  <> calcParamsID (PyFloat 0.5) PyNone (PyFloat 0).
Proof.
  apply (calcParamsID_same_iff_equal (PyFloat 0.5) (PyInt 50) (PyFloat 0)
           (PyFloat 0.5) PyNone (PyFloat 0)).
  discriminate.
Defined.

(** ** Records and windows *)

Ltac conjs := repeat match goal with |- _ /\ _ => split end.

Ltac close_step :=
  repeat match goal with |- _ /\ _ => split end;
  try assumption; try reflexivity; intros; try congruence; auto.

Lemma stored_position_init (e b t : pyval) (w : option (list Z)) (st n lo : Z)
    (u : bool) (pm : option (gmap Z Z)) (p : Z) :
  ~ stored_position (Model_init e b t w st n lo u pm) p.
Proof.
  intros [(mac & Hs)|(mac & en & Hin)]; cbn in *.
  - rewrite lookup_empty in Hs. destruct Hs as [? [=]].
  - exact Hin.
Qed.

Lemma stored_position_addMacrostateData (m : Model) (mac p q : Z) (en : list float) :
  stored_position (addMacrostateData m mac p en) q -> q = p \/ stored_position m q.
Proof.
  intros [(mac' & Hs)|Hmicro]; cbn in *.
  - destruct (decide ((mac, p) = (mac', q))) as [[= _ ->]|Hne]; [left; reflexivity|].
    rewrite lookup_insert_ne in Hs by exact Hne.
    right. left. exists mac'. exact Hs.
  - right. right. exact Hmicro.
Qed.

Lemma stored_position_addMicrostateData (m : Model) (mac p q : Z) (en : list float) :
  stored_position (addMicrostateData m mac p en) q -> q = p \/ stored_position m q.
Proof.
  intros [Hmacro|(mac' & en' & Hin)]; cbn in *.
  - right. left. exact Hmacro.
  - apply in_app_or in Hin as [Hin|[[= _ -> _]|[]]].
    + right. right. exists mac', en'. exact Hin.
    + left. reflexivity.
Qed.

Lemma models_in_window_insert (ms : gmap string Model) (lo n p : Z) (ID : string)
    (m' : Model) :
  models_in_window ms lo n -> lo <= p < lo + n ->
  (forall q, stored_position m' q ->
             q = p \/ exists m, ms !! ID = Some m /\ stored_position m q) ->
  models_in_window (<[ID := m']> ms) lo n.
Proof.
  intros W Hp Hm' ID' m q Hl Hs.
  destruct (decide (ID = ID')) as [<-|Hne].
  - rewrite lookup_insert_eq in Hl. injection Hl as <-.
    destruct (Hm' q Hs) as [->|(m0 & Hl0 & Hs0)]; [exact Hp | exact (W _ _ _ Hl0 Hs0)].
  - rewrite lookup_insert_ne in Hl by exact Hne. exact (W _ _ _ Hl Hs).
Qed.

Lemma models_upto_insert (ms : gmap string Model) (hi p : Z) (ID : string) (m' : Model) :
  models_upto ms hi -> p <= hi ->
  (forall q, stored_position m' q ->
             q = p \/ exists m, ms !! ID = Some m /\ stored_position m q) ->
  models_upto (<[ID := m']> ms) hi.
Proof.
  intros W Hp Hm' ID' m q Hl Hs.
  destruct (decide (ID = ID')) as [<-|Hne].
  - rewrite lookup_insert_eq in Hl. injection Hl as <-.
    destruct (Hm' q Hs) as [->|(m0 & Hl0 & Hs0)]; [exact Hp | exact (W _ _ _ Hl0 Hs0)].
  - rewrite lookup_insert_ne in Hl by exact Hne. exact (W _ _ _ Hl Hs).
Qed.

Lemma models_in_window_empty (lo n : Z) : models_in_window ∅ lo n.
Proof. intros ID m p Hl. rewrite lookup_empty in Hl. discriminate Hl. Qed.

Lemma models_upto_empty (hi : Z) : models_upto ∅ hi.
Proof. intros ID m p Hl. rewrite lookup_empty in Hl. discriminate Hl. Qed.

Lemma outside_window_false (self : Optimizer) (p : Z) :
  outside_window self p = false <->
  minPosition self <= p < minPosition self + nPositions self.
Proof. unfold outside_window. rewrite orb_false_iff. lia. Qed.

(** ** One line of a macrostate table *)

Section Macrostate.
Context `{PyBuiltins}.

Lemma readData_fields_ext (s1 s2 : Optimizer) (line : string) :
  macStateToIndex s1 = macStateToIndex s2 ->
  readData_fields s1 line = readData_fields s2 line.
Proof. unfold readData_fields. intros ->. reflexivity. Qed.

Lemma readData_store_eq (r : macro_row) (s : Optimizer) :
  readData_store r s =
  match float_of (row_backrubT r) with
  | Raise e => (Raise e, s)
  | Ok backrubT =>
      match boltzmann_of (row_boltzmanT r) with
      | Raise e => (Raise e, s)
      | Ok boltzmanT =>
          match energy_array (row_energies r) with
          | Raise e => (Raise e, s)
          | Ok energies =>
              (Ok tt,
               set_models
                 <[calcParamsID (PyFloat backrubT) (PyInt (row_ensembleS r)) (PyFloat boltzmanT)
                   := stored_model s r backrubT boltzmanT energies]> s)
          end
      end
  end.
Proof.
  unfold readData_store, stored_model. rewrite run_lift_bind.
  destruct (float_of (row_backrubT r)) as [backrubT|e]; [|reflexivity].
  rewrite run_lift_bind.
  destruct (boltzmann_of (row_boltzmanT r)) as [boltzmanT|e]; [|reflexivity].
  rewrite run_lift_bind.
  destruct (energy_array (row_energies r)) as [energies|e]; [|reflexivity].
  rewrite run_get_bind.
  destruct (models s !! _); reflexivity.
Qed.

Lemma readData_line_eq (isFirstEntry : bool) (line : string) (s : Optimizer) :
  readData_line isFirstEntry line s =
  match readData_fields s line with
  | Raise e => (Raise e, s)
  | Ok r =>
      let s1 := if isFirstEntry then set_minPosition (row_position r) s else s in
      if outside_window s1 (row_position r) then (Ok false, s1)
      else match readData_store r s1 with
           | (Ok _, s2) => (Ok false, s2)
           | (Raise e, s2) => (Raise e, s2)
           end
  end.
Proof.
  unfold readData_line. rewrite run_get_bind, run_lift_bind.
  destruct (readData_fields s line) as [r|e]; [|reflexivity].
  assert (R : forall s1 : Optimizer,
             (get ≫= fun self : Optimizer =>
                if (row_position r <? minPosition self)
                   || (minPosition self + nPositions self <=? row_position r)
                then mret false
                else readData_store r ≫= fun _ => mret false) s1
             = if outside_window s1 (row_position r) then (Ok false, s1)
               else match readData_store r s1 with
                    | (Ok _, s2) => (Ok false, s2)
                    | (Raise e, s2) => (Raise e, s2)
                    end).
  { intros s1. rewrite run_get_bind. unfold outside_window.
    destruct (_ || _); [reflexivity|].
    rewrite run_bind. destruct (readData_store r s1) as [[[]|e] s2]; reflexivity. }
  destruct isFirstEntry; cbv zeta.
  - rewrite run_modify_bind. apply R.
  - rewrite run_bind, run_ret. apply R.
Qed.

Lemma stored_model_positions (s : Optimizer) (r : macro_row) (bk bt : float)
    (en : list float) (q : Z) :
  stored_position (stored_model s r bk bt en) q ->
  q = row_position r
  \/ exists m, models s !! calcParamsID (PyFloat bk) (PyInt (row_ensembleS r)) (PyFloat bt)
               = Some m /\ stored_position m q.
Proof.
  unfold stored_model. intros Hs.
  apply stored_position_addMacrostateData in Hs as [->|Hs]; [left; reflexivity|].
  destruct (models s !! _) as [m|]; cbn [default] in Hs.
  - right. exists m. split; [reflexivity | exact Hs].
  - destruct (stored_position_init _ _ _ _ _ _ _ _ _ _ Hs).
Qed.

(** What one line does to the invariant of the loop: the flag
    [isFirstEntry] is still set only while the cache is empty, and the
    records of the cache lie in the window. *)
Lemma readData_line_step (b : bool) (line : string) (s s' : Optimizer) (r : result bool) :
  readData_line b line s = (r, s') ->
  (b = true -> models s = ∅) ->
  models_in_window (models s) (minPosition s) (nPositions s) ->
  nPositions s' = nPositions s
  /\ macStateToIndex s' = macStateToIndex s
  /\ (b = false -> minPosition s' = minPosition s)
  /\ models_in_window (models s') (minPosition s') (nPositions s')
  /\ (forall b', r = Ok b' -> b' = false).
Proof.
  rewrite readData_line_eq. intros E Hb W.
  destruct (readData_fields s line) as [f|e].
  2:{ injection E as <- <-. close_step. }
  cbv zeta in E.
  set (s1 := if b then set_minPosition (row_position f) s else s) in E.
  assert (W1 : models_in_window (models s1) (minPosition s1) (nPositions s1)).
  { subst s1. destruct b; [|exact W]. cbn. rewrite Hb by reflexivity.
    apply models_in_window_empty. }
  assert (F1 : nPositions s1 = nPositions s /\ macStateToIndex s1 = macStateToIndex s
               /\ (b = false -> minPosition s1 = minPosition s)).
  { subst s1. destruct b; cbn; close_step. }
  clearbody s1. destruct F1 as (Fn & Fm & Fp).
  destruct (outside_window s1 (row_position f)) eqn:O.
  { injection E as <- <-. close_step. }
  apply outside_window_false in O.
  rewrite readData_store_eq in E.
  destruct (float_of (row_backrubT f)) as [bk|e].
  2:{ injection E as <- <-. close_step. }
  destruct (boltzmann_of (row_boltzmanT f)) as [bt|e].
  2:{ injection E as <- <-. close_step. }
  destruct (energy_array (row_energies f)) as [en|e].
  2:{ injection E as <- <-. close_step. }
  injection E as <- <-. cbn. close_step.
  apply models_in_window_insert with (p := row_position f); [exact W1 | exact O |].
  apply stored_model_positions.
Qed.

Lemma readData_loop_inv (lines : list string) (fl b : bool) (s s' : Optimizer)
    (r : result unit) :
  readData_loop fl b lines s = (r, s') ->
  (b = true -> models s = ∅) ->
  models_in_window (models s) (minPosition s) (nPositions s) ->
  nPositions s' = nPositions s
  /\ macStateToIndex s' = macStateToIndex s
  /\ (b = false -> minPosition s' = minPosition s)
  /\ models_in_window (models s') (minPosition s') (nPositions s').
Proof.
  revert fl b s.
  induction lines as [|line lines IH]; intros fl b s E Hb W; cbn [readData_loop] in E.
  - injection E as <- <-. auto.
  - destruct fl; [exact (IH _ _ _ E Hb W)|].
    rewrite run_bind in E.
    destruct (readData_line b line s) as [[b'|e] s1] eqn:L.
    + destruct (readData_line_step _ _ _ _ _ L Hb W) as (Hn & Hm & Hp & W1 & Hb').
      rewrite (Hb' b' eq_refl) in E.
      destruct (IH _ _ _ E ltac:(discriminate) W1) as (Hn' & Hm' & Hp' & W').
      conjs; [congruence | congruence | | exact W'].
      intros ->. rewrite Hp' by reflexivity. apply Hp. reflexivity.
    + injection E as <- <-.
      destruct (readData_line_step _ _ _ _ _ L Hb W) as (Hn & Hm & Hp & W1 & _).
      auto.
Qed.

End Macrostate.

(** ** One line of a microstate table *)

Section Microstate.
Context `{PyBuiltins}.

Lemma readMicrostateData_store_eq (maxPos : Z) (r : micro_row) (s : Optimizer) :
  readMicrostateData_store maxPos r s =
  match float_of (mrow_backrubT r) with
  | Raise e => (Raise e, s)
  | Ok backrubT =>
      match dict_getitem (macStateToIndex s) (mrow_macrostate r) with
      | Raise e => (Raise e, s)
      | Ok macrostate =>
          match energy_array (mrow_energies r) with
          | Raise e => (Raise e, s)
          | Ok energies =>
              (Ok (if maxPos <? mrow_position r then mrow_position r else maxPos),
               set_models
                 <[calcParamsID (PyFloat backrubT) PyNone PyNone
                   := stored_micro_model s r backrubT macrostate energies]> s)
          end
      end
  end.
Proof.
  unfold readMicrostateData_store, stored_micro_model. rewrite run_get_bind, run_lift_bind.
  destruct (float_of (mrow_backrubT r)) as [backrubT|e]; [|reflexivity].
  rewrite run_lift_bind.
  destruct (dict_getitem (macStateToIndex s) (mrow_macrostate r)) as [mac|e]; [|reflexivity].
  rewrite run_lift_bind.
  destruct (energy_array (mrow_energies r)) as [energies|e]; [|reflexivity].
  cbv zeta. destruct (models s !! _); reflexivity.
Qed.

Lemma readMicrostateData_line_eq (maxPos : Z) (line : string) (s : Optimizer) :
  readMicrostateData_line maxPos line s =
  match readMicrostateData_fields line with
  | Raise e => (Raise e, s)
  | Ok r =>
      if outside_window s (mrow_position r) then (Ok maxPos, s)
      else readMicrostateData_store maxPos r s
  end.
Proof.
  unfold readMicrostateData_line. rewrite run_lift_bind.
  destruct (readMicrostateData_fields line) as [r|e]; [|reflexivity].
  rewrite run_get_bind. unfold outside_window.
  destruct (_ || _); reflexivity.
Qed.

Lemma stored_micro_model_positions (s : Optimizer) (r : micro_row) (bk : float)
    (mac : Z) (en : list float) (q : Z) :
  stored_position (stored_micro_model s r bk mac en) q ->
  q = mrow_position r
  \/ exists m, models s !! calcParamsID (PyFloat bk) PyNone PyNone = Some m
               /\ stored_position m q.
Proof.
  unfold stored_micro_model. intros Hs.
  apply stored_position_addMicrostateData in Hs as [->|Hs]; [left; reflexivity|].
  destruct (models s !! _) as [m|]; cbn [default] in Hs.
  - right. exists m. split; [reflexivity | exact Hs].
  - destruct (stored_position_init _ _ _ _ _ _ _ _ _ _ Hs).
Qed.

Lemma readMicrostateData_line_step (maxPos : Z) (line : string) (s s' : Optimizer)
    (r : result Z) :
  readMicrostateData_line maxPos line s = (r, s') ->
  models_in_window (models s) (minPosition s) (nPositions s) ->
  models_upto (models s) maxPos ->
  nPositions s' = nPositions s
  /\ minPosition s' = minPosition s
  /\ contiguousPositions s' = contiguousPositions s
  /\ models_in_window (models s') (minPosition s') (nPositions s')
  /\ match r with
     | Ok maxPos' => models_upto (models s') maxPos'
     | Raise _ => s' = s
     end.
Proof.
  rewrite readMicrostateData_line_eq. intros E W U.
  destruct (readMicrostateData_fields line) as [f|e].
  2:{ injection E as <- <-. auto. }
  destruct (outside_window s (mrow_position f)) eqn:O.
  { injection E as <- <-. auto. }
  apply outside_window_false in O.
  rewrite readMicrostateData_store_eq in E.
  destruct (float_of (mrow_backrubT f)) as [bk|e].
  2:{ injection E as <- <-. auto. }
  destruct (dict_getitem (macStateToIndex s) (mrow_macrostate f)) as [mac|e].
  2:{ injection E as <- <-. auto. }
  destruct (energy_array (mrow_energies f)) as [en|e].
  2:{ injection E as <- <-. auto. }
  injection E as <- <-. cbn. conjs; auto.
  - apply models_in_window_insert with (p := mrow_position f); [exact W | exact O |].
    apply stored_micro_model_positions.
  - apply models_upto_insert with (p := mrow_position f).
    + intros ID m p Hl Hs. specialize (U ID m p Hl Hs). destruct (Z.ltb_spec maxPos (mrow_position f)); lia.
    + destruct (Z.ltb_spec maxPos (mrow_position f)); lia.
    + apply stored_micro_model_positions.
Qed.

Lemma readMicrostateData_loop_inv (lines : list string) (fl : bool) (maxPos : Z)
    (s s' : Optimizer) (r : result Z) :
  readMicrostateData_loop fl maxPos lines s = (r, s') ->
  models_in_window (models s) (minPosition s) (nPositions s) ->
  models_upto (models s) maxPos ->
  nPositions s' = nPositions s
  /\ minPosition s' = minPosition s
  /\ contiguousPositions s' = contiguousPositions s
  /\ models_in_window (models s') (minPosition s') (nPositions s')
  /\ match r with
     | Ok maxPos' => models_upto (models s') maxPos'
     | Raise _ => True
     end.
Proof.
  revert fl maxPos s.
  induction lines as [|line lines IH]; intros fl maxPos s E W U;
    cbn [readMicrostateData_loop] in E.
  - injection E as <- <-. auto.
  - destruct fl; [exact (IH _ _ _ E W U)|].
    rewrite run_bind in E.
    destruct (readMicrostateData_line maxPos line s) as [[maxPos1|e] s1] eqn:L;
      destruct (readMicrostateData_line_step _ _ _ _ _ L W U) as (Hn & Hp & Hc & W1 & U1).
    + destruct (IH _ _ _ E W1 U1) as (Hn' & Hp' & Hc' & W' & U').
      conjs; [congruence | congruence | congruence | exact W' | exact U'].
    + injection E as <- <-. auto.
Qed.

End Microstate.

(** ** The window of positions *)

Section Window.
Context `{PyBuiltins}.

Lemma readData_run (source : list string) (self : Optimizer) :
  readData source self = readData_loop true true source (cleared 65535 self).
Proof. reflexivity. Qed.

Lemma readMicrostateData_run (source : list string) (minPos : Z) (self : Optimizer) :
  readMicrostateData source minPos self =
  match readMicrostateData_loop true 0 source (cleared minPos self) with
  | (Ok maxPos, s) =>
      (Ok tt, if contiguousPositions s then set_nPositions (maxPos - minPos + 1) s else s)
  | (Raise e, s) => (Raise e, s)
  end.
Proof.
  unfold readMicrostateData. rewrite !run_modify_bind, run_bind. fold (cleared minPos self).
  destruct (readMicrostateData_loop true 0 source (cleared minPos self)) as [[maxPos|e] s];
    [|reflexivity].
  rewrite run_get_bind. destruct (contiguousPositions s); reflexivity.
Qed.

End Window.

(** ** The first data line and [minPosition] *)

Section MinPosition.
Context `{PyBuiltins}.

Lemma readData_line_flag (b : bool) (line : string) (s s' : Optimizer) (b' : bool) :
  readData_line b line s = (Ok b', s') -> b' = false.
Proof.
  rewrite readData_line_eq.
  destruct (readData_fields s line) as [f|e]; [|discriminate]. cbv zeta.
  destruct (outside_window _ _); [congruence|].
  destruct (readData_store _ _) as [[[]|e] s2]; congruence.
Qed.

(** A line outside the window is left without an error and without a trace,
    once its first conversions have succeeded. *)
Lemma readData_line_outside (line : string) (s : Optimizer) (f : macro_row) :
  readData_fields s line = Ok f -> outside_window s (row_position f) = true ->
  readData_line false line s = (Ok false, s).
Proof.
  intros Ef O. rewrite readData_line_eq, Ef. cbv zeta. rewrite O. reflexivity.
Qed.


Lemma readData_line_skip (line : string) (s : Optimizer) (f : macro_row) :
  readData_fields s line = Ok f -> row_position f < minPosition s ->
  readData_line false line s = (Ok false, s).
Proof.
  intros Ef Hlt. apply (readData_line_outside line s f Ef).
  unfold outside_window.
  destruct (Z.ltb_spec (row_position f) (minPosition s)); [reflexivity | lia].
Qed.

Lemma readData_loop_app (before after : list string) (s : Optimizer) :
  readData_loop false false (before ++ after) s =
  match readData_loop false false before s with
  | (Ok _, s1) => readData_loop false false after s1
  | (Raise e, s1) => (Raise e, s1)
  end.
Proof.
  revert s. induction before as [|line before IH]; intros s; [reflexivity|].
  cbn [app readData_loop]. rewrite !run_bind.
  destruct (readData_line false line s) as [[b'|e] s1] eqn:L; [|reflexivity].
  rewrite (readData_line_flag _ _ _ _ _ L). apply IH.
Qed.

(** The first data line of a table, read by an optimizer that has just
    been cleared. *)
Lemma readData_first_line (line : string) (self s1 : Optimizer) (b' : bool) :
  readData_line true line (cleared 65535 self) = (Ok b', s1) ->
  exists first,
    readData_fields self line = Ok first
    /\ b' = false
    /\ minPosition s1 = row_position first
    /\ nPositions s1 = nPositions self
    /\ macStateToIndex s1 = macStateToIndex self
    /\ models_in_window (models s1) (minPosition s1) (nPositions s1).
Proof.
  intros L.
  pose proof (readData_line_flag _ _ _ _ _ L) as ->.
  pose proof (readData_line_step _ _ _ _ _ L (fun _ => eq_refl)
                (models_in_window_empty _ _)) as (Hn & Hm & _ & W & _).
  rewrite readData_line_eq in L.
  rewrite (readData_fields_ext (cleared 65535 self) self line eq_refl) in L.
  destruct (readData_fields self line) as [first|e]; [|discriminate].
  exists first. conjs; auto.
  cbv zeta in L. destruct (outside_window _ _).
  - injection L as <-. reflexivity.
  - rewrite readData_store_eq in L.
    destruct (float_of _); [|discriminate].
    destruct (boltzmann_of _); [|discriminate].
    destruct (energy_array _); [|discriminate].
    injection L as <-. reflexivity.
Qed.

(** C5. When [readData] returns, [minPosition] is the position of the first
    data line of the table, wherever the smallest position stands in the
    table; no record of the cache has a smaller position; and a later line
    with a smaller position has been dropped: the optimizer is left as by
    the table without that line. *)
Theorem readData_minPosition (header line : string) (rest : list string)
    (self self' : Optimizer) :
  readData (header :: line :: rest) self = (Ok tt, self') ->
  exists first,
    readData_fields self line = Ok first
    /\ minPosition self' = row_position first
    /\ (forall ID m p, models self' !! ID = Some m -> stored_position m p ->
                       row_position first <= p)
    /\ (forall (before : list string) (later : string) (after : list string) f,
          rest = (before ++ later :: after)%list ->
          readData_fields self later = Ok f ->
          row_position f < row_position first ->
          readData (header :: line :: (before ++ after)%list) self = (Ok tt, self')).
Proof.
  rewrite readData_run. cbn [readData_loop]. rewrite run_bind.
  destruct (readData_line true line (cleared 65535 self)) as [[b'|e] s1] eqn:L;
    [|discriminate].
  destruct (readData_first_line _ _ _ _ L) as (first & Ef & -> & Hp1 & Hn1 & Hm1 & W1).
  intros E. exists first. split; [exact Ef|].
  pose proof (readData_loop_inv _ _ _ _ _ _ E ltac:(discriminate) W1)
    as (Hn & Hm & Hp & W).
  specialize (Hp eq_refl).
  split; [congruence|]. split.
  - intros ID m p Hl Hs. specialize (W ID m p Hl Hs). lia.
  - intros before later after f -> Ef' Hlt.
    rewrite readData_run. cbn [readData_loop]. rewrite run_bind, L.
    rewrite readData_loop_app in E |- *.
    destruct (readData_loop false false before s1) as [[[]|e] s2] eqn:B; [|discriminate].
    pose proof (readData_loop_inv _ _ _ _ _ _ B ltac:(discriminate) W1)
      as (_ & Hm2 & Hp2 & _).
    specialize (Hp2 eq_refl).
    cbn [readData_loop] in E. rewrite run_bind in E.
    rewrite (readData_line_skip later s2 f) in E; [exact E | |].
    + rewrite <- Ef'. apply readData_fields_ext. congruence.
    + rewrite Hp2, Hp1. exact Hlt.
Qed.

End MinPosition.

(** In the macrostate table the first data line is at position 5 and the
    last line at position 4. *)
Lemma readData_minPosition_witness :
  minPosition (readData Fixtures.macro_table Fixtures.optimizer2).2 = 5
  /\ readData Fixtures.macro_table_short Fixtures.optimizer2
     = readData Fixtures.macro_table Fixtures.optimizer2.
Proof.
  assert (E : readData Fixtures.macro_table Fixtures.optimizer2
              = (Ok tt, (readData Fixtures.macro_table Fixtures.optimizer2).2))
    by (vm_compute; reflexivity).
  destruct (readData_minPosition _ _ _ _ _ E) as (first & Ef & Hp & _ & Hdrop).
  split.
  - rewrite Hp. vm_compute in Ef. injection Ef as <-. reflexivity.
  - rewrite E. refine (Hdrop [_] _ [] _ eq_refl eq_refl _).
    vm_compute in Ef. injection Ef as <-. reflexivity.
Defined.

(** ** Lines outside the window *)

Section Skipped.
Context `{PyBuiltins}.




End Skipped.



(** ** The text of the Boltzmann temperature *)

Section Boltzmann.
Context `{PyBuiltins}.



End Boltzmann.



(** ** The keys of the cache after a microstate load *)

Section MicrostateKeys.
Context `{PyBuiltins}.

Lemma records_kept_refl (ms : gmap string Model) : records_kept ms ms.
Proof. intros ID m rec Hl Hin. exists m. auto. Qed.

Lemma records_kept_trans (ms1 ms2 ms3 : gmap string Model) :
  records_kept ms1 ms2 -> records_kept ms2 ms3 -> records_kept ms1 ms3.
Proof.
  intros K1 K2 ID m rec Hl Hin.
  destruct (K1 ID m rec Hl Hin) as (m2 & Hl2 & Hin2). exact (K2 ID m2 rec Hl2 Hin2).
Qed.

Lemma routed_kept (index : gmap string Z) (ms ms' : gmap string Model) (lo n : Z)
    (line : string) :
  records_kept ms ms' -> routed index ms lo n line -> routed index ms' lo n line.
Proof.
  intros K (f & Ef & R). exists f. split; [exact Ef|]. intros Hw.
  destruct (R Hw) as (x & mac & en & m & Ex & Em & Ee & Hl & Hin).
  destruct (K _ m _ Hl Hin) as (m' & Hl' & Hin'). exists x, mac, en, m'. auto.
Qed.

Lemma readMicrostateData_line_keys (maxPos : Z) (line : string) (s s' : Optimizer)
    (r : result Z) :
  readMicrostateData_line maxPos line s = (r, s') ->
  keyed_by_backrub (models s) ->
  keyed_by_backrub (models s')
  /\ records_kept (models s) (models s')
  /\ match r with
     | Ok _ => routed (macStateToIndex s) (models s') (minPosition s) (nPositions s) line
     | Raise _ => True
     end.
Proof.
  rewrite readMicrostateData_line_eq. intros E K.
  destruct (readMicrostateData_fields line) as [f|e] eqn:Ef.
  2:{ injection E as <- <-. auto using records_kept_refl. }
  destruct (outside_window s (mrow_position f)) eqn:O.
  { injection E as <- <-. conjs; auto using records_kept_refl.
    exists f. split; [exact Ef|]. intros Hw.
    apply outside_window_false in Hw. congruence. }
  rewrite readMicrostateData_store_eq in E.
  unfold float_of in E.
  destruct (py_float (mrow_backrubT f)) as [bk|] eqn:Eb.
  2:{ injection E as <- <-. auto using records_kept_refl. }
  unfold dict_getitem in E.
  destruct (macStateToIndex s !! mrow_macrostate f) as [mac|] eqn:Em.
  2:{ injection E as <- <-. auto using records_kept_refl. }
  destruct (energy_array (mrow_energies f)) as [en|e] eqn:Ee.
  2:{ injection E as <- <-. auto using records_kept_refl. }
  injection E as <- <-. cbn [set_models models].
  set (ID := calcParamsID (PyFloat bk) PyNone PyNone).
  assert (B : exists old,
             stored_micro_model s f bk mac en
             = addMicrostateData old mac (mrow_position f) en
             /\ (exists x, backrubTemp old = PyFloat x
                           /\ ID = calcParamsID (PyFloat x) PyNone PyNone)
             /\ (forall rec m, models s !! ID = Some m -> In rec (microstateData m) ->
                               In rec (microstateData old))).
  { unfold stored_micro_model. fold ID.
    destruct (models s !! ID) as [m|] eqn:Hl; cbn [default].
    - exists m. split; [reflexivity|]. split; [exact (K ID m Hl)|].
      intros rec m' [= <-] Hin. exact Hin.
    - eexists. split; [reflexivity|]. split; [exists bk; split; reflexivity|].
      intros rec m [=]. }
  destruct B as (old & -> & Hold & Hrec).
  conjs.
  - intros ID' m Hl. destruct (decide (ID = ID')) as [<-|Hne].
    + rewrite lookup_insert_eq in Hl. injection Hl as <-. exact Hold.
    + rewrite lookup_insert_ne in Hl by exact Hne. exact (K ID' m Hl).
  - intros ID' m rec Hl Hin. destruct (decide (ID = ID')) as [<-|Hne].
    + eexists. rewrite lookup_insert_eq. split; [reflexivity|].
      cbn. apply in_or_app. left. exact (Hrec rec m Hl Hin).
    + exists m. rewrite lookup_insert_ne by exact Hne. auto.
  - exists f. split; [exact Ef|]. intros _.
    eexists bk, mac, en, _. fold ID. rewrite lookup_insert_eq.
    conjs; [exact Eb | exact Em | exact Ee | reflexivity |].
    cbn. apply in_or_app. right. left. reflexivity.
Qed.

Lemma readMicrostateData_line_frame (maxPos : Z) (line : string) (s s' : Optimizer)
    (r : result Z) :
  readMicrostateData_line maxPos line s = (r, s') ->
  nPositions s' = nPositions s /\ minPosition s' = minPosition s.
Proof.
  rewrite readMicrostateData_line_eq.
  destruct (readMicrostateData_fields line) as [f|e]; [|intros [= <- <-]; auto].
  destruct (outside_window s (mrow_position f)); [intros [= <- <-]; auto|].
  rewrite readMicrostateData_store_eq.
  destruct (float_of _); [|intros [= <- <-]; auto].
  destruct (dict_getitem _ _); [|intros [= <- <-]; auto].
  destruct (energy_array _); intros [= <- <-]; auto.
Qed.

Lemma readMicrostateData_line_index (maxPos : Z) (line : string) (s s' : Optimizer)
    (r : result Z) :
  readMicrostateData_line maxPos line s = (r, s') ->
  macStateToIndex s' = macStateToIndex s.
Proof.
  rewrite readMicrostateData_line_eq.
  destruct (readMicrostateData_fields line) as [f|e]; [|intros [= <- <-]; auto].
  destruct (outside_window s (mrow_position f)); [intros [= <- <-]; auto|].
  rewrite readMicrostateData_store_eq.
  destruct (float_of _); [|intros [= <- <-]; auto].
  destruct (dict_getitem _ _); [|intros [= <- <-]; auto].
  destruct (energy_array _); intros [= <- <-]; auto.
Qed.

Lemma readMicrostateData_loop_keys (lines : list string) (fl : bool) (maxPos : Z)
    (s s' : Optimizer) (r : result Z) :
  readMicrostateData_loop fl maxPos lines s = (r, s') ->
  keyed_by_backrub (models s) ->
  keyed_by_backrub (models s')
  /\ records_kept (models s) (models s')
  /\ (forall maxPos', r = Ok maxPos' ->
      forall line, In line (if fl then tail lines else lines) ->
                   routed (macStateToIndex s) (models s') (minPosition s) (nPositions s)
                          line).
Proof.
  revert fl maxPos s.
  induction lines as [|line lines IH]; intros fl maxPos s E K;
    cbn [readMicrostateData_loop] in E.
  - injection E as <- <-. conjs; auto using records_kept_refl.
    intros _ _ line. destruct fl; intros [].
  - destruct fl; [exact (IH false _ _ E K)|].
    rewrite run_bind in E.
    destruct (readMicrostateData_line maxPos line s) as [[maxPos1|e] s1] eqn:L;
      pose proof (readMicrostateData_line_frame _ _ _ _ _ L) as [Hn Hp];
      pose proof (readMicrostateData_line_index _ _ _ _ _ L) as Hi;
      apply readMicrostateData_line_keys in L as (K1 & R1 & T1); try exact K.
    + destruct (IH false _ _ E K1) as (K' & R' & T').
      conjs; [exact K' | exact (records_kept_trans _ _ _ R1 R') |].
      intros maxPos' -> l [<-|Hin].
      * exact (routed_kept _ _ _ _ _ _ R' T1).
      * rewrite <- Hn, <- Hp, <- Hi. exact (T' maxPos' eq_refl l Hin).
    + injection E as <- <-. conjs; [exact K1 | exact R1 | discriminate].
Qed.

(** C10, as amended. After a call of [readMicrostateData], whether it
    returned or raised, every model of the cache is keyed by the ID
    computed from its backrub temperature, [None] and [None], and two
    models with the same backrub temperature, the same float, are one
    model under one key. When the call returned, every data line had its
    columns read, and for every data line in the window the record of its
    macrostate, its position and the array of its energies is in the model
    keyed by the float its backrub temperature converts to, so that the
    lines of one such float are in one model. [getModelByParams] returns a
    model only for [None] as ensemble size and as Boltzmann temperature. *)
Theorem microstate_models_keyed_by_backrub `{!FloatStrSpec} (source : list string)
    (minPos : Z) (self self' : Optimizer) (r : result unit) :
  readMicrostateData source minPos self = (r, self') ->
  keyed_by_backrub (models self')
  /\ (forall ID1 ID2 m1 m2,
        models self' !! ID1 = Some m1 -> models self' !! ID2 = Some m2 ->
        backrubTemp m1 = backrubTemp m2 -> ID1 = ID2 /\ m1 = m2)
  /\ (r = Ok tt ->
      forall line, In line (tail source) ->
                   routed (macStateToIndex self) (models self') minPos (nPositions self)
                          line)
  /\ (forall param1 param2 param3 m s,
        getModelByParams param1 param2 param3 self' = (Ok m, s) ->
        param1 = backrubTemp m /\ param2 = PyNone /\ param3 = PyNone).
Proof.
  rewrite readMicrostateData_run. intros E.
  assert (K0 : keyed_by_backrub (models (cleared minPos self))).
  { intros ID m Hl. cbn in Hl. rewrite lookup_empty in Hl. discriminate Hl. }
  assert (One : forall ms : gmap string Model, keyed_by_backrub ms ->
                forall ID1 ID2 m1 m2, ms !! ID1 = Some m1 -> ms !! ID2 = Some m2 ->
                  backrubTemp m1 = backrubTemp m2 -> ID1 = ID2 /\ m1 = m2).
  { intros ms K ID1 ID2 m1 m2 H1 H2 Eb.
    destruct (K _ _ H1) as (x1 & Hx1 & ->). destruct (K _ _ H2) as (x2 & Hx2 & ->).
    rewrite Hx1, Hx2 in Eb. injection Eb as ->.
    split; [reflexivity | congruence]. }
  assert (Get : forall s1 : Optimizer, keyed_by_backrub (models s1) ->
                forall p1 p2 p3 m s, getModelByParams p1 p2 p3 s1 = (Ok m, s) ->
                  p1 = backrubTemp m /\ p2 = PyNone /\ p3 = PyNone).
  { intros s1 K p1 p2 p3 m s G. unfold getModelByParams in G.
    rewrite run_get_bind in G. unfold lift, dict_getitem in G.
    destruct (models s1 !! calcParamsID p1 p2 p3) as [m'|] eqn:Hl; [|discriminate].
    injection G as <- _.
    destruct (K _ _ Hl) as (x & Hx & Hid).
    apply calcParamsID_inj in Hid as (-> & -> & ->). auto. }
  destruct (readMicrostateData_loop true 0 source (cleared minPos self))
    as [[maxPos|e] s1] eqn:L;
    apply readMicrostateData_loop_keys in L as (K & _ & T); try exact K0.
  - injection E as <- <-.
    set (s2 := if contiguousPositions s1
               then set_nPositions (maxPos - minPos + 1) s1 else s1).
    assert (Em : models s2 = models s1)
      by (subst s2; destruct (contiguousPositions s1); reflexivity).
    assert (K2 : keyed_by_backrub (models s2)) by (rewrite Em; exact K).
    conjs; [exact K2 | exact (One _ K2) | | exact (Get _ K2)].
    intros _. rewrite Em. exact (T maxPos eq_refl).
  - injection E as <- <-.
    conjs; [exact K | exact (One _ K) | discriminate | exact (Get _ K)].
Qed.

End MicrostateKeys.

(** The two lines of the microstate table with backrub temperature 0.5 are
    in one model, which [getModelByParams] returns for two [None]. *)
Lemma microstate_models_keyed_by_backrub_witness :
  let self' := (readMicrostateData Fixtures.micro_table 5 Fixtures.optimizer2).2 in
  keyed_by_backrub (models self')
  /\ (forall line, In line (tail Fixtures.micro_table) ->
        routed Fixtures.macrostates (models self') 5 2 line)
  /\ exists m, getModelByParams (PyFloat 0.5) PyNone PyNone self' = (Ok m, self')
               /\ length (microstateData m) = 2%nat.
Proof.
  intros self'.
  assert (E : readMicrostateData Fixtures.micro_table 5 Fixtures.optimizer2
              = (Ok tt, self')) by (vm_compute; reflexivity).
  destruct (microstate_models_keyed_by_backrub Fixtures.micro_table 5
              Fixtures.optimizer2 self' (Ok tt) E) as (K & _ & R & _).
  split; [exact K|]. split; [exact (R eq_refl)|].
  eexists. split; vm_compute; reflexivity.
Defined.

(** C10, as stated, fails: the backrub temperatures 0.0 and -0.0 of the
    two rows of the table are equal for Python's [==], and the rows are
    in two models, under two keys. *)
Lemma signed_zero_rows_in_two_models :
  let B := Fixtures.zero_builtins in
  let self' := (@readMicrostateData B Fixtures.micro_table_zeros 5 Fixtures.optimizer2).2 in
  (@readMicrostateData B Fixtures.micro_table_zeros 5 Fixtures.optimizer2).1 = Ok tt
  /\ @py_float B "0.0" = Some 0%float /\ @py_float B "-0.0" = Some (-0)%float
  /\ py_eqb (PyFloat 0) (PyFloat (-0)) = true
  /\ @calcParamsID B (PyFloat 0) PyNone PyNone <> @calcParamsID B (PyFloat (-0)) PyNone PyNone
  /\ (exists m, models self' !! @calcParamsID B (PyFloat 0) PyNone PyNone = Some m
                /\ length (microstateData m) = 1%nat)
  /\ (exists m, models self' !! @calcParamsID B (PyFloat (-0)) PyNone PyNone = Some m
                /\ length (microstateData m) = 1%nat).
Proof.
  cbv zeta. conjs; try (vm_compute; reflexivity).
  - vm_compute. discriminate.
  - eexists. split; vm_compute; reflexivity.
  - eexists. split; vm_compute; reflexivity.
Qed.

(** * Further properties *)

(** ** The shape of the profile and what reading it leaves alone *)

Lemma same_but_profile_refl (s : Optimizer) : same_but_profile s s.
Proof. unfold same_but_profile. destruct s; reflexivity. Qed.

Lemma same_but_profile_set (s s' : Optimizer) (f : list (list npfloat) -> list (list npfloat)) :
  same_but_profile s s' -> same_but_profile s (set_targetFrequencies f s').
Proof. unfold same_but_profile. intros ->. reflexivity. Qed.

Lemma same_but_profile_trans (s1 s2 s3 : Optimizer) :
  same_but_profile s1 s2 -> same_but_profile s2 s3 -> same_but_profile s1 s3.
Proof. unfold same_but_profile. intros -> ->. reflexivity. Qed.

Lemma count_entry_frame (thisEntry : string) (positions : list nat)
    (nEntries : list Z) (s : Optimizer) :
  same_but_profile s (count_entry thisEntry positions nEntries s).2
  /\ match (count_entry thisEntry positions nEntries s).1 with
     | Ok nEntries' => length nEntries' = length nEntries
     | Raise _ => True
     end.
Proof.
  revert nEntries s.
  induction positions as [|i positions IH]; intros nEntries s; cbn [count_entry].
  - split; [apply same_but_profile_refl | reflexivity].
  - rewrite run_lift_bind.
    destruct (str_getitem thisEntry (Z.of_nat i)) as [c|e];
      [|split; [apply same_but_profile_refl | exact I]].
    destruct (Ascii.eqb c "-"); [apply IH|].
    destruct (resToIndex c) as [j|]; [|apply IH].
    rewrite run_modify_bind.
    destruct (IH (alter Z.succ i nEntries)
                 (set_targetFrequencies (alter (alter np_incr j) i) s)) as [F L].
    split.
    + eapply same_but_profile_trans; [|exact F].
      apply same_but_profile_set, same_but_profile_refl.
    + destruct (count_entry _ _ _ _).1; [|exact I].
      rewrite L. apply length_alter.
Qed.

Lemma read_entries_frame (positions : list nat) (lines : list string)
    (thisEntry : string) (nEntries : list Z) (s : Optimizer) :
  same_but_profile s (read_entries positions lines thisEntry nEntries s).2
  /\ match (read_entries positions lines thisEntry nEntries s).1 with
     | Ok nEntries' => length nEntries' = length nEntries
     | Raise _ => True
     end.
Proof.
  revert thisEntry nEntries s.
  induction lines as [|line lines IH]; intros thisEntry nEntries s; cbn [read_entries].
  - split; [apply same_but_profile_refl | reflexivity].
  - rewrite run_lift_bind.
    destruct (str_getitem line 0) as [c|e];
      [|split; [apply same_but_profile_refl | exact I]].
    destruct (Ascii.eqb c ">"); [|apply IH].
    destruct (String.eqb thisEntry ""); [apply IH|].
    rewrite run_bind.
    pose proof (count_entry_frame thisEntry positions nEntries s) as [F L].
    destruct (count_entry thisEntry positions nEntries s) as [[nEntries'|e] s1];
      cbn [fst snd] in F, L; [|split; [exact F | exact I]].
    destruct (IH "" nEntries' s1) as [F' L'].
    split; [exact (same_but_profile_trans _ _ _ F F')|].
    destruct (read_entries _ _ _ _ _).1; [congruence | exact I].
Qed.

Lemma str_getitem_minus2 (entry : string) (c : ascii) :
  str_getitem entry (-2) = Ok c -> (2 <= String.length entry)%nat.
Proof.
  unfold str_getitem. cbn [Z.ltb Z.compare].
  destruct (Z.leb_spec 0 (-2 + Z.of_nat (String.length entry))); [|discriminate].
  intros _. lia.
Qed.

Lemma counts_to_frequencies_shape (tf : list (list npfloat)) (nEntries : list Z) :
  Forall2 row_counts tf nEntries ->
  length (counts_to_frequencies nEntries tf) = length nEntries
  /\ Forall (fun row => length row = 20%nat) (counts_to_frequencies nEntries tf).
Proof.
  unfold counts_to_frequencies.
  induction 1 as [|r k tf nEntries (Hlen & _) _ [IHl IHf]]; cbn [zip_with length].
  - split; [reflexivity | constructor].
  - split; [f_equal; exact IHl|].
    constructor; [rewrite length_fmap; exact Hlen | exact IHf].
Qed.

(** X1. When [readTargetFrequencies], called without a file of positions
    ([posPicker] is [None]), returns, the number of positions is at least
    1, the profile has one row of 20 entries for each position, and of the
    optimizer only [nPositions], the profile and the flag
    [targetFreqsRead] have changed: the cache and [minPosition] are as
    before. *)
Theorem readTargetFrequencies_shape (source : list string) (self self' : Optimizer)
    (tf : list (list npfloat)) :
  readTargetFrequencies source self = (Ok tf, self') ->
  1 <= nPositions self'
  /\ length tf = Z.to_nat (nPositions self')
  /\ Forall (fun row => length row = 20%nat) tf
  /\ self' = set_targetFreqsRead true
               (set_targetFrequencies (fun _ => tf)
                  (set_nPositions (nPositions self') self)).
Proof.
  unfold readTargetFrequencies. rewrite run_lift_bind.
  destruct (first_entry "" (tail source)) as [entry|e]; [|discriminate].
  rewrite run_modify_bind, run_lift_bind.
  destruct (str_getitem entry (-2)) as [c|e] eqn:G; [|discriminate].
  apply str_getitem_minus2 in G.
  rewrite run_get_bind, run_bind.
  set (n := Z.of_nat (String.length entry) - 1).
  cbn [set_nPositions nPositions].
  unfold count_residues. rewrite run_modify_bind.
  set (s0 := set_targetFrequencies (fun _ => zeros2 (Z.to_nat n) 20) (set_nPositions n self)).
  pose proof (read_entries_counts (seq 0 (Z.to_nat n)) source "" (zeros1 (Z.to_nat n))
                s0 (zeros_counts _)) as C.
  pose proof (read_entries_frame (seq 0 (Z.to_nat n)) source "" (zeros1 (Z.to_nat n)) s0)
    as [F L].
  destruct (read_entries _ _ _ _ _) as [[nEntries|e] s1]; [|discriminate].
  cbn [fst snd] in F, L. destruct C as [Hn Inv].
  rewrite run_modify_bind, run_modify_bind, run_get_bind, run_ret.
  intros E. injection E as <- <-.
  cbn [set_targetFreqsRead set_targetFrequencies targetFrequencies nPositions].
  destruct (counts_to_frequencies_shape _ _ Inv) as [Hl Hr].
  unfold zeros1 in L. rewrite length_replicate in L.
  subst s0. cbn [set_targetFrequencies set_nPositions nPositions] in Hn.
  rewrite Hn. conjs; [lia | congruence | exact Hr |].
  rewrite F. reflexivity.
Qed.

(** The alignment of the example has four positions. *)
Lemma readTargetFrequencies_shape_witness :
  nPositions (readTargetFrequencies Fixtures.alignment (Optimizer_init ∅ true)).2 = 4
  /\ models (readTargetFrequencies Fixtures.alignment (Optimizer_init ∅ true)).2 = ∅.
Proof.
  assert (E : readTargetFrequencies Fixtures.alignment (Optimizer_init ∅ true)
              = ((readTargetFrequencies Fixtures.alignment (Optimizer_init ∅ true)).1,
                 (readTargetFrequencies Fixtures.alignment (Optimizer_init ∅ true)).2))
    by apply surjective_pairing.
  assert (O : (readTargetFrequencies Fixtures.alignment (Optimizer_init ∅ true)).1
              = Ok (targetFrequencies
                      (readTargetFrequencies Fixtures.alignment (Optimizer_init ∅ true)).2))
    by (vm_compute; reflexivity).
  rewrite O in E.
  destruct (readTargetFrequencies_shape _ _ _ _ E) as (_ & _ & _ & F).
  split; [vm_compute; reflexivity|].
  rewrite F. reflexivity.
Defined.

(** X2. A file in which no line after the first is a header, so a file
    with at most one entry, and the empty file with it, cannot be read:
    [readTargetFrequencies] raises an [IndexError] at the end of the file
    and leaves the optimizer as it was. *)
Theorem readTargetFrequencies_one_entry (source : list string) (self : Optimizer) :
  Forall sequence_line (tail source) ->
  readTargetFrequencies source self = (Raise IndexError, self).
Proof.
  intros F. unfold readTargetFrequencies.
  rewrite run_lift_bind, (first_entry_sequence_lines "" _ F). reflexivity.
Qed.

Lemma readTargetFrequencies_one_entry_witness :
  readTargetFrequencies [Fixtures.ln ">NULL"; Fixtures.ln "AC-D"] (Optimizer_init ∅ true)
  = (Raise IndexError, Optimizer_init ∅ true).
Proof.
  apply readTargetFrequencies_one_entry.
  repeat constructor. eexists _, _. split; [reflexivity | discriminate].
Defined.

(** X3. When the first entry has fewer than two characters, as when the
    second line of the file is a header already, [readTargetFrequencies]
    raises an [IndexError] at [entry[-2]], after it has set [nPositions] to
    the length of the entry less one, which is 0 or -1. *)
Theorem readTargetFrequencies_short_entry (source : list string) (self : Optimizer)
    (entry : string) :
  first_entry "" (tail source) = Ok entry ->
  (String.length entry < 2)%nat ->
  readTargetFrequencies source self
  = (Raise IndexError, set_nPositions (Z.of_nat (String.length entry) - 1) self).
Proof.
  intros E Hlen. unfold readTargetFrequencies.
  rewrite run_lift_bind, E, run_modify_bind, run_lift_bind.
  destruct (str_getitem entry (-2)) as [c|e] eqn:G.
  - apply str_getitem_minus2 in G. lia.
  - unfold str_getitem in G.
    destruct (_ && _); [destruct (String.get _ _); discriminate G || (injection G as <-; reflexivity)|].
    injection G as <-. reflexivity.
Qed.

(** Two headers in a row at the start of the file. *)
Lemma readTargetFrequencies_short_entry_witness :
  readTargetFrequencies [Fixtures.ln ">NULL"; Fixtures.ln ">seq1"; Fixtures.ln "ACD"]
                        (Optimizer_init ∅ true)
  = (Raise IndexError, set_nPositions (-1) (Optimizer_init ∅ true)).
Proof.
  exact (readTargetFrequencies_short_entry
           [Fixtures.ln ">NULL"; Fixtures.ln ">seq1"; Fixtures.ln "ACD"]
           (Optimizer_init ∅ true) "" eq_refl ltac:(cbn; lia)).
Defined.

(** ** The profile as ratios of counts *)

Lemma string_get_ge (s : string) (i : nat) :
  (String.length s <= i)%nat -> String.get i s = None.
Proof.
  revert i. induction s as [|c s IH]; intros i Hi; [reflexivity|].
  destruct i as [|i]; cbn in Hi |- *; [lia | apply IH; lia].
Qed.

Lemma string_get_lt (s : string) (i : nat) (c : ascii) :
  String.get i s = Some c -> (i < String.length s)%nat.
Proof.
  intros G. destruct (Nat.lt_ge_cases i (String.length s)) as [Hlt|Hge]; [exact Hlt|].
  rewrite (string_get_ge s i Hge) in G. discriminate G.
Qed.

Lemma string_get_None (s : string) (i : nat) :
  String.get i s = None -> (String.length s <= i)%nat.
Proof.
  revert i. induction s as [|c s IH]; intros i G; cbn; [lia|].
  destruct i as [|i]; cbn in G; [discriminate G|]. apply IH in G. lia.
Qed.

Lemma str_getitem_nat (s : string) (i : nat) :
  str_getitem s (Z.of_nat i)
  = match String.get i s with Some c => Ok c | None => Raise IndexError end.
Proof.
  unfold str_getitem.
  destruct (Z.ltb_spec (Z.of_nat i) 0); [lia|].
  rewrite Nat2Z.id.
  destruct (Z.leb_spec 0 (Z.of_nat i)); [|lia].
  destruct (Z.ltb_spec (Z.of_nat i) (Z.of_nat (String.length s))); cbn [andb].
  - reflexivity.
  - rewrite string_get_ge by lia. reflexivity.
Qed.

Lemma counted_at_head (thisEntry : string) (a k i : nat) :
  counted_at thisEntry a (S k) i
  = if Nat.eqb i a then residue_at thisEntry a else counted_at thisEntry (S a) k i.
Proof.
  unfold counted_at.
  destruct (Nat.eqb_spec i a) as [->|Hne].
  - destruct (Nat.leb_spec a a); [|lia].
    destruct (Nat.ltb_spec a (a + S k)); [reflexivity | lia].
  - destruct (Nat.leb_spec a i), (Nat.ltb_spec i (a + S k)),
      (Nat.leb_spec (S a) i), (Nat.ltb_spec i (S a + k)); cbn [andb]; try reflexivity; lia.
Qed.

Lemma counted_at_nil (thisEntry : string) (a i : nat) : counted_at thisEntry a 0 i = None.
Proof.
  unfold counted_at.
  destruct (Nat.leb_spec a i), (Nat.ltb_spec i (a + 0)); cbn [andb]; try reflexivity; lia.
Qed.

(** What the loop over the positions does with one entry. *)
Lemma count_entry_seq (thisEntry : string) (k a : nat) (nEntries : list Z) (s : Optimizer) :
  match count_entry thisEntry (seq a k) nEntries s with
  | (Ok nEntries', s') =>
      (k = 0%nat \/ (a + k <= String.length thisEntry)%nat)
      /\ forall i,
           nEntries' !! i
           = (match counted_at thisEntry a k i with Some _ => Z.succ | None => id end)
               <$> nEntries !! i
           /\ targetFrequencies s' !! i
              = (match counted_at thisEntry a k i with
                 | Some j => alter np_incr j
                 | None => id
                 end) <$> targetFrequencies s !! i
  | (Raise e, _) => e = IndexError /\ (String.length thisEntry < a + k)%nat
  end.
Proof.
  revert a nEntries s.
  induction k as [|k IH]; intros a nEntries s; cbn [seq count_entry].
  - rewrite run_ret. split; [left; reflexivity|].
    intros i. rewrite counted_at_nil, !option_fmap_id. split; reflexivity.
  - rewrite run_lift_bind, str_getitem_nat.
    destruct (String.get a thisEntry) as [c|] eqn:G.
    2:{ split; [reflexivity|]. apply string_get_None in G. lia. }
    pose proof (string_get_lt _ _ _ G) as Hlen.
    assert (R : residue_at thisEntry a
                = if Ascii.eqb c "-" then None else resToIndex c).
    { unfold residue_at. rewrite G. reflexivity. }
    destruct (Ascii.eqb c "-").
    { specialize (IH (S a) nEntries s).
      destruct (count_entry thisEntry (seq (S a) k) nEntries s) as [[nEntries'|e] s'].
      - destruct IH as [Hk Heff]. split; [right; lia|].
        intros i. rewrite counted_at_head, R.
        destruct (Nat.eqb_spec i a) as [->|Hne]; [|apply Heff].
        destruct (Heff a) as [H1 H2]. unfold counted_at in H1, H2.
        destruct (Nat.leb_spec (S a) a); [lia|]. exact (conj H1 H2).
      - destruct IH as [-> Hk]. split; [reflexivity | lia]. }
    destruct (resToIndex c) as [j|] eqn:Ej.
    2:{ specialize (IH (S a) nEntries s).
        destruct (count_entry thisEntry (seq (S a) k) nEntries s) as [[nEntries'|e] s'].
        - destruct IH as [Hk Heff]. split; [right; lia|].
          intros i. rewrite counted_at_head, R.
          destruct (Nat.eqb_spec i a) as [->|Hne]; [|apply Heff].
          destruct (Heff a) as [H1 H2]. unfold counted_at in H1, H2.
          destruct (Nat.leb_spec (S a) a); [lia|]. exact (conj H1 H2).
        - destruct IH as [-> Hk]. split; [reflexivity | lia]. }
    rewrite run_modify_bind.
    specialize (IH (S a) (alter Z.succ a nEntries)
                   (set_targetFrequencies (alter (alter np_incr j) a) s)).
    destruct (count_entry thisEntry (seq (S a) k) _ _) as [[nEntries'|e] s'].
    + destruct IH as [Hk Heff]. split; [right; lia|].
      intros i. rewrite counted_at_head, R.
      destruct (Heff i) as [H1 H2]. cbn [set_targetFrequencies targetFrequencies] in H2.
      destruct (Nat.eqb_spec i a) as [->|Hne].
      * unfold counted_at in H1, H2.
        destruct (Nat.leb_spec (S a) a); [lia|]. cbn [andb] in H1, H2.
        rewrite H1, H2, !list_lookup_alter_eq, !option_fmap_id. split; reflexivity.
      * rewrite H1, H2, !list_lookup_alter_ne by congruence. split; reflexivity.
    + destruct IH as [-> Hk]. split; [reflexivity | lia].
Qed.

Lemma count_entry_raises (thisEntry : string) (positions : list nat)
    (nEntries : list Z) (s s' : Optimizer) (e : exn) :
  count_entry thisEntry positions nEntries s = (Raise e, s') -> e = IndexError.
Proof.
  revert nEntries s.
  induction positions as [|i positions IH]; intros nEntries s; cbn [count_entry].
  - rewrite run_ret. discriminate.
  - rewrite run_lift_bind, str_getitem_nat.
    destruct (String.get i thisEntry) as [c|]; [|intros [= <- _]; reflexivity].
    destruct (Ascii.eqb c "-"); [apply IH|].
    destruct (resToIndex c); [rewrite run_modify_bind|]; apply IH.
Qed.

(** The reading loop adds the counted entries, in their order, and raises
    nothing but an [IndexError]. *)
Lemma read_entries_counted (positions : list nat) (lines : list string)
    (thisEntry : string) (nEntries : list Z) (s : Optimizer) :
  match read_entries positions lines thisEntry nEntries s with
  | (Ok nEntries', s') =>
      count_entries positions (counted_entries lines thisEntry) nEntries s
      = (Ok nEntries', s')
  | (Raise e, _) => e = IndexError
  end.
Proof.
  revert thisEntry nEntries s.
  induction lines as [|line lines IH]; intros thisEntry nEntries s;
    cbn [read_entries counted_entries]; [reflexivity|].
  rewrite run_lift_bind.
  destruct line as [|c t]; [reflexivity|].
  rewrite str_getitem_head.
  destruct (Ascii.eqb c ">"); [|apply IH].
  destruct (String.eqb thisEntry ""); [apply IH|].
  rewrite run_bind. cbn [count_entries]. rewrite run_bind.
  destruct (count_entry thisEntry positions nEntries s) as [[nEntries1|e] s1] eqn:C.
  - apply IH.
  - exact (count_entry_raises _ _ _ _ _ _ C).
Qed.

Lemma cell_alter_row (tf : list (list npfloat)) (i j : nat) (residue : option nat)
    (row' : option (list npfloat)) :
  row' = (match residue with Some j0 => alter np_incr j0 | None => id end) <$> tf !! i ->
  row' ≫= (fun row => row !! j)
  = (match residue with
     | Some j0 => if Nat.eqb j0 j then np_incr else id
     | None => id
     end) <$> cell tf i j.
Proof.
  intros ->. unfold cell. destruct (tf !! i) as [row|]; [|reflexivity].
  cbn [fmap option_fmap option_map mbind option_bind].
  destruct residue as [j0|]; [|rewrite option_fmap_id; reflexivity].
  destruct (Nat.eqb_spec j0 j) as [->|Hne].
  - apply list_lookup_alter_eq.
  - rewrite list_lookup_alter_ne by exact Hne. rewrite option_fmap_id. reflexivity.
Qed.

Lemma count_entries_effect (n : nat) (entries : list string) (nEntries nEntries' : list Z)
    (s s' : Optimizer) :
  count_entries (seq 0 n) entries nEntries s = (Ok nEntries', s') ->
  (n = 0%nat \/ Forall (fun e => (n <= String.length e)%nat) entries)
  /\ forall i, (i < n)%nat ->
       nEntries' !! i
       = (fun z => z + Z.of_nat (observation_count entries i)) <$> nEntries !! i
       /\ forall j,
            cell (targetFrequencies s') i j
            = Nat.iter (residue_count entries i j) np_incr
                <$> cell (targetFrequencies s) i j.
Proof.
  revert nEntries s.
  induction entries as [|e entries IH]; intros nEntries s; cbn [count_entries].
  - rewrite run_ret. intros [= <- <-]. split; [right; constructor|].
    intros i Hi. cbn [observation_count residue_count Nat.iter]. split.
    + destruct (nEntries !! i); cbn; [f_equal; lia | reflexivity].
    + intros j. rewrite option_fmap_id. reflexivity.
  - rewrite run_bind.
    pose proof (count_entry_seq e n 0 nEntries s) as C.
    destruct (count_entry e (seq 0 n) nEntries s) as [[nEntries1|err] s1]; [|discriminate].
    destruct C as [Hlen Heff]. intros E.
    destruct (IH _ _ E) as [Hall Hrest]. split.
    { destruct Hlen as [->|Hlen]; [left; reflexivity|].
      destruct Hall as [->|Hall]; [left; reflexivity|].
      right. constructor; [exact Hlen | exact Hall]. }
    intros i Hi. destruct (Heff i) as [H1 H2]. destruct (Hrest i Hi) as [R1 R2].
    assert (Ec : counted_at e 0 n i = residue_at e i).
    { unfold counted_at. destruct (Nat.ltb_spec i (0 + n)); [reflexivity | lia]. }
    rewrite Ec in H1, H2. split.
    + rewrite R1, H1. cbn [observation_count].
      destruct (nEntries !! i) as [z|]; [|reflexivity].
      destruct (residue_at e i); cbn; f_equal; lia.
    + intros j. rewrite R2. unfold cell at 1. rewrite (cell_alter_row _ _ _ _ _ H2).
      cbn [residue_count].
      destruct (cell (targetFrequencies s) i j) as [x|]; [|destruct (residue_at e i) as [j0|];
        [destruct (Nat.eqb j0 j)|]; reflexivity].
      destruct (residue_at e i) as [j0|]; [|reflexivity].
      destruct (Nat.eqb j0 j); [|reflexivity].
      cbn [fmap option_fmap option_map]. f_equal. symmetry. apply Nat.iter_succ_r.
Qed.

Lemma iter_incr_val (c : nat) (q0 : Q) :
  exists q, Nat.iter c np_incr (Val q0) = Val q /\ (q == q0 + inject_Z (Z.of_nat c))%Q.
Proof.
  induction c as [|c (q & E & Hq)].
  - exists q0. split; [reflexivity|]. cbn. ring.
  - exists (q + 1)%Q.
    change (Nat.iter (S c) np_incr (Val q0)) with (np_incr (Nat.iter c np_incr (Val q0))).
    rewrite E. split; [reflexivity|].
    rewrite Hq, Nat2Z.inj_succ. unfold Z.succ. rewrite inject_Z_plus. ring.
Qed.

Lemma residue_le_observation (entries : list string) (i j : nat) :
  (residue_count entries i j <= observation_count entries i)%nat.
Proof.
  induction entries as [|e entries IH]; cbn [residue_count observation_count]; [lia|].
  destruct (residue_at e i) as [j0|]; [|exact IH].
  destruct (Nat.eqb j0 j); lia.
Qed.

Lemma cell_zeros (n i j : nat) (x : npfloat) :
  cell (zeros2 n 20) i j = Some x -> x = Val 0.
Proof.
  unfold cell, zeros2. intros E.
  destruct (replicate n (replicate 20 (Val 0)) !! i) as [row|] eqn:R; [|discriminate E].
  apply lookup_replicate in R as [-> _]. cbn [mbind option_bind] in E.
  apply lookup_replicate in E as [-> _]. reflexivity.
Qed.

(** The state in which the counting pass ends, for a returning call. *)
Lemma readTargetFrequencies_counted (source : list string) (self self' : Optimizer)
    (tf : list (list npfloat)) :
  readTargetFrequencies source self = (Ok tf, self') ->
  exists (n : nat) nEntries counted,
    count_entries (seq 0 n) (counted_entries source "") (zeros1 n)
      (set_targetFrequencies (fun _ => zeros2 n 20)
         (set_nPositions (nPositions self') self))
    = (Ok nEntries, counted)
    /\ length nEntries = n
    /\ tf = counts_to_frequencies nEntries (targetFrequencies counted).
Proof.
  unfold readTargetFrequencies. rewrite run_lift_bind.
  destruct (first_entry "" (tail source)) as [entry|e]; [|discriminate].
  rewrite run_modify_bind, run_lift_bind.
  destruct (str_getitem entry (-2)) as [c|e]; [|discriminate].
  rewrite run_get_bind, run_bind.
  set (n := Z.of_nat (String.length entry) - 1).
  cbn [set_nPositions nPositions].
  unfold count_residues. rewrite run_modify_bind.
  set (s0 := set_targetFrequencies (fun _ => zeros2 (Z.to_nat n) 20) (set_nPositions n self)).
  pose proof (read_entries_counted (seq 0 (Z.to_nat n)) source "" (zeros1 (Z.to_nat n)) s0) as C.
  pose proof (read_entries_frame (seq 0 (Z.to_nat n)) source "" (zeros1 (Z.to_nat n)) s0)
    as [F L].
  pose proof (read_entries_counts (seq 0 (Z.to_nat n)) source "" (zeros1 (Z.to_nat n))
                s0 (zeros_counts _)) as I.
  destruct (read_entries _ _ _ _ _) as [[nEntries|e] s1]; [|discriminate].
  cbn [fst snd] in L. destruct I as [Hn _].
  rewrite run_modify_bind, run_modify_bind, run_get_bind, run_ret.
  intros E. injection E as <- <-.
  cbn [set_targetFreqsRead set_targetFrequencies targetFrequencies nPositions].
  subst s0. cbn [set_targetFrequencies set_nPositions nPositions] in Hn. rewrite Hn.
  exists (Z.to_nat n), nEntries, s1. split; [exact C|].
  split; [|reflexivity]. unfold zeros1 in L. rewrite length_replicate in L. exact L.
Qed.

(** X4. When [readTargetFrequencies] returns, the entry of the profile for
    position [i] and residue [j] is the number of counted entries that have
    this residue at character [i], divided by the number of counted entries
    that have one of the 20 residues there; it is not a number when there
    is no such entry. The counted entries are those followed by a header
    line; a character beyond the number of positions is not looked at. *)
Theorem profile_is_count_ratio (source : list string) (self self' : Optimizer)
    (tf : list (list npfloat)) :
  readTargetFrequencies source self = (Ok tf, self') ->
  forall i j x,
    cell tf i j = Some x ->
    match observation_count (counted_entries source "") i with
    | O => x = NaN
    | S m =>
        exists q, x = Val q
                  /\ (q == inject_Z (Z.of_nat (residue_count (counted_entries source "") i j))
                          / inject_Z (Z.of_nat (S m)))%Q
    end.
Proof.
  intros E i j x Hx.
  destruct (readTargetFrequencies_counted _ _ _ _ E) as (n & nEntries & s1 & C & Hlen & ->).
  apply count_entries_effect in C as [_ Heff].
  unfold cell, counts_to_frequencies in Hx. rewrite lookup_zip_with in Hx.
  destruct (targetFrequencies s1 !! i) as [row|] eqn:Hrow; [|discriminate Hx].
  destruct (nEntries !! i) as [k|] eqn:Hk; [|discriminate Hx].
  cbn [mbind option_bind] in Hx. rewrite list_lookup_fmap in Hx.
  destruct (row !! j) as [y|] eqn:Hy; [|discriminate Hx].
  injection Hx as <-.
  assert (Hi : (i < n)%nat) by (rewrite <- Hlen; eapply lookup_lt_Some, Hk).
  destruct (Heff i Hi) as [HN Hc]. specialize (Hc j).
  cbn [set_targetFrequencies targetFrequencies] in Hc.
  unfold zeros1 in HN. rewrite lookup_replicate_2 in HN by exact Hi.
  rewrite Hk in HN. injection HN as ->.
  assert (Hcell : cell (targetFrequencies s1) i j = Some y).
  { unfold cell. rewrite Hrow. exact Hy. }
  rewrite Hcell in Hc.
  destruct (cell (zeros2 n 20) i j) as [y0|] eqn:H0; [|discriminate Hc].
  apply cell_zeros in H0 as ->. injection Hc as ->.
  pose proof (residue_le_observation (counted_entries source "") i j) as Hle.
  destruct (observation_count (counted_entries source "") i) as [|m] eqn:HN.
  - assert (Hz : residue_count (counted_entries source "") i j = 0%nat) by lia.
    rewrite Hz. reflexivity.
  - destruct (iter_incr_val (residue_count (counted_entries source "") i j) 0)
      as (q & -> & Hq).
    cbn [np_div]. destruct (Z.eqb_spec (0 + Z.of_nat (S m)) 0); [lia|].
    eexists. split; [reflexivity|]. rewrite Hq.
    change (0 + Z.of_nat (S m)) with (Z.of_nat (S m)).
    field. unfold Qeq, inject_Z. cbn. lia.
Qed.

(** In the alignment of the example, with a header line at its end, two of
    the three entries have D at the last position. *)
Lemma profile_is_count_ratio_witness :
  exists x, cell (targetFrequencies
                    (readTargetFrequencies Fixtures.alignment_closed (Optimizer_init ∅ true)).2)
                 3 2 = Some x
            /\ exists q, x = Val q /\ (q == 2 # 3)%Q.
Proof.
  eexists. split; [vm_compute; reflexivity|].
  assert (E : readTargetFrequencies Fixtures.alignment_closed (Optimizer_init ∅ true)
              = (Ok (targetFrequencies
                       (readTargetFrequencies Fixtures.alignment_closed
                          (Optimizer_init ∅ true)).2),
                 (readTargetFrequencies Fixtures.alignment_closed (Optimizer_init ∅ true)).2))
    by (vm_compute; reflexivity).
  pose proof (profile_is_count_ratio _ _ _ _ E 3%nat 2%nat _ ltac:(vm_compute; reflexivity)) as P.
  vm_compute observation_count in P. vm_compute residue_count in P.
  destruct P as (q & Hq & Hr). exists q. split; [exact Hq|].
  rewrite Hr. reflexivity.
Defined.

(** X5. An entry that is counted and has fewer characters than the file has
    positions, which is the length of the first entry less one, makes
    [readTargetFrequencies] raise an [IndexError]. *)
Theorem readTargetFrequencies_shorter_entry (source : list string) (self : Optimizer)
    (entry e : string) :
  first_entry "" (tail source) = Ok entry ->
  In e (counted_entries source "") ->
  (String.length e < String.length entry - 1)%nat ->
  exists self', readTargetFrequencies source self = (Raise IndexError, self').
Proof.
  intros E Hin Hshort. unfold readTargetFrequencies.
  rewrite run_lift_bind, E, run_modify_bind, run_lift_bind.
  destruct (str_getitem entry (-2)) as [c|err] eqn:G.
  2:{ unfold str_getitem in G.
      destruct (_ && _); [destruct (String.get _ _); discriminate G || (injection G as <-; eauto)|].
      injection G as <-. eauto. }
  rewrite run_get_bind, run_bind.
  set (n := Z.of_nat (String.length entry) - 1).
  cbn [set_nPositions nPositions].
  unfold count_residues. rewrite run_modify_bind.
  set (s0 := set_targetFrequencies (fun _ => zeros2 (Z.to_nat n) 20) (set_nPositions n self)).
  pose proof (read_entries_counted (seq 0 (Z.to_nat n)) source "" (zeros1 (Z.to_nat n)) s0) as C.
  destruct (read_entries _ _ _ _ _) as [[nEntries|err] s1]; [|subst err; eauto].
  apply count_entries_effect in C as [[Hn|Hall] _]; [lia|].
  rewrite Forall_forall in Hall. apply list_elem_of_In in Hin.
  specialize (Hall e Hin). lia.
Qed.

(** The second entry has two characters less than the first. *)
Lemma readTargetFrequencies_shorter_entry_witness :
  exists self',
    readTargetFrequencies
      [Fixtures.ln ">NULL"; Fixtures.ln "ACD"; Fixtures.ln ">seq2"; Fixtures.ln "A";
       Fixtures.ln ">"]
      (Optimizer_init ∅ true)
    = (Raise IndexError, self').
Proof.
  refine (readTargetFrequencies_shorter_entry
            [Fixtures.ln ">NULL"; Fixtures.ln "ACD"; Fixtures.ln ">seq2"; Fixtures.ln "A";
             Fixtures.ln ">"]
            (Optimizer_init ∅ true) (Fixtures.ln "ACD") (Fixtures.ln "A") eq_refl _ _).
  - right. left. reflexivity.
  - vm_compute. lia.
Defined.

(** ** What a macrostate load changes, and what it holds afterwards *)

Lemma same_but_cache_refl (s : Optimizer) : same_but_cache s s.
Proof. unfold same_but_cache. destruct s; reflexivity. Qed.

Lemma same_but_cache_trans (s1 s2 s3 : Optimizer) :
  same_but_cache s1 s2 -> same_but_cache s2 s3 -> same_but_cache s1 s3.
Proof. unfold same_but_cache. intros -> ->. reflexivity. Qed.

Lemma same_but_cache_set (s : Optimizer) (f : gmap string Model -> gmap string Model)
    (p : Z) :
  same_but_cache s (set_models f (set_minPosition p s)).
Proof. reflexivity. Qed.

Lemma same_but_cache_cleared (s s' : Optimizer) (p : Z) :
  same_but_cache s s' -> cleared p s' = cleared p s.
Proof. unfold same_but_cache. intros ->. reflexivity. Qed.

Section MacrostateLoad.
Context `{PyBuiltins}.

Lemma readData_line_cache (b : bool) (line : string) (s : Optimizer) :
  same_but_cache s (readData_line b line s).2.
Proof.
  rewrite readData_line_eq.
  destruct (readData_fields s line) as [f|e]; [|apply same_but_cache_refl].
  cbv zeta.
  set (s1 := if b then set_minPosition (row_position f) s else s).
  assert (C1 : same_but_cache s s1).
  { subst s1. destruct b; [|apply same_but_cache_refl].
    unfold same_but_cache. destruct s; reflexivity. }
  clearbody s1.
  destruct (outside_window s1 (row_position f)); [exact C1|].
  rewrite readData_store_eq.
  destruct (float_of _); [|exact C1].
  destruct (boltzmann_of _); [|exact C1].
  destruct (energy_array _); [|exact C1].
  cbn [snd]. eapply same_but_cache_trans; [exact C1|].
  unfold same_but_cache. destruct s1; reflexivity.
Qed.

Lemma readData_loop_cache (lines : list string) (fl b : bool) (s : Optimizer) :
  same_but_cache s (readData_loop fl b lines s).2.
Proof.
  revert fl b s.
  induction lines as [|line lines IH]; intros fl b s; cbn [readData_loop].
  - apply same_but_cache_refl.
  - destruct fl; [apply IH|].
    rewrite run_bind.
    pose proof (readData_line_cache b line s) as C.
    destruct (readData_line b line s) as [[b'|e] s1]; cbn [snd] in C; [|exact C].
    exact (same_but_cache_trans _ _ _ C (IH false b' s1)).
Qed.

(** X6. Whether it returns or raises, [readData] changes nothing of the
    optimizer but the cache and [minPosition], and what the cache and
    [minPosition] were before plays no role: the same table loaded again
    gives the same outcome and leaves the same optimizer. *)
Theorem readData_again (source : list string) (self self' : Optimizer) (r : result unit) :
  readData source self = (r, self') ->
  same_but_cache self self' /\ readData source self' = (r, self').
Proof.
  intros E.
  assert (C : same_but_cache self self').
  { rewrite readData_run in E.
    pose proof (readData_loop_cache source true true (cleared 65535 self)) as C.
    rewrite E in C. cbn [snd] in C.
    eapply same_but_cache_trans; [|exact C]. reflexivity. }
  split; [exact C|].
  rewrite readData_run, (same_but_cache_cleared _ _ _ C), <- readData_run. exact E.
Qed.

End MacrostateLoad.

(** The macrostate table loaded twice. *)
Lemma readData_again_witness :
  readData Fixtures.macro_table (readData Fixtures.macro_table Fixtures.optimizer2).2
  = readData Fixtures.macro_table Fixtures.optimizer2.
Proof.
  rewrite (surjective_pairing (readData Fixtures.macro_table Fixtures.optimizer2)) at 2.
  exact (proj2 (readData_again Fixtures.macro_table Fixtures.optimizer2 _ _
                  (surjective_pairing _))).
Defined.

Section MacrostateLookup.
Context `{PyBuiltins}.

Lemma line_loaded_weaken (ms : gmap string Model) (f : macro_row) :
  line_loaded true ms f -> line_loaded false ms f.
Proof.
  intros (bk & bt & en & m & ? & ? & ? & ? & Hs).
  exists bk, bt, en, m. conjs; try assumption. rewrite Hs. eexists; reflexivity.
Qed.

(** A line leaves filled the slots that were filled. *)
Lemma readData_line_keeps (b : bool) (line : string) (s s' : Optimizer) (r : result bool)
    (f : macro_row) :
  readData_line b line s = (r, s') ->
  line_loaded false (models s) f -> line_loaded false (models s') f.
Proof.
  rewrite readData_line_eq. intros E L.
  destruct (readData_fields s line) as [g|e]; [|injection E as <- <-; exact L].
  cbv zeta in E.
  set (s1 := if b then set_minPosition (row_position g) s else s) in E.
  assert (M1 : models s1 = models s) by (subst s1; destruct b; reflexivity).
  clearbody s1.
  destruct (outside_window s1 (row_position g));
    [injection E as <- <-; rewrite M1; exact L|].
  rewrite readData_store_eq in E.
  destruct (float_of _) as [bk'|e]; [|injection E as <- <-; rewrite M1; exact L].
  destruct (boltzmann_of (row_boltzmanT g)) as [bt'|e];
    [|injection E as <- <-; rewrite M1; exact L].
  destruct (energy_array (row_energies g)) as [en'|e];
    [|injection E as <- <-; rewrite M1; exact L].
  injection E as <- <-. cbn [set_models models].
  destruct L as (bk & bt & en & m & Hb & Ht & He & Hl & Hs).
  set (ID' := calcParamsID (PyFloat bk') (PyInt (row_ensembleS g)) (PyFloat bt')).
  destruct (decide (ID' = calcParamsID (PyFloat bk) (PyInt (row_ensembleS f)) (PyFloat bt)))
    as [Heq|Hne].
  - eexists bk, bt, en, _. conjs; [exact Hb | exact Ht | exact He | |].
    + rewrite <- Heq. apply lookup_insert_eq.
    + unfold stored_model. fold ID'. rewrite M1, Heq, Hl. cbn.
      destruct (decide ((row_macrostate g, row_position g)
                        = (row_macrostate f, row_position f))) as [->|Hk].
      * rewrite lookup_insert_eq. eexists; reflexivity.
      * rewrite lookup_insert_ne by exact Hk. exact Hs.
  - exists bk, bt, en, m. conjs; try assumption.
    rewrite lookup_insert_ne by exact Hne. rewrite M1. exact Hl.
Qed.

(** A line that returns and is in the window has been loaded. *)
Lemma readData_line_loaded (b b' : bool) (line : string) (s s' : Optimizer) (f : macro_row) :
  readData_line b line s = (Ok b', s') ->
  readData_fields s line = Ok f ->
  minPosition s' <= row_position f < minPosition s' + nPositions s' ->
  line_loaded true (models s') f.
Proof.
  rewrite readData_line_eq. intros E Ef W. rewrite Ef in E. cbv zeta in E.
  set (s1 := if b then set_minPosition (row_position f) s else s) in E. clearbody s1.
  destruct (outside_window s1 (row_position f)) eqn:O.
  { injection E as _ <-. apply outside_window_false in W. congruence. }
  rewrite readData_store_eq in E. unfold float_of in E.
  destruct (py_float (row_backrubT f)) as [bk|] eqn:Eb; [|discriminate].
  destruct (boltzmann_of (row_boltzmanT f)) as [bt|] eqn:Et; [|discriminate].
  destruct (energy_array (row_energies f)) as [en|] eqn:Ee; [|discriminate].
  injection E as _ <-. cbn [set_models models].
  eexists bk, bt, en, _. conjs; [exact Eb | exact Et | exact Ee | apply lookup_insert_eq |].
  unfold stored_model. cbn. apply lookup_insert_eq.
Qed.

Lemma readData_line_positions (line : string) (s s' : Optimizer) (r : result bool) :
  readData_line false line s = (r, s') ->
  minPosition s' = minPosition s /\ nPositions s' = nPositions s.
Proof.
  rewrite readData_line_eq.
  destruct (readData_fields s line) as [g|e]; [|intros [= <- <-]; auto]. cbv zeta.
  destruct (outside_window s (row_position g)); [intros [= <- <-]; auto|].
  rewrite readData_store_eq.
  destruct (float_of _); [|intros [= <- <-]; auto].
  destruct (boltzmann_of _); [|intros [= <- <-]; auto].
  destruct (energy_array _); intros [= <- <-]; auto.
Qed.

Lemma readData_loop_positions (lines : list string) (s s' : Optimizer) (r : result unit) :
  readData_loop false false lines s = (r, s') ->
  minPosition s' = minPosition s /\ nPositions s' = nPositions s.
Proof.
  revert s. induction lines as [|l lines IH]; intros s E; cbn [readData_loop] in E.
  - injection E as <- <-. auto.
  - rewrite run_bind in E.
    destruct (readData_line false l s) as [[b'|e] s1] eqn:L;
      destruct (readData_line_positions _ _ _ _ L) as [Hp Hn].
    + rewrite (readData_line_flag _ _ _ _ _ L) in E.
      destruct (IH _ E) as [Hp' Hn']. split; congruence.
    + injection E as <- <-. auto.
Qed.

Lemma readData_loop_keeps (lines : list string) (s s' : Optimizer) (r : result unit)
    (f : macro_row) :
  readData_loop false false lines s = (r, s') ->
  line_loaded false (models s) f -> line_loaded false (models s') f.
Proof.
  revert s. induction lines as [|l lines IH]; intros s E Lf; cbn [readData_loop] in E.
  - injection E as <- <-. exact Lf.
  - rewrite run_bind in E.
    destruct (readData_line false l s) as [[b'|e] s1] eqn:L;
      pose proof (readData_line_keeps _ _ _ _ _ _ L Lf) as L1.
    + rewrite (readData_line_flag _ _ _ _ _ L) in E. exact (IH _ E L1).
    + injection E as <- <-. exact L1.
Qed.

Lemma readData_loop_loaded (lines : list string) (s s' : Optimizer) :
  readData_loop false false lines s = (Ok tt, s') ->
  forall line f,
    In line lines -> readData_fields s line = Ok f ->
    minPosition s' <= row_position f < minPosition s' + nPositions s' ->
    line_loaded false (models s') f
    /\ (forall init, lines = (init ++ [line])%list -> line_loaded true (models s') f).
Proof.
  revert s.
  induction lines as [|l lines IH]; intros s E line f Hin Ef W; [destruct Hin|].
  cbn [readData_loop] in E. rewrite run_bind in E.
  destruct (readData_line false l s) as [[b'|e] s1] eqn:L; [|discriminate].
  pose proof (readData_line_flag _ _ _ _ _ L) as ->.
  pose proof (readData_line_cache false l s) as C1. rewrite L in C1. cbn [snd] in C1.
  assert (F1 : readData_fields s1 line = Ok f).
  { rewrite <- Ef. apply readData_fields_ext. rewrite C1. reflexivity. }
  destruct (readData_loop_positions _ _ _ _ E) as [Pp Pn].
  destruct Hin as [->|Hin].
  - assert (L1 : line_loaded true (models s1) f).
    { apply (readData_line_loaded _ _ _ _ _ _ L Ef). rewrite <- Pp, <- Pn. exact W. }
    split; [exact (readData_loop_keeps _ _ _ _ _ E (line_loaded_weaken _ _ L1))|].
    intros init Hinit. destruct init as [|x init].
    + cbn in Hinit. injection Hinit as Hnil. subst lines.
      cbn [readData_loop] in E. rewrite run_ret in E.
      injection E as <-. exact L1.
    + cbn in Hinit. injection Hinit as _ Hl. subst lines.
      destruct (IH s1 E line f) as [_ Hlast];
        [apply in_or_app; right; left; reflexivity | exact F1 | exact W |].
      exact (Hlast init eq_refl).
  - destruct (IH s1 E line f Hin F1 W) as [Hl Hlast]. split; [exact Hl|].
    intros init Hinit. destruct init as [|x init].
    + cbn in Hinit. injection Hinit as _ Hnil. subst lines. destruct Hin.
    + cbn in Hinit. injection Hinit as _ Hl'. exact (Hlast init Hl').
Qed.

End MacrostateLookup.

Section MacrostateFound.
Context `{PyBuiltins}.

(** The data lines of a returning load: each one in the window has been
    loaded, and the last one holds its slot. *)
Lemma readData_loaded (header : string) (rest : list string) (self self' : Optimizer) :
  readData (header :: rest) self = (Ok tt, self') ->
  forall line f,
    In line rest -> readData_fields self line = Ok f ->
    minPosition self' <= row_position f < minPosition self' + nPositions self ->
    line_loaded false (models self') f
    /\ (forall init, rest = (init ++ [line])%list -> line_loaded true (models self') f).
Proof.
  rewrite readData_run. cbn [readData_loop].
  destruct rest as [|first rest]; [intros _ line f []|].
  cbn [readData_loop]. rewrite run_bind.
  destruct (readData_line true first (cleared 65535 self)) as [[b'|e] s1] eqn:L;
    [|discriminate].
  destruct (readData_first_line _ _ _ _ L) as (g & Eg & -> & Hp1 & Hn1 & Hm1 & _).
  intros E line f Hin Ef W.
  destruct (readData_loop_positions _ _ _ _ E) as [Pp Pn].
  assert (W' : minPosition self' <= row_position f < minPosition self' + nPositions self')
    by (rewrite Pn, Hn1; exact W).
  assert (F1 : readData_fields s1 line = Ok f).
  { rewrite <- Ef. apply readData_fields_ext. exact Hm1. }
  destruct Hin as [->|Hin].
  - assert (L1 : line_loaded true (models s1) f).
    { apply (readData_line_loaded _ _ _ _ _ _ L).
      - rewrite <- Ef. apply readData_fields_ext. reflexivity.
      - rewrite <- Pp, <- Pn. exact W'. }
    split; [exact (readData_loop_keeps _ _ _ _ _ E (line_loaded_weaken _ _ L1))|].
    intros init Hinit. destruct init as [|x init]; cbn in Hinit.
    + injection Hinit as Hnil. subst rest.
      cbn [readData_loop] in E. rewrite run_ret in E. injection E as <-. exact L1.
    + injection Hinit as _ Hl. subst rest.
      destruct (readData_loop_loaded _ _ _ E line f) as [_ Hlast];
        [apply in_or_app; right; left; reflexivity | exact F1 | exact W' |].
      exact (Hlast init eq_refl).
  - destruct (readData_loop_loaded _ _ _ E line f Hin F1 W') as [Hl Hlast].
    split; [exact Hl|].
    intros init Hinit. destruct init as [|x init]; cbn in Hinit.
    + injection Hinit as _ Hnil. subst rest. destruct Hin.
    + injection Hinit as _ Hl'. exact (Hlast init Hl').
Qed.

(** X7. After a returning [readData], every data line of the table whose
    position is in the window can be looked up: [getModelByParams], called
    with the backrub temperature, the ensemble size and the Boltzmann
    temperature the line converts to, returns a model in which the slot of
    the line's macrostate and position is filled. *)
Theorem readData_lookup (source : list string) (self self' : Optimizer) (line : string)
    (f : macro_row) :
  readData source self = (Ok tt, self') ->
  In line (tail source) ->
  readData_fields self line = Ok f ->
  minPosition self' <= row_position f < minPosition self' + nPositions self ->
  exists backrubT boltzmanT m,
    py_float (row_backrubT f) = Some backrubT
    /\ boltzmann_of (row_boltzmanT f) = Ok boltzmanT
    /\ getModelByParams (PyFloat backrubT) (PyInt (row_ensembleS f)) (PyFloat boltzmanT) self'
       = (Ok m, self')
    /\ is_Some (macrostateData m !! (row_macrostate f, row_position f)).
Proof.
  intros E Hin Ef W.
  destruct source as [|header rest]; [destruct Hin|]. cbn [tail] in Hin.
  destruct (readData_loaded _ _ _ _ E line f Hin Ef W)
    as [(bk & bt & en & m & Hb & Ht & _ & Hl & Hs) _].
  exists bk, bt, m. conjs; [exact Hb | exact Ht | | exact Hs].
  unfold getModelByParams. rewrite run_get_bind. unfold lift, dict_getitem.
  rewrite Hl. reflexivity.
Qed.

(** X8. After a returning [readData], the last line of the table, when it
    is a data line in the window, is found with its own energies: the
    model [getModelByParams] returns for its parameters holds, in the slot
    of its macrostate and position, the array of its 20 energies. *)
Theorem readData_last_line (init : list string) (self self' : Optimizer) (line : string)
    (f : macro_row) :
  readData (init ++ [line]) self = (Ok tt, self') ->
  init <> [] ->
  readData_fields self line = Ok f ->
  minPosition self' <= row_position f < minPosition self' + nPositions self ->
  exists backrubT boltzmanT energies m,
    py_float (row_backrubT f) = Some backrubT
    /\ boltzmann_of (row_boltzmanT f) = Ok boltzmanT
    /\ energy_array (row_energies f) = Ok energies
    /\ getModelByParams (PyFloat backrubT) (PyInt (row_ensembleS f)) (PyFloat boltzmanT) self'
       = (Ok m, self')
    /\ macrostateData m !! (row_macrostate f, row_position f) = Some energies.
Proof.
  intros E Hne Ef W.
  destruct init as [|header init]; [contradiction|]. cbn [app] in E.
  destruct (readData_loaded _ _ _ _ E line f) as [_ Hlast];
    [apply in_or_app; right; left; reflexivity | exact Ef | exact W |].
  destruct (Hlast init eq_refl) as (bk & bt & en & m & Hb & Ht & He & Hl & Hs).
  exists bk, bt, en, m. conjs; [exact Hb | exact Ht | exact He | | exact Hs].
  unfold getModelByParams. rewrite run_get_bind. unfold lift, dict_getitem.
  rewrite Hl. reflexivity.
Qed.

End MacrostateFound.

(** The two data lines of the short macrostate table. *)
Lemma readData_lookup_witness :
  exists m,
    getModelByParams (PyFloat 0.5) (PyInt 50) (PyFloat (-1))
      (readData Fixtures.macro_table_short Fixtures.optimizer2).2
    = (Ok m, (readData Fixtures.macro_table_short Fixtures.optimizer2).2)
    /\ is_Some (macrostateData m !! (0, 5)).
Proof.
  assert (E : readData Fixtures.macro_table_short Fixtures.optimizer2
              = (Ok tt, (readData Fixtures.macro_table_short Fixtures.optimizer2).2))
    by (vm_compute; reflexivity).
  destruct (readData_lookup _ _ _
              (Fixtures.tsv ["apo"; "0.5"; "50"; "mean"; "5"; Fixtures.energies_text])
              (mkMacroRow 0 "0.5" 50 "mean" 5 Fixtures.energies_dict) E)
    as (bk & bt & m & Hb & Ht & G & Hs).
  - left. reflexivity.
  - vm_compute. reflexivity.
  - split; [vm_compute; discriminate | vm_compute; reflexivity].
  - vm_compute in Hb. injection Hb as <-. vm_compute in Ht. injection Ht as <-.
    exists m. split; [exact G | exact Hs].
Defined.

Lemma readData_last_line_witness :
  exists m,
    getModelByParams (PyFloat 0.5) (PyInt 50) (PyFloat 0)
      (readData Fixtures.macro_table_short Fixtures.optimizer2).2
    = (Ok m, (readData Fixtures.macro_table_short Fixtures.optimizer2).2)
    /\ macrostateData m !! (1, 6) = Some (replicate 20 0%float).
Proof.
  assert (E : readData (take 2 Fixtures.macro_table
                        ++ [Fixtures.tsv ["holo"; "0.5"; "50"; "min"; "6";
                                          Fixtures.energies_text]])
                       Fixtures.optimizer2
              = (Ok tt, (readData Fixtures.macro_table_short Fixtures.optimizer2).2))
    by (vm_compute; reflexivity).
  destruct (readData_last_line _ _ _ _
              (mkMacroRow 1 "0.5" 50 "min" 6 Fixtures.energies_dict) E)
    as (bk & bt & en & m & Hb & Ht & He & G & Hs).
  - discriminate.
  - vm_compute. reflexivity.
  - split; [vm_compute; discriminate | vm_compute; reflexivity].
  - vm_compute in Hb. injection Hb as <-. vm_compute in Ht. injection Ht as <-.
    vm_compute in He. injection He as <-.
    exists m. split; [exact G | exact Hs].
Defined.

(** ** The number of positions after a microstate load *)

Lemma positions_kept_refl (ms : gmap string Model) : positions_kept ms ms.
Proof. intros ID m p Hl Hs. exists m. auto. Qed.

Lemma positions_kept_trans (ms1 ms2 ms3 : gmap string Model) :
  positions_kept ms1 ms2 -> positions_kept ms2 ms3 -> positions_kept ms1 ms3.
Proof.
  intros K1 K2 ID m p Hl Hs.
  destruct (K1 ID m p Hl Hs) as (m2 & Hl2 & Hs2). exact (K2 ID m2 p Hl2 Hs2).
Qed.

Lemma stored_position_kept (m : Model) (mac q p : Z) (en : list float) :
  stored_position m p -> stored_position (addMicrostateData m mac q en) p.
Proof.
  intros [Hmacro|(mac' & en' & Hin)]; [left; exact Hmacro|].
  right. exists mac', en'. cbn. apply in_or_app. left. exact Hin.
Qed.

Lemma stored_position_added (m : Model) (mac q : Z) (en : list float) :
  stored_position (addMicrostateData m mac q en) q.
Proof. right. exists mac, en. cbn. apply in_or_app. right. left. reflexivity. Qed.

Section MicrostatePositions.
Context `{PyBuiltins}.

Lemma readMicrostateData_line_max (maxPos maxPos' : Z) (line : string) (s s' : Optimizer) :
  readMicrostateData_line maxPos line s = (Ok maxPos', s') ->
  maxPos <= maxPos'
  /\ positions_kept (models s) (models s')
  /\ (maxPos' = maxPos
      \/ exists ID m, models s' !! ID = Some m /\ stored_position m maxPos').
Proof.
  rewrite readMicrostateData_line_eq.
  destruct (readMicrostateData_fields line) as [f|e]; [|discriminate].
  destruct (outside_window s (mrow_position f)).
  { intros [= <- <-]. conjs; [lia | apply positions_kept_refl | left; reflexivity]. }
  rewrite readMicrostateData_store_eq.
  destruct (float_of (mrow_backrubT f)) as [bk|e]; [|discriminate].
  destruct (dict_getitem (macStateToIndex s) (mrow_macrostate f)) as [mac|e]; [|discriminate].
  destruct (energy_array (mrow_energies f)) as [en|e]; [|discriminate].
  intros [= <- <-]. cbn [set_models models].
  set (ID := calcParamsID (PyFloat bk) PyNone PyNone).
  conjs.
  - destruct (Z.ltb_spec maxPos (mrow_position f)); lia.
  - intros ID' m p Hl Hs. destruct (decide (ID = ID')) as [<-|Hne].
    + eexists. rewrite lookup_insert_eq. split; [reflexivity|].
      unfold stored_micro_model. fold ID. rewrite Hl. cbn [default].
      apply stored_position_kept, Hs.
    + exists m. rewrite lookup_insert_ne by exact Hne. auto.
  - destruct (Z.ltb_spec maxPos (mrow_position f)); [right | left; reflexivity].
    eexists ID, _. rewrite lookup_insert_eq. split; [reflexivity|].
    apply stored_position_added.
Qed.

Lemma readMicrostateData_loop_max (lines : list string) (fl : bool) (maxPos maxPos' : Z)
    (s s' : Optimizer) :
  readMicrostateData_loop fl maxPos lines s = (Ok maxPos', s') ->
  maxPos <= maxPos'
  /\ positions_kept (models s) (models s')
  /\ (maxPos' = maxPos
      \/ exists ID m, models s' !! ID = Some m /\ stored_position m maxPos').
Proof.
  revert fl maxPos s.
  induction lines as [|line lines IH]; intros fl maxPos s E;
    cbn [readMicrostateData_loop] in E.
  - injection E as <- <-. conjs; [lia | apply positions_kept_refl | left; reflexivity].
  - destruct fl; [exact (IH _ _ _ E)|].
    rewrite run_bind in E.
    destruct (readMicrostateData_line maxPos line s) as [[maxPos1|e] s1] eqn:L;
      [|discriminate].
    apply readMicrostateData_line_max in L as (Hle1 & K1 & W1).
    destruct (IH _ _ _ E) as (Hle & K & W).
    conjs; [lia | exact (positions_kept_trans _ _ _ K1 K) |].
    destruct W as [->|W]; [|right; exact W].
    destruct W1 as [->|(ID & m & Hl & Hs)]; [left; reflexivity|].
    right. destruct (K ID m _ Hl Hs) as (m' & Hl' & Hs'). eauto.
Qed.

(** X9. When [readMicrostateData] returns on an optimizer with contiguous
    positions, it has set [nPositions] to M - minPosition + 1, where M is
    the largest of 0 and the positions of the stored records: [maxPos]
    starts at 0, so that M is at least 0, no stored position is above M,
    and M is 0 or the position of a stored record. When no stored position
    is above 0, as with an empty cache or with negative positions only,
    [nPositions] is 1 - minPosition, whatever was stored. On an optimizer
    with positions that are not contiguous [nPositions] is left as it
    was. *)
Theorem readMicrostateData_nPositions (source : list string) (minPos : Z)
    (self self' : Optimizer) :
  readMicrostateData source minPos self = (Ok tt, self') ->
  if contiguousPositions self
  then exists maxPos,
         nPositions self' = maxPos - minPos + 1
         /\ 0 <= maxPos
         /\ models_upto (models self') maxPos
         /\ (maxPos = 0
             \/ exists ID m, models self' !! ID = Some m /\ stored_position m maxPos)
         /\ ((forall ID m p, models self' !! ID = Some m -> stored_position m p ->
                             p <= 0) ->
             nPositions self' = 1 - minPos)
  else nPositions self' = nPositions self.
Proof.
  rewrite readMicrostateData_run.
  destruct (readMicrostateData_loop true 0 source (cleared minPos self))
    as [[maxPos|e] s] eqn:L; [|discriminate].
  pose proof (readMicrostateData_loop_max _ _ _ _ _ _ L) as (Hle & _ & W).
  apply readMicrostateData_loop_inv in L as (Hn & _ & Hc & _ & U);
    [|apply models_in_window_empty | apply models_upto_empty].
  cbn in Hn, Hc. rewrite <- Hc.
  intros [= <-]. destruct (contiguousPositions s); [|exact Hn].
  exists maxPos. cbn. conjs; [reflexivity | exact Hle | exact U | exact W |].
  intros Hall. destruct W as [->|(ID & m & Hl & Hs)]; [lia|].
  specialize (Hall ID m maxPos Hl Hs). lia.
Qed.

End MicrostatePositions.

(** The microstate table has records at the positions 5 and 6; a table that
    is only its header leaves -4 positions for a window that starts at 5;
    and the table with records at the positions -5 and -4 only, read for
    the window of two positions that starts at -5, leaves 6 positions. *)
Lemma readMicrostateData_nPositions_witness :
  nPositions (readMicrostateData Fixtures.micro_table 5 Fixtures.optimizer2).2 = 2
  /\ nPositions (readMicrostateData [Fixtures.micro_header] 5 Fixtures.optimizer2).2 = -4
  /\ nPositions
       (readMicrostateData Fixtures.micro_table_negative (-5) Fixtures.optimizer2).2 = 6.
Proof.
  conjs.
  - vm_compute. reflexivity.
  - assert (E : readMicrostateData [Fixtures.micro_header] 5 Fixtures.optimizer2
                = (Ok tt,
                   (readMicrostateData [Fixtures.micro_header] 5 Fixtures.optimizer2).2))
      by (vm_compute; reflexivity).
    pose proof (readMicrostateData_nPositions _ _ _ _ E) as (maxPos & Hn & _ & _ & W & _).
    rewrite Hn. destruct W as [->|(ID & m & Hl & _)]; [reflexivity|].
    vm_compute in Hl. discriminate Hl.
  - set (self' := (readMicrostateData Fixtures.micro_table_negative (-5)
                     Fixtures.optimizer2).2).
    assert (E : readMicrostateData Fixtures.micro_table_negative (-5) Fixtures.optimizer2
                = (Ok tt, self')) by (vm_compute; reflexivity).
    pose proof (readMicrostateData_nPositions _ _ _ _ E) as (maxPos & _ & _ & _ & _ & Hneg).
    rewrite Hneg; [reflexivity|].
    intros ID m p Hl Hs.
    rewrite readMicrostateData_run in E.
    destruct (readMicrostateData_loop true 0 Fixtures.micro_table_negative
                (cleared (-5) Fixtures.optimizer2)) as [[maxPos'|e] s] eqn:L;
      [|discriminate E].
    apply readMicrostateData_loop_inv in L as (Hn & Hp & _ & W & _);
      [|apply models_in_window_empty | apply models_upto_empty].
    injection E as E. rewrite <- E in Hl.
    assert (Hl' : models s !! ID = Some m)
      by (destruct (contiguousPositions s); exact Hl).
    specialize (W ID m p Hl' Hs). rewrite Hn, Hp in W. cbn in W. lia.
Defined.

(** ** Frequencies by parameters after a microstate load *)

Section MicrostateAccess.
Context `{FloatStrSpec}.

Lemma readMicrostateData_keyed (source : list string) (minPos : Z)
    (self self' : Optimizer) (r : result unit) :
  readMicrostateData source minPos self = (r, self') ->
  keyed_by_backrub (models self').
Proof.
  rewrite readMicrostateData_run. intros E.
  assert (K0 : keyed_by_backrub (models (cleared minPos self))).
  { intros ID m Hl. cbn in Hl. rewrite lookup_empty in Hl. discriminate Hl. }
  destruct (readMicrostateData_loop true 0 source (cleared minPos self))
    as [[maxPos|e] s1] eqn:L;
    apply readMicrostateData_loop_keys in L as (K & _ & _); try exact K0;
    injection E as <- <-; [|exact K].
  destruct (contiguousPositions s1); exact K.
Qed.

Context `{ModelOps}.

(** X10. After a call of [readMicrostateData], whether it returned or
    raised, [getFrequenciesByParams] raises [KeyError], with the ID of its
    parameters as key, for every ensemble size and every Boltzmann
    temperature other than [None], without building a model and leaving
    the optimizer as it is. *)
Theorem getFrequenciesByParams_after_microstates (source : list string) (minPos : Z)
    (self self' : Optimizer) (r : result unit)
    (ensembleSize backrubT boltzmannT : pyval) (steepness : float)
    (weights : list float) :
  readMicrostateData source minPos self = (r, self') ->
  ensembleSize <> PyNone \/ boltzmannT <> PyNone ->
  getFrequenciesByParams ensembleSize backrubT boltzmannT steepness weights self'
  = (Raise (KeyError (calcParamsID backrubT ensembleSize boltzmannT)), self').
Proof.
  intros E Hne. apply readMicrostateData_keyed in E.
  unfold getFrequenciesByParams, getModelByParams.
  rewrite run_bind, run_get_bind. unfold lift, dict_getitem.
  destruct (models self' !! calcParamsID backrubT ensembleSize boltzmannT)
    as [m|] eqn:Hl; [|reflexivity].
  destruct (E _ _ Hl) as (x & _ & Hid).
  apply calcParamsID_inj in Hid as (_ & -> & ->).
  destruct Hne as [N|N]; contradiction N; reflexivity.
Qed.

End MicrostateAccess.

(** The microstate table holds backbones for the backrub temperature 0.5;
    asking for them with the ensemble size 20 raises. *)
Lemma getFrequenciesByParams_after_microstates_witness :
  let self := (readMicrostateData Fixtures.micro_table 5 Fixtures.optimizer2).2 in
  getFrequenciesByParams (PyInt 20) (PyFloat 0.5) PyNone 1 [] self
  = (Raise (KeyError (calcParamsID (PyFloat 0.5) (PyInt 20) PyNone)), self).
Proof.
  intros self.
  apply (getFrequenciesByParams_after_microstates Fixtures.micro_table 5
           Fixtures.optimizer2 self
           (readMicrostateData Fixtures.micro_table 5 Fixtures.optimizer2).1).
  - apply surjective_pairing.
  - left. discriminate.
Defined.
(** ** The file of positions *)

Lemma same_but_positionMap_refl (s : Optimizer) : same_but_positionMap s s.
Proof. unfold same_but_positionMap. destruct s; reflexivity. Qed.

Section PickerFile.
Context `{PyBuiltins}.

(** One turn of the loop of [positionReindexerFASTA], in the terms of
    [picker_fields]. *)
Lemma positionReindexerFASTA_loop_eq (line : string) (lines : list string)
    (index : list Z) (i : Z) (s : Optimizer) :
  positionReindexerFASTA_loop (line :: lines) index i s
  = match picker_fields line with
    | Ok (v, p) =>
        match positionMap s with
        | Some pm =>
            positionReindexerFASTA_loop lines (index ++ [v])%list (i + 1)
              (set_positionMap (fun _ => Some (<[p := i]> pm)) s)
        | None => (Raise TypeError, s)
        end
    | Raise e => (Raise e, s)
    end.
Proof.
  cbn [positionReindexerFASTA_loop]. unfold picker_fields.
  rewrite run_lift_bind.
  destruct (list_getitem (split " " line) 0) as [first|e];
    cbn [mbind result_bind]; [|reflexivity].
  rewrite run_lift_bind.
  destruct (int_of first) as [v|e]; cbn [mbind result_bind]; [|reflexivity].
  rewrite run_lift_bind.
  destruct (list_getitem (split " " line) 2) as [third|e];
    cbn [mbind result_bind]; [|reflexivity].
  rewrite run_lift_bind.
  destruct (int_of (strip NL third)) as [p|e]; cbn [mbind result_bind]; [|reflexivity].
  rewrite run_bind. unfold positionMap_setitem.
  rewrite run_get_bind.
  destruct (positionMap s) as [pm|]; reflexivity.
Qed.

Lemma positionReindexerFASTA_loop_returns (lines : list string) (index : list Z)
    (i : Z) (s s' : Optimizer) (indices : list Z) :
  positionReindexerFASTA_loop lines index i s = (Ok indices, s') ->
  same_but_positionMap s s'
  /\ (exists vs, indices = (index ++ vs)%list
                 /\ Forall2 (fun line v => exists p, picker_fields line = Ok (v, p))
                            lines vs)
  /\ (lines <> [] -> positionMap s <> None)
  /\ (forall pm, positionMap s = Some pm ->
      exists pm', positionMap s' = Some pm'
                  /\ forall p, pm' !! p
                               = match last_rank p lines with
                                 | Some k => Some (i + Z.of_nat k)
                                 | None => pm !! p
                                 end).
Proof.
  revert index i s.
  induction lines as [|line lines IH]; intros index i s E.
  - cbn in E. injection E as <- <-.
    conjs; [apply same_but_positionMap_refl | | congruence |].
    + exists []. rewrite app_nil_r. split; [reflexivity | constructor].
    + intros pm Hpm. exists pm. split; [exact Hpm | reflexivity].
  - rewrite positionReindexerFASTA_loop_eq in E.
    destruct (picker_fields line) as [[v p]|e] eqn:F; [|discriminate].
    destruct (positionMap s) as [pm|] eqn:Hpm; [|discriminate].
    apply IH in E as (S1 & (vs & -> & Hvs) & _ & P).
    conjs.
    + unfold same_but_positionMap in *. rewrite S1 at 1. destruct s; reflexivity.
    + exists (v :: vs). rewrite <- app_assoc. split; [reflexivity|].
      constructor; [exists p; exact F | exact Hvs].
    + discriminate.
    + intros pm0 [= <-].
      destruct (P (<[p := i]> pm) eq_refl) as (pm' & Hpm' & L).
      exists pm'. split; [exact Hpm'|]. intros q. rewrite L.
      cbn [last_rank]. rewrite F.
      destruct (last_rank q lines) as [k|].
      * f_equal. lia.
      * destruct (Z.eqb_spec p q) as [->|N].
        -- rewrite lookup_insert_eq. f_equal. cbn. lia.
        -- rewrite lookup_insert_ne by exact N. reflexivity.
Qed.

End PickerFile.

(** ** The profile of chosen positions *)

Lemma mapM_result_Forall2 {A B} (f : A -> result B) (l : list A) (k : list B) :
  mapM f l = Ok k -> Forall2 (fun a b => f a = Ok b) l k.
Proof.
  revert k. induction l as [|a l IH]; intros k E; cbn in E.
  - injection E as <-. constructor.
  - destruct (f a) as [b|e] eqn:Fa; cbn in E; [|discriminate].
    destruct (mapM f l) as [k'|e]; cbn in E; [|discriminate].
    injection E as <-. constructor; [exact Fa | exact (IH _ eq_refl)].
Qed.

Lemma np_getrow_In (tf : list (list npfloat)) (v : Z) (row : list npfloat) :
  np_getrow tf v = Ok row -> In row tf.
Proof.
  unfold np_getrow.
  destruct (_ && _); [|discriminate].
  unfold list_getitem.
  destruct (tf !! _) as [r|] eqn:L; [|discriminate].
  intros [= <-]. apply list_elem_of_In. exact (list_elem_of_lookup_2 _ _ _ L).
Qed.

Section ChosenPositions.
Context `{PyBuiltins}.

Lemma readTargetFrequencies_counts_run (source : list string) (s : Optimizer) :
  readTargetFrequencies source s
  = match readTargetFrequencies_counts source s with
    | (Ok _, s1) => (Ok (targetFrequencies s1), set_targetFreqsRead true s1)
    | (Raise e, s1) => (Raise e, s1)
    end.
Proof.
  unfold readTargetFrequencies, readTargetFrequencies_counts.
  rewrite !run_lift_bind.
  destruct (first_entry "" (tail source)) as [entry|e]; [|reflexivity].
  rewrite !run_modify_bind, !run_lift_bind.
  destruct (str_getitem entry (-2)) as [c|e]; [|reflexivity].
  rewrite !run_get_bind, !run_bind.
  destruct (count_residues _ source _) as [[nEntries|e] s1]; reflexivity.
Qed.

(** The default of [posPicker] gives the method as it is modelled above. *)
Lemma readTargetFrequencies_posPicker_None (source : list string) (s : Optimizer) :
  readTargetFrequencies_posPicker source None s = readTargetFrequencies source s.
Proof.
  rewrite readTargetFrequencies_counts_run. unfold readTargetFrequencies_posPicker.
  rewrite run_bind.
  destruct (readTargetFrequencies_counts source s) as [[[]|e] s1]; reflexivity.
Qed.

Lemma readTargetFrequencies_counts_frame (source : list string) (s : Optimizer) :
  let s1 := (readTargetFrequencies_counts source s).2 in
  s1 = set_targetFrequencies (fun _ => targetFrequencies s1)
         (set_nPositions (nPositions s1) s).
Proof.
  unfold readTargetFrequencies_counts. cbn zeta.
  rewrite run_lift_bind.
  destruct (first_entry "" (tail source)) as [entry|e];
    [|destruct s; reflexivity].
  rewrite run_modify_bind, run_lift_bind.
  destruct (str_getitem entry (-2)) as [c|e]; [|destruct s; reflexivity].
  rewrite run_get_bind, run_bind.
  set (n := Z.of_nat (String.length entry) - 1).
  cbn [set_nPositions nPositions].
  unfold count_residues. rewrite run_modify_bind.
  set (s0 := set_targetFrequencies (fun _ => zeros2 (Z.to_nat n) 20) (set_nPositions n s)).
  pose proof (read_entries_frame (seq 0 (Z.to_nat n)) source "" (zeros1 (Z.to_nat n)) s0)
    as [F _].
  destruct (read_entries _ _ _ _ _) as [[nEntries|e] s1]; cbn [snd] in *;
    unfold same_but_profile in F; rewrite F; destruct s; reflexivity.
Qed.

(** The choice of positions, once the profile of all positions is there. *)
Lemma readTargetFrequencies_posPicker_run (source data : list string) (s : Optimizer) :
  readTargetFrequencies_posPicker source (Some data) s
  = match readTargetFrequencies_counts source s with
    | (Ok _, s1) =>
        match positionReindexerFASTA data (set_contiguousPositions false s1) with
        | (Ok indices, s2) =>
            match mapM (np_getrow (targetFrequencies s2)) indices with
            | Ok freqs =>
                (Ok freqs,
                 set_targetFreqsRead true
                   (set_targetFrequencies (fun _ => freqs)
                      (set_nPositions (Z.of_nat (length indices)) s2)))
            | Raise e => (Raise e, set_nPositions (Z.of_nat (length indices)) s2)
            end
        | (Raise e, s2) => (Raise e, s2)
        end
    | (Raise e, s1) => (Raise e, s1)
    end.
Proof.
  unfold readTargetFrequencies_posPicker. rewrite run_bind.
  destruct (readTargetFrequencies_counts source s) as [[[]|e] s1]; [|reflexivity].
  rewrite run_bind. unfold pick_positions at 1.
  rewrite run_modify_bind, run_bind.
  destruct (positionReindexerFASTA data _) as [[indices|e] s2]; [|reflexivity].
  rewrite run_modify_bind, run_get_bind, run_lift_bind.
  cbn [set_nPositions targetFrequencies].
  destruct (mapM _ indices) as [freqs|e]; reflexivity.
Qed.

End ChosenPositions.

Lemma Forall2_chain {A B C} (P : A -> B -> Prop) (Q : B -> C -> Prop)
    (l : list A) (k : list B) (m : list C) :
  Forall2 P l k -> Forall2 Q k m ->
  Forall2 (fun a c => exists b, P a b /\ Q b c) l m.
Proof.
  intros HP. revert m. induction HP as [|a b l k Hab _ IH]; intros m HQ.
  - inversion HQ. constructor.
  - inversion HQ as [|b' c k' m' Hbc HQ']; subst.
    constructor; [exists b; auto | exact (IH _ HQ')].
Qed.

Section ChosenProfile.
Context `{PyBuiltins}.

(** X11. When [positionReindexerFASTA] returns, the array it returns holds
    the integer of the first column of each line, in the order of the
    lines, and for a file that is not empty the map of positions has
    become: each integer of a third column is mapped to the rank of the
    last line that has it, and the other keys are as before. Nothing else
    of the optimizer has changed. *)
Theorem positionReindexerFASTA_returns (data : list string) (self self' : Optimizer)
    (indices : list Z) :
  positionReindexerFASTA data self = (Ok indices, self') ->
  Forall2 (fun line v => exists p, picker_fields line = Ok (v, p)) data indices
  /\ same_but_positionMap self self'
  /\ ((data = [] /\ self' = self)
      \/ exists pm pm',
           positionMap self = Some pm
           /\ positionMap self' = Some pm'
           /\ forall p, pm' !! p = match last_rank p data with
                                   | Some k => Some (Z.of_nat k)
                                   | None => pm !! p
                                   end).
Proof.
  unfold positionReindexerFASTA. intros E.
  destruct data as [|line lines].
  - cbn in E. injection E as <- <-.
    conjs; [constructor | apply same_but_positionMap_refl | left; auto].
  - apply positionReindexerFASTA_loop_returns in E as (S1 & (vs & -> & Hvs) & N & P).
    conjs; [exact Hvs | exact S1 | right].
    destruct (positionMap self) as [pm|] eqn:Hpm; [|contradiction N; [discriminate | reflexivity]].
    destruct (P pm eq_refl) as (pm' & Hpm' & L).
    exists pm, pm'. conjs; [reflexivity | exact Hpm' | exact L].
Qed.

(** X12. On an optimizer made with contiguous positions, which has no map
    of positions, [readTargetFrequencies] with a file of positions whose
    first line has its two integers raises [TypeError] whenever the call
    without the file returns: the profile of all the positions has been
    stored by then and [contiguousPositions] set to false, and
    [targetFreqsRead] is left as it was. *)
Theorem positions_file_on_contiguous (source : list string) (line : string)
    (rest : list string) (self s0 : Optimizer) (tf : list (list npfloat)) (v p : Z) :
  positionMap self = None ->
  readTargetFrequencies source self = (Ok tf, s0) ->
  picker_fields line = Ok (v, p) ->
  exists self',
    readTargetFrequencies_posPicker source (Some (line :: rest)) self
    = (Raise TypeError, self')
    /\ self' = set_contiguousPositions false
                 (set_targetFreqsRead (targetFreqsRead self) s0)
    /\ targetFrequencies self' = tf.
Proof.
  intros Hpm E F.
  rewrite readTargetFrequencies_counts_run in E.
  rewrite readTargetFrequencies_posPicker_run.
  pose proof (readTargetFrequencies_counts_frame source self) as Fr. cbn zeta in Fr.
  destruct (readTargetFrequencies_counts source self) as [[[]|e] s1]; [|discriminate].
  cbn [snd] in Fr. injection E as <- <-.
  unfold positionReindexerFASTA. rewrite positionReindexerFASTA_loop_eq, F.
  assert (Hpm1 : positionMap (set_contiguousPositions false s1) = None).
  { rewrite Fr. exact Hpm. }
  rewrite Hpm1. eexists. conjs; [reflexivity | | reflexivity].
  rewrite Fr. reflexivity.
Qed.

(** X13. When [readTargetFrequencies] returns with a file of positions,
    the call without the file returns too, and the profile returned and
    stored has one row for each line of the file, in their order: the row
    that the integer of the first column of the line, an index that counts
    from the end when it is negative, selects in the profile of all the
    positions. [nPositions] is the number of lines, [contiguousPositions]
    is false, [targetFreqsRead] is true, and the cache and [minPosition]
    are as before. *)
Theorem chosen_rows (source data : list string) (self self' : Optimizer)
    (freqs : list (list npfloat)) :
  readTargetFrequencies_posPicker source (Some data) self = (Ok freqs, self') ->
  exists tf s0,
    readTargetFrequencies source self = (Ok tf, s0)
    /\ Forall2 (fun line row => exists v p, picker_fields line = Ok (v, p)
                                            /\ np_getrow tf v = Ok row) data freqs
    /\ Forall (fun row => In row tf) freqs
    /\ nPositions self' = Z.of_nat (length data)
    /\ targetFrequencies self' = freqs
    /\ contiguousPositions self' = false
    /\ targetFreqsRead self' = true
    /\ models self' = models self
    /\ minPosition self' = minPosition self.
Proof.
  rewrite readTargetFrequencies_posPicker_run, readTargetFrequencies_counts_run.
  pose proof (readTargetFrequencies_counts_frame source self) as Fr. cbn zeta in Fr.
  destruct (readTargetFrequencies_counts source self) as [[[]|e] s1]; [|discriminate].
  cbn [snd] in Fr.
  destruct (positionReindexerFASTA data _) as [[indices|e] s2] eqn:P; [|discriminate].
  unfold positionReindexerFASTA in P.
  apply positionReindexerFASTA_loop_returns in P as (S2 & (vs & Ei & Hv) & _).
  cbn [app] in Ei. subst vs.
  assert (Etf : targetFrequencies s2 = targetFrequencies s1) by (rewrite S2; reflexivity).
  rewrite Etf.
  destruct (mapM _ indices) as [rows|e] eqn:Em; [|discriminate].
  intros E. injection E as <- <-.
  apply mapM_result_Forall2 in Em.
  exists (targetFrequencies s1), (set_targetFreqsRead true s1).
  conjs; try reflexivity.
  - eapply Forall2_impl; [exact (Forall2_chain _ _ _ _ _ Hv Em)|].
    cbn. intros line row (v & (p & F) & G). eauto.
  - clear Hv. induction Em as [|v row indices rows G _ IH]; constructor;
      [exact (np_getrow_In _ _ _ G) | exact IH].
  - cbn. f_equal. symmetry. exact (Forall2_length _ _ _ Hv).
  - cbn. rewrite S2. reflexivity.
  - cbn. rewrite S2. cbn. rewrite Fr. reflexivity.
  - cbn. rewrite S2. cbn. rewrite Fr. reflexivity.
Qed.

End ChosenProfile.

(** The file of positions on an optimizer for positions that are not
    contiguous: the position 7 of the sequence is that of rank 1. *)
Lemma positionReindexerFASTA_returns_witness :
  let r := positionReindexerFASTA Fixtures.positions_file Fixtures.optimizer_picked in
  r.1 = Ok [0; 2]
  /\ exists pm', positionMap r.2 = Some pm' /\ pm' !! 7 = Some 1.
Proof.
  intros r.
  assert (E : r = (Ok [0; 2], r.2)) by (vm_compute; reflexivity).
  split; [rewrite E; reflexivity|].
  destruct (positionReindexerFASTA_returns _ _ _ _ E)
    as (_ & _ & [[D _]|(pm & pm' & _ & Hpm' & L)]); [discriminate D|].
  exists pm'. split; [exact Hpm'|]. rewrite L. vm_compute. reflexivity.
Defined.

(** The alignment of the example with the file of positions, on an
    optimizer made with contiguous positions. *)
Lemma positions_file_on_contiguous_witness :
  (readTargetFrequencies_posPicker Fixtures.alignment (Some Fixtures.positions_file)
     (Optimizer_init ∅ true)).1 = Raise TypeError.
Proof.
  set (self := Optimizer_init ∅ true).
  assert (E : readTargetFrequencies Fixtures.alignment self
              = (Ok (readTargetFrequencies Fixtures.alignment self).2.(targetFrequencies),
                 (readTargetFrequencies Fixtures.alignment self).2))
    by (vm_compute; reflexivity).
  assert (F : picker_fields (Fixtures.ln "0 x 5") = Ok (0, 5))
    by (vm_compute; reflexivity).
  destruct (positions_file_on_contiguous Fixtures.alignment _ [Fixtures.ln "2 x 7"]
              self _ _ 0 5 eq_refl E F) as (self' & R & _).
  unfold Fixtures.positions_file. rewrite R. reflexivity.
Defined.

(** The columns 0 and 2 of the alignment of the example. *)
Lemma chosen_rows_witness :
  let r := readTargetFrequencies_posPicker Fixtures.alignment
             (Some Fixtures.positions_file) Fixtures.optimizer_picked in
  nPositions r.2 = 2 /\ contiguousPositions r.2 = false.
Proof.
  intros r.
  assert (E : r = (Ok (targetFrequencies r.2), r.2)) by (vm_compute; reflexivity).
  destruct (chosen_rows _ _ _ _ _ E) as (tf & s0 & _ & _ & _ & Hn & _ & Hc & _).
  split; [exact Hn | exact Hc].
Defined.

(** ** The FASTA file of a profile *)

Lemma append_nil_r (s : string) : s +:+ "" = s.
Proof.
  induction s as [|c s IH]; [reflexivity|].
  change (String c (s +:+ "") = String c s). f_equal. exact IH.
Qed.

Lemma append_assoc (a b c : string) : (a +:+ b) +:+ c = a +:+ (b +:+ c).
Proof.
  induction a as [|x a IH]; [reflexivity|].
  change (String x ((a +:+ b) +:+ c) = String x (a +:+ (b +:+ c))). f_equal. exact IH.
Qed.

Lemma appended_nil (name : string) (fs : gmap string string) : appended name "" fs fs.
Proof.
  unfold appended. apply map_eq. intros k. rewrite lookup_alter.
  destruct (decide (name = k)) as [->|]; [|reflexivity].
  destruct (fs !! k); cbn; [f_equal; symmetry; apply append_nil_r | reflexivity].
Qed.

Lemma appended_trans (name t1 t2 : string) (fs fs1 fs2 : gmap string string) :
  appended name t1 fs fs1 -> appended name t2 fs1 fs2 ->
  appended name (t1 +:+ t2) fs fs2.
Proof.
  unfold appended. intros -> ->. apply map_eq. intros k. rewrite !lookup_alter.
  destruct (decide (name = k)) as [->|]; [|reflexivity].
  rewrite decide_True by reflexivity.
  destruct (fs !! k); cbn; [f_equal; apply append_assoc | reflexivity].
Qed.

Lemma appended_only_file (name text : string) (fs fs' : gmap string string) :
  appended name text fs fs' -> only_file name fs fs'.
Proof.
  unfold appended. intros ->. split.
  - intros other N. rewrite lookup_alter_ne by congruence. reflexivity.
  - intros [t Ht]. rewrite lookup_alter, decide_True by reflexivity.
    rewrite Ht. eexists. reflexivity.
Qed.

Lemma only_file_refl (name : string) (fs : gmap string string) : only_file name fs fs.
Proof. split; auto. Qed.

Lemma only_file_trans (name : string) (fs fs1 fs2 : gmap string string) :
  only_file name fs fs1 -> only_file name fs1 fs2 -> only_file name fs fs2.
Proof.
  intros [A1 B1] [A2 B2]. split; [|auto].
  intros other N. rewrite A2, A1 by exact N. reflexivity.
Qed.

Lemma residue_letter (r : Z) :
  residue_index r -> exists c, str_getitem residues r = Ok c.
Proof.
  intros [Hl Hu]. rewrite <- (Z2Nat.id r) by exact Hl.
  assert (Hn : (Z.to_nat r < 20)%nat) by lia.
  revert Hn. generalize (Z.to_nat r) as n. intros n Hn.
  do 20 (destruct n as [|n]; [eexists; reflexivity|]). lia.
Qed.

Lemma letters_cons (r : Z) (rs : list Z) (c : ascii) :
  str_getitem residues r = Ok c -> letters (r :: rs) = String c (letters rs).
Proof. intros E. cbn [letters fold_right]. rewrite E. reflexivity. Qed.

Lemma letters_length (rs : list Z) :
  Forall residue_index rs -> String.length (letters rs) = length rs.
Proof.
  induction 1 as [|r rs Hr _ IH]; [reflexivity|].
  destruct (residue_letter r Hr) as [c E].
  rewrite (letters_cons _ _ _ E). cbn. congruence.
Qed.

(** The [while] loop stops at a residue it could read, not before the
    one it started from and not after the residue 19. *)
Lemma skip_zeros_range (left : nat) (row : list float) (r r' : Z) :
  skip_zeros left row r = Ok r' -> 0 <= r ->
  r <= r' <= r + Z.of_nat left /\ is_Some (row !! Z.to_nat r').
Proof.
  revert r. induction left as [|left IH]; intros r E Hr;
    cbn [skip_zeros] in E; unfold list_getitem in E;
    destruct (row !! Z.to_nat r) as [x|] eqn:L; cbn [mbind result_bind] in E;
    try discriminate E.
  - injection E as <-. split; [lia | rewrite L; eauto].
  - destruct (x =? 0)%float.
    + apply IH in E as [B S]; [|lia]. split; [lia | exact S].
    + injection E as <-. split; [lia | rewrite L; eauto].
Qed.



(** One entry: what the loop over the positions [a], ..., [a + k - 1]
    writes and leaves in [residueToWrite]. *)
Lemma profile_shaped_insert (n : Z) (numbers : list (list float)) (j i : nat)
    (row : list float) (x : float) :
  profile_shaped n numbers -> numbers !! j = Some row ->
  profile_shaped n (<[j := <[i := x]> row]> numbers).
Proof.
  intros [Hn Hrows] Lrow. split; [rewrite length_insert; exact Hn|].
  intros j' row' Hj' L'.
  apply list_lookup_insert_Some in L' as [(-> & <- & _) | (_ & L')].
  - rewrite length_insert. eauto.
  - eauto.
Qed.

Lemma write_residues_seq (name : string) (k : nat) :
  forall (a : nat) (numbers : list (list float)) (rtw : list Z) (fs : gmap string string)
         (numbers' : list (list float)) (rtw' : list Z) (fs' : gmap string string),
  length rtw = (a + k)%nat -> Forall residue_index rtw ->
  write_residues name (seq a k) numbers rtw fs = (Ok (numbers', rtw'), fs') ->
  exists rs, rtw' = (take a rtw ++ rs)%list
             /\ Forall2 Z.le (drop a rtw) rs
             /\ Forall residue_index rs
             /\ length numbers' = length numbers
             /\ (forall n, profile_shaped n numbers -> profile_shaped n numbers')
             /\ appended name (letters rs) fs fs'.
Proof.
  induction k as [|k IH]; intros a numbers rtw fs numbers' rtw' fs' Hlen Hrange E.
  - cbn in E. injection E as <- <- <-. exists [].
    rewrite app_nil_r, take_ge, drop_ge by lia.
    conjs; [reflexivity | constructor | constructor | reflexivity | auto
          | apply appended_nil].
  - cbn [seq write_residues] in E.
    rewrite run_lift_bind in E.
    destruct (list_getitem numbers a) as [row|e] eqn:Hrow; [|discriminate E].
    rewrite run_lift_bind in E.
    destruct (list_getitem rtw a) as [r0|e] eqn:R0; [|discriminate E].
    unfold list_getitem in R0, Hrow.
    destruct (rtw !! a) as [r0'|] eqn:L0; [|discriminate R0]. injection R0 as ->.
    destruct (numbers !! a) as [row'|] eqn:Lrow; [|discriminate Hrow].
    injection Hrow as ->.
    pose proof (Forall_lookup_1 _ _ _ _ Hrange L0) as [Hr0 Hr0'].
    rewrite run_lift_bind in E.
    destruct (skip_zeros _ row r0) as [r|e] eqn:Sk; [|discriminate E].
    apply skip_zeros_range in Sk as [Hr _]; [|exact Hr0].
    assert (Rr : residue_index r) by (unfold residue_index; lia).
    rewrite run_lift_bind in E.
    destruct (list_getitem row (Z.to_nat r)) as [x|e]; [|discriminate E].
    rewrite run_lift_bind in E.
    destruct (residue_letter r Rr) as [c C]. rewrite C in E.
    unfold file_write in E. rewrite run_modify_bind in E.
    apply IH in E as (rs & -> & Hle & Hrs & Hn & Hshape & Happ).
    + exists (r :: rs).
      assert (La : (a < length rtw)%nat) by lia.
      conjs.
      * rewrite (take_S_r (<[a:=r]> rtw) a r) by (apply list_lookup_insert_eq; exact La).
        rewrite take_insert_ge by lia. rewrite <- app_assoc. reflexivity.
      * rewrite (drop_S _ _ _ L0). constructor; [lia|].
        rewrite drop_insert_lt in Hle by lia. exact Hle.
      * constructor; assumption.
      * rewrite Hn, length_insert. reflexivity.
      * intros n Hs. apply Hshape. exact (profile_shaped_insert _ _ _ _ _ _ Hs Lrow).
      * rewrite (letters_cons _ _ _ C).
        change (String c (letters rs)) with (String c "" +:+ letters rs).
        eapply appended_trans; [reflexivity | exact Happ].
    + rewrite length_insert. lia.
    + apply Forall_insert; assumption.
Qed.


Lemma write_residues_only_file (name : string) (positions : list nat) :
  forall (numbers : list (list float)) (rtw : list Z) (fs : gmap string string),
  only_file name fs (write_residues name positions numbers rtw fs).2.
Proof.
  induction positions as [|j positions IH]; intros numbers rtw fs;
    cbn [write_residues]; [apply only_file_refl|].
  rewrite run_lift_bind.
  destruct (list_getitem numbers j) as [row|]; [|apply only_file_refl].
  rewrite run_lift_bind.
  destruct (list_getitem rtw j) as [r0|]; [|apply only_file_refl].
  rewrite run_lift_bind.
  destruct (skip_zeros _ row r0) as [r|]; [|apply only_file_refl].
  rewrite run_lift_bind.
  destruct (list_getitem row (Z.to_nat r)) as [x|]; [|apply only_file_refl].
  rewrite run_lift_bind.
  destruct (str_getitem residues r) as [c|]; [|apply only_file_refl].
  unfold file_write. rewrite run_modify_bind.
  eapply only_file_trans; [|apply IH].
  apply (appended_only_file name (String c "")). reflexivity.
Qed.


(** The loop over the entries. *)
Lemma write_entries_text (name : string) (n : nat) :
  forall (k : nat) (numbers : list (list float)) (rtw : list Z)
         (fs fs' : gmap string string),
  length rtw = k -> Forall residue_index rtw ->
  write_entries name n (seq 0 k) numbers rtw fs = (Ok tt, fs') ->
  exists rows, length rows = n
               /\ Forall (fun rs => length rs = k /\ Forall residue_index rs) rows
               /\ columns_ascend rtw rows
               /\ appended name (fasta_text rows) fs fs'.
Proof.
  induction n as [|n IH]; intros k numbers rtw fs fs' Hlen Hrange E;
    cbn [write_entries] in E.
  - injection E as <-. exists [].
    conjs; [reflexivity | constructor | exact I | apply appended_nil].
  - unfold file_write in E. rewrite run_modify_bind, run_bind in E.
    destruct (write_residues name (seq 0 k) numbers rtw _)
      as [[[numbers' rtw']|e] fs1] eqn:W; [|discriminate E].
    apply write_residues_seq in W as (rs & -> & Hle & Hrs & _ & _ & Happ);
      [|exact Hlen | exact Hrange].
    rewrite drop_0 in Hle. rewrite take_0 in E. cbn [app fst snd] in E.
    rewrite run_modify_bind in E.
    assert (Hk : length rs = k) by (rewrite <- Hlen; symmetry; exact (Forall2_length _ _ _ Hle)).
    apply IH in E as (rows & Hn & Hrows & Hasc & Happ'); [|exact Hk | exact Hrs].
    exists (rs :: rows).
    conjs; [cbn; congruence | constructor; auto | split; assumption |].
    replace (fasta_text (rs :: rows))
      with ((("> Null" +:+ String NL "") +:+ letters rs)
            +:+ (String NL "" +:+ fasta_text rows))
      by (cbn [fasta_text fold_right]; rewrite !append_assoc; reflexivity).
    eapply appended_trans; eapply appended_trans;
      [reflexivity | exact Happ | reflexivity | exact Happ'].
Qed.

Lemma write_entries_only_file (name : string) (n : nat) :
  forall (positions : list nat) (numbers : list (list float)) (rtw : list Z)
         (fs : gmap string string),
  only_file name fs (write_entries name n positions numbers rtw fs).2.
Proof.
  induction n as [|n IH]; intros positions numbers rtw fs; cbn [write_entries];
    [apply only_file_refl|].
  unfold file_write. rewrite run_modify_bind, run_bind.
  set (fs0 := alter _ name fs).
  assert (H0 : only_file name fs fs0) by (eapply appended_only_file; reflexivity).
  pose proof (write_residues_only_file name positions numbers rtw fs0) as H1.
  destruct (write_residues name positions numbers rtw fs0) as [[state|e] fs1];
    cbn [snd] in H1; [|exact (only_file_trans _ _ _ _ H0 H1)].
  rewrite run_modify_bind.
  eapply only_file_trans; [|apply IH].
  eapply only_file_trans; [exact H0|].
  eapply only_file_trans; [exact H1|].
  eapply appended_only_file. reflexivity.
Qed.



(** The last of the pieces of a name between its dots. *)
Lemma split_pieces (sep : ascii) (s : string) :
  split sep s = [s]
  \/ exists w ws stem, split sep s = w :: ws /\ ws <> []
                       /\ s = stem +:+ String sep (List.last ws "").
Proof.
  induction s as [|c s IH]; [left; reflexivity|].
  cbn [split]. destruct (Ascii.eqb_spec c sep) as [->|N].
  - right. destruct IH as [E|(w & ws & stem & E & Hws & Hs)].
    + exists "", [s], "". rewrite E. conjs; [reflexivity | discriminate | reflexivity].
    + exists "", (w :: ws), (String sep stem). rewrite E.
      conjs; [reflexivity | discriminate |].
      destruct ws as [|w' ws]; [contradiction Hws; reflexivity|].
      rewrite Hs at 1. reflexivity.
  - destruct IH as [E|(w & ws & stem & E & Hws & Hs)].
    + left. rewrite E. reflexivity.
    + right. exists (String c w), ws, (String c stem). rewrite E.
      conjs; [reflexivity | exact Hws |]. rewrite Hs at 1. reflexivity.
Qed.

Lemma split_last_stem (sep : ascii) (stem t : string) :
  (2 <= length (split sep (stem +:+ String sep t)))%nat
  /\ List.last (split sep (stem +:+ String sep t)) "" = List.last (split sep t) "".
Proof.
  assert (Hne : forall u, split sep u <> []).
  { intros u. destruct u as [|c u]; cbn [split]; [discriminate|].
    destruct (Ascii.eqb c sep); [discriminate|]. destruct (split sep u); discriminate. }
  induction stem as [|c stem [IHl IHe]].
  - change ("" +:+ String sep t) with (String sep t). cbn [split].
    rewrite Ascii.eqb_refl. specialize (Hne t).
    destruct (split sep t) as [|w ws]; [contradiction Hne; reflexivity|].
    split; [cbn; lia | reflexivity].
  - change (String c stem +:+ String sep t) with (String c (stem +:+ String sep t)).
    cbn [split]. destruct (split sep (stem +:+ String sep t)) as [|w [|w' ws]];
      [cbn in IHl; lia | cbn in IHl; lia |].
    destruct (Ascii.eqb c sep); (split; [cbn; lia | exact IHe]).
Qed.

Lemma fasta_name_cases (outFileName : string) :
  ((outFileName = "fasta" \/ exists stem, outFileName = stem +:+ ".fasta")
   /\ fasta_name outFileName = outFileName)
  \/ (~ (outFileName = "fasta" \/ exists stem, outFileName = stem +:+ ".fasta")
      /\ fasta_name outFileName = outFileName +:+ ".fasta").
Proof.
  unfold fasta_name.
  destruct (String.eqb_spec (List.last (split "." outFileName) "") "fasta") as [E|N].
  - left. split; [|reflexivity].
    destruct (split_pieces "." outFileName) as [S|(w & ws & stem & S & Hws & Hs)];
      rewrite S in E.
    + left. exact E.
    + right. exists stem. rewrite Hs.
      destruct ws as [|w' ws]; [contradiction Hws; reflexivity|].
      cbn [List.last] in E. cbn [List.last]. rewrite E. reflexivity.
  - right. split; [|reflexivity]. intros [->|[stem ->]]; apply N.
    + reflexivity.
    + change (stem +:+ ".fasta") with (stem +:+ String "." "fasta").
      rewrite (proj2 (split_last_stem "." stem "fasta")). reflexivity.
Qed.

Lemma wrap64_small (z : Z) : - 2 ^ 63 <= z < 2 ^ 63 -> wrap64 z = z.
Proof. intros Hz. unfold wrap64. rewrite Z.mod_small; lia. Qed.

Lemma pow10_small (p : Z) : 0 <= p <= 18 -> 0 < 10 ^ p < 2 ^ 63.
Proof.
  intros Hp. split; [apply Z.pow_pos_nonneg; lia|].
  apply Z.le_lt_trans with (10 ^ 18); [apply Z.pow_le_mono_r; lia | reflexivity].
Qed.

Lemma wrap64_pow10_large (p : Z) : 64 <= p -> wrap64 (10 ^ p) = 0.
Proof.
  intros Hp. unfold wrap64.
  replace p with (64 + (p - 64)) by lia.
  rewrite Z.pow_add_r by lia.
  replace (10 ^ 64) with (5 ^ 64 * 2 ^ 64) by reflexivity.
  replace (5 ^ 64 * 2 ^ 64 * 10 ^ (p - 64) + 2 ^ 63)
    with (2 ^ 63 + 5 ^ 64 * 10 ^ (p - 64) * 2 ^ 64) by ring.
  rewrite Z.mod_add by discriminate. reflexivity.
Qed.


Lemma zeros1_residues (n : nat) : Forall residue_index (zeros1 n).
Proof. apply Forall_replicate. unfold residue_index. lia. Qed.

(** The method as the sequence of its steps. *)
Lemma writeFrequenciesToFASTA_run (self : Optimizer) (frequencies : list (list float))
    (outFileName : string) (precision : Z) (fs : gmap string string) :
  writeFrequenciesToFASTA self frequencies outFileName precision fs
  = let name := fasta_name outFileName in
    let fs0 := <[name := ""]> fs in
    if precision <? 0
    then (Raise (ValueError "Integers to negative integer powers are not allowed."), fs0)
    else if nPositions self <? 0
    then (Raise (ValueError "negative dimensions are not allowed"), fs0)
    else
      let nEntries := wrap64 (10 ^ precision) in
      match write_entries name (Z.to_nat nEntries) (seq 0 (Z.to_nat (nPositions self)))
              (scaled_numbers frequencies nEntries)
              (zeros1 (Z.to_nat (nPositions self))) fs0 with
      | (Ok _, fs') => (Ok 0, fs')
      | (Raise e, fs') => (Raise e, fs')
      end.
Proof.
  unfold writeFrequenciesToFASTA, open_w. cbn zeta.
  rewrite run_modify_bind, run_lift_bind. unfold np_power.
  destruct (precision <? 0); [reflexivity|].
  rewrite run_lift_bind. unfold np_zeros_int.
  destruct (nPositions self <? 0); [reflexivity|].
  rewrite run_bind. destruct (write_entries _ _ _ _ _ _) as [[[]|e] fs']; reflexivity.
Qed.

(** X14. Whether [writeFrequenciesToFASTA] returns or raises, it has
    created or overwritten one file and changed no other: the file of
    the name given when that name is [fasta] or ends in [.fasta], and
    otherwise the file of that name with [.fasta] appended. *)
Theorem writeFrequenciesToFASTA_file (self : Optimizer) (frequencies : list (list float))
    (outFileName : string) (precision : Z) (fs fs' : gmap string string)
    (r : result Z) :
  writeFrequenciesToFASTA self frequencies outFileName precision fs = (r, fs') ->
  exists name,
    (((outFileName = "fasta" \/ exists stem, outFileName = stem +:+ ".fasta")
      /\ name = outFileName)
     \/ (~ (outFileName = "fasta" \/ exists stem, outFileName = stem +:+ ".fasta")
         /\ name = outFileName +:+ ".fasta"))
    /\ is_Some (fs' !! name)
    /\ forall other, other <> name -> fs' !! other = fs !! other.
Proof.
  rewrite writeFrequenciesToFASTA_run. cbn zeta. intros E.
  exists (fasta_name outFileName). split.
  - destruct (fasta_name_cases outFileName) as [[C ->]|[C ->]]; [left | right]; auto.
  - set (name := fasta_name outFileName) in *.
    assert (O : only_file name fs (<[name := ""]> fs)).
    { split; [|intros _; rewrite lookup_insert_eq; eauto].
      intros other N. rewrite lookup_insert_ne by congruence. reflexivity. }
    assert (S : is_Some ((<[name := ""]> fs) !! name)) by (rewrite lookup_insert_eq; eauto).
    assert (O' : only_file name (<[name := ""]> fs) fs').
    { destruct (precision <? 0); [injection E as <- <-; apply only_file_refl|].
      destruct (nPositions self <? 0); [injection E as <- <-; apply only_file_refl|].
      pose proof (write_entries_only_file name (Z.to_nat (wrap64 (10 ^ precision)))
                    (seq 0 (Z.to_nat (nPositions self)))
                    (scaled_numbers frequencies (wrap64 (10 ^ precision)))
                    (zeros1 (Z.to_nat (nPositions self))) (<[name := ""]> fs)) as W.
      destruct (write_entries _ _ _ _ _ _) as [[[]|e] fs1]; injection E as <- <-;
        exact W. }
    destruct O as [O1 O2], O' as [O1' O2']. split; [auto|].
    intros other N. rewrite O1', O1 by exact N. reflexivity.
Qed.

(** X15. When [writeFrequenciesToFASTA] returns, it returns 0, the
    precision and [nPositions] are not negative, and the file holds as
    many entries as [10 ** precision] is as an integer of 64 bits, which
    is [10 ** precision] itself up to the precision 18: each entry is the
    line [> Null] and a line of [nPositions] letters of residues, and at
    every position the residues of successive entries are in the order
    of the alphabet of residues. *)
Theorem writeFrequenciesToFASTA_text (self : Optimizer) (frequencies : list (list float))
    (outFileName : string) (precision : Z) (fs fs' : gmap string string) (z : Z) :
  writeFrequenciesToFASTA self frequencies outFileName precision fs = (Ok z, fs') ->
  z = 0 /\ 0 <= precision /\ 0 <= nPositions self
  /\ exists rows,
       fs' !! fasta_name outFileName = Some (fasta_text rows)
       /\ length rows = Z.to_nat (wrap64 (10 ^ precision))
       /\ (precision <= 18 -> Z.of_nat (length rows) = 10 ^ precision)
       /\ Forall (fun rs => Z.of_nat (length rs) = nPositions self
                            /\ Forall residue_index rs
                            /\ String.length (letters rs) = length rs) rows
       /\ columns_ascend (zeros1 (Z.to_nat (nPositions self))) rows.
Proof.
  rewrite writeFrequenciesToFASTA_run. cbn zeta.
  destruct (Z.ltb_spec precision 0) as [|Hp]; [discriminate|].
  destruct (Z.ltb_spec (nPositions self) 0) as [|Hn]; [discriminate|].
  destruct (write_entries _ _ _ _ _ _) as [[[]|e] fs1] eqn:W; [|discriminate].
  intros E. injection E as <- <-. conjs; [reflexivity | exact Hp | exact Hn |].
  apply write_entries_text in W as (rows & Hlen & Hrows & Hasc & Happ);
    [|unfold zeros1; apply length_replicate | apply zeros1_residues].
  exists rows. conjs.
  - unfold appended in Happ. rewrite Happ, lookup_alter, decide_True by reflexivity.
    rewrite lookup_insert_eq. reflexivity.
  - exact Hlen.
  - intros Hp'. rewrite Hlen.
    rewrite wrap64_small by (pose proof (pow10_small precision); lia).
    pose proof (pow10_small precision). lia.
  - eapply Forall_impl; [exact Hrows|]. cbn beta. intros rs [Hl Hr].
    conjs; [lia | exact Hr | exact (letters_length _ Hr)].
  - exact Hasc.
Qed.



(** X18. For a precision from 64 on that is an integer of 64 bits,
    [10 ** precision] is 0 as an integer of 64 bits: on an optimizer
    whose [nPositions] is not negative, [writeFrequenciesToFASTA] returns 0
    and leaves the file empty, whatever the frequencies are. *)
Theorem writeFrequenciesToFASTA_overflow (self : Optimizer)
    (frequencies : list (list float)) (outFileName : string) (precision : Z)
    (fs : gmap string string) :
  64 <= precision < 2 ^ 63 -> 0 <= nPositions self ->
  writeFrequenciesToFASTA self frequencies outFileName precision fs
  = (Ok 0, <[fasta_name outFileName := ""]> fs).
Proof.
  intros [Hp _] Hn. rewrite writeFrequenciesToFASTA_run. cbn zeta.
  destruct (Z.ltb_spec precision 0); [lia|].
  destruct (Z.ltb_spec (nPositions self) 0); [lia|].
  rewrite wrap64_pow10_large by exact Hp. reflexivity.
Qed.

(** Writing the profile of two positions with one decimal, among files
    that hold a file of notes: the notes are kept. *)
Lemma writeFrequenciesToFASTA_file_witness :
  (writeFrequenciesToFASTA Fixtures.optimizer2 Fixtures.profile2 "profile" 1
     {[ "notes.txt" := "kept" ]}).2 !! "notes.txt" = Some "kept".
Proof.
  destruct (writeFrequenciesToFASTA_file Fixtures.optimizer2 Fixtures.profile2
              "profile" 1 {[ "notes.txt" := "kept" ]} _ _ (surjective_pairing _))
    as (name & [[_ ->]|[_ ->]] & _ & F);
    (rewrite F; [reflexivity | discriminate]).
Defined.

(** One decimal for the profile of two positions: ten entries of two
    residues in the file [profile.fasta]. *)
Lemma writeFrequenciesToFASTA_text_witness :
  let r := writeFrequenciesToFASTA Fixtures.optimizer2 Fixtures.profile2
             "profile" 1 ∅ in
  r.1 = Ok 0
  /\ exists rows, r.2 !! "profile.fasta" = Some (fasta_text rows)
                  /\ length rows = 10%nat.
Proof.
  intros r.
  assert (E : r = (Ok 0, r.2)) by (vm_compute; reflexivity).
  split; [rewrite E; reflexivity|].
  destruct (writeFrequenciesToFASTA_text _ _ _ _ _ _ _ E)
    as (_ & _ & _ & rows & Ht & Hl & _).
  exists rows. split; [exact Ht | exact Hl].
Defined.



Lemma writeFrequenciesToFASTA_overflow_witness :
  writeFrequenciesToFASTA Fixtures.optimizer2 Fixtures.profile2 "profile" 64 ∅
  = (Ok 0, {[ "profile.fasta" := "" ]}).
Proof.
  rewrite writeFrequenciesToFASTA_overflow; [reflexivity | lia | vm_compute; discriminate].
Defined.

(** ** Reading back the file of a profile *)

Lemma residue_letter_facts (r : Z) :
  residue_index r ->
  exists c, str_getitem residues r = Ok c
            /\ Ascii.eqb c NL = false /\ Ascii.eqb c ">" = false
            /\ Ascii.eqb c "-" = false /\ resToIndex c = Some (Z.to_nat r).
Proof.
  intros [Hl Hu]. rewrite <- (Z2Nat.id r) by exact Hl. rewrite Nat2Z.id.
  assert (Hn : (Z.to_nat r < 20)%nat) by lia.
  revert Hn. generalize (Z.to_nat r) as n. intros n Hn.
  do 20 (destruct n as [|n]; [eexists; repeat split; reflexivity|]). lia.
Qed.

Lemma append_length (a b : string) :
  String.length (a +:+ b) = (String.length a + String.length b)%nat.
Proof.
  induction a as [|c a IH]; [reflexivity|].
  change (S (String.length (a +:+ b)) = S (String.length a + String.length b)).
  f_equal. exact IH.
Qed.

Lemma entry_line_cons (r : Z) (rs : list Z) (c : ascii) :
  str_getitem residues r = Ok c ->
  entry_line (r :: rs) = String c (entry_line rs).
Proof. intros E. unfold entry_line. rewrite (letters_cons _ _ _ E). reflexivity. Qed.

Lemma entry_line_length (rs : list Z) :
  Forall residue_index rs -> String.length (entry_line rs) = S (length rs).
Proof.
  intros F. unfold entry_line. rewrite append_length, (letters_length _ F). cbn. lia.
Qed.

(** An entry line starts with a character that is not [>]. *)
Lemma entry_line_head (rs : list Z) :
  Forall residue_index rs ->
  exists c t, entry_line rs = String c t /\ Ascii.eqb c ">" = false.
Proof.
  intros [|r rs' Hr _].
  - exists NL, "". split; reflexivity.
  - destruct (residue_letter_facts r Hr) as (c & E & _ & Hc & _).
    exists c, (entry_line rs'). split; [exact (entry_line_cons _ _ _ E) | exact Hc].
Qed.

Lemma lines_of_entry_line (rs : list Z) (t : string) :
  Forall residue_index rs ->
  lines_of (letters rs +:+ String NL t) = entry_line rs :: lines_of t.
Proof.
  induction 1 as [|r rs Hr _ IH].
  - change (lines_of (String NL t) = String NL "" :: lines_of t).
    cbn [lines_of]. rewrite Ascii.eqb_refl. reflexivity.
  - destruct (residue_letter_facts r Hr) as (c & E & Hc & _).
    rewrite (entry_line_cons _ _ _ E), (letters_cons _ _ _ E).
    change (lines_of (String c (letters rs +:+ String NL t))
            = String c (entry_line rs) :: lines_of t).
    cbn [lines_of]. rewrite Hc, IH. reflexivity.
Qed.

Lemma lines_of_fasta_text (rows : list (list Z)) :
  Forall (Forall residue_index) rows ->
  lines_of (fasta_text rows)
  = flat_map (fun rs => [header_line; entry_line rs]) rows.
Proof.
  induction 1 as [|rs rows Hrs _ IH]; [reflexivity|].
  cbn [flat_map app]. rewrite <- IH, <- (lines_of_entry_line rs _ Hrs). reflexivity.
Qed.

Lemma counted_entries_rows (rows : list (list Z)) (rs : list Z) :
  Forall (Forall residue_index) (rs :: rows) ->
  counted_entries (flat_map (fun rs => [header_line; entry_line rs]) rows) (entry_line rs)
  = entry_line <$> removelast (rs :: rows).
Proof.
  revert rs. induction rows as [|rs' rows IH]; intros rs F; [reflexivity|].
  apply Forall_cons in F as [Hrs F].
  pose proof F as F'. apply Forall_cons in F' as [Hrs' _].
  cbn [flat_map app]. unfold header_line at 1.
  change ("> Null" +:+ String NL "") with (String ">" (" Null" +:+ String NL "")).
  cbn [counted_entries]. rewrite Ascii.eqb_refl.
  destruct (entry_line_head rs Hrs) as (c & t & E & _).
  destruct (String.eqb_spec (entry_line rs) "") as [E0|_];
    [rewrite E in E0; discriminate E0|].
  destruct (entry_line_head rs' Hrs') as (c' & t' & E' & Hc').
  rewrite E' at 1. rewrite Hc'. rewrite <- ?E'.
  change ("" +:+ entry_line rs') with (entry_line rs').
  rewrite (IH rs' F). reflexivity.
Qed.

Lemma read_entries_count_entries (positions : list nat) (lines : list string)
    (thisEntry : string) (nEntries : list Z) (s : Optimizer) :
  Forall (fun line => line <> "") lines ->
  read_entries positions lines thisEntry nEntries s
  = count_entries positions (counted_entries lines thisEntry) nEntries s.
Proof.
  intros F. revert thisEntry nEntries s.
  induction F as [|line lines Hline _ IH]; intros thisEntry nEntries s;
    cbn [read_entries counted_entries]; [reflexivity|].
  rewrite run_lift_bind.
  destruct line as [|c t]; [contradiction Hline; reflexivity|].
  rewrite str_getitem_head.
  destruct (Ascii.eqb c ">"); [|apply IH].
  destruct (String.eqb thisEntry ""); [apply IH|].
  rewrite run_bind. cbn [count_entries]. rewrite run_bind.
  destruct (count_entry thisEntry positions nEntries s) as [[nEntries1|e] s1];
    [apply IH | reflexivity].
Qed.

Lemma count_entries_returns (n : nat) (entries : list string) :
  Forall (fun e => (n <= String.length e)%nat) entries ->
  forall (nEntries : list Z) (s : Optimizer),
  exists nEntries' s', count_entries (seq 0 n) entries nEntries s = (Ok nEntries', s').
Proof.
  induction 1 as [|e entries He _ IH]; intros nEntries s; cbn [count_entries];
    [rewrite run_ret; eauto|].
  rewrite run_bind. pose proof (count_entry_seq e n 0 nEntries s) as C.
  destruct (count_entry e (seq 0 n) nEntries s) as [[nEntries1|err] s1];
    [apply IH | destruct C as [_ C]; lia].
Qed.

Lemma string_get_entry_line (rs : list Z) (i : nat) (r : Z) :
  Forall residue_index rs -> rs !! i = Some r ->
  residue_at (entry_line rs) i = Some (Z.to_nat r).
Proof.
  intros F. revert i. induction F as [|r0 rs Hr0 _ IH]; intros i L; [discriminate L|].
  destruct (residue_letter_facts r0 Hr0) as (c & E & _ & _ & Hd & Hres).
  rewrite (entry_line_cons _ _ _ E).
  destruct i as [|i].
  - injection L as <-. unfold residue_at. cbn [String.get]. rewrite Hd. exact Hres.
  - unfold residue_at. cbn [String.get]. exact (IH i L).
Qed.

Lemma counts_of_rows (rows : list (list Z)) (n i : nat) :
  Forall (fun rs => length rs = n /\ Forall residue_index rs) rows -> (i < n)%nat ->
  observation_count (entry_line <$> rows) i = length rows
  /\ forall j, residue_count (entry_line <$> rows) i j = column_count rows i j.
Proof.
  intros F Hi. induction F as [|rs rows [Hlen Hrs] _ [IHo IHr]]; [split; reflexivity|].
  destruct (lookup_lt_is_Some_2 rs i ltac:(lia)) as [r Lr].
  pose proof (Forall_lookup_1 _ _ _ _ Hrs Lr) as [Hr0 Hr19].
  cbn [fmap list_fmap observation_count residue_count column_count length].
  rewrite (string_get_entry_line rs i r Hrs Lr), Lr. split; [congruence|].
  intros j. rewrite IHr.
  destruct (Nat.eqb_spec (Z.to_nat r) j), (Z.eqb_spec r (Z.of_nat j)); try reflexivity; lia.
Qed.

Lemma removelast_rows {A} (P : A -> Prop) (l : list A) :
  Forall P l -> Forall P (removelast l) /\ length (removelast l) = pred (length l).
Proof.
  intros F. rewrite removelast_firstn_len. split; [apply Forall_take; exact F|].
  rewrite length_take. lia.
Qed.

Lemma counted_entries_fasta (rows : list (list Z)) :
  Forall (Forall residue_index) rows ->
  counted_entries (flat_map (fun rs => [header_line; entry_line rs]) rows) ""
  = entry_line <$> removelast rows.
Proof.
  intros F. destruct rows as [|rs rows]; [reflexivity|].
  pose proof F as F'. apply Forall_cons in F' as [Hrs _].
  cbn [flat_map app]. unfold header_line at 1.
  change ("> Null" +:+ String NL "") with (String ">" (" Null" +:+ String NL "")).
  cbn [counted_entries]. rewrite Ascii.eqb_refl. cbn [String.eqb].
  destruct (entry_line_head rs Hrs) as (c & t & E & Hc).
  rewrite E at 1. rewrite Hc.
  change ("" +:+ entry_line rs) with (entry_line rs).
  exact (counted_entries_rows rows rs F).
Qed.

Lemma fasta_lines_not_empty (rows : list (list Z)) :
  Forall (Forall residue_index) rows ->
  Forall (fun line => line <> "")
         (flat_map (fun rs => [header_line; entry_line rs]) rows).
Proof.
  induction 1 as [|rs rows Hrs _ IH]; [constructor|].
  cbn [flat_map app]. constructor; [discriminate|]. constructor; [|exact IH].
  destruct (entry_line_head rs Hrs) as (c & t & -> & _). discriminate.
Qed.

Lemma str_getitem_minus2_returns (entry : string) :
  (2 <= String.length entry)%nat -> exists c, str_getitem entry (-2) = Ok c.
Proof.
  intros Hlen. unfold str_getitem. cbn [Z.ltb Z.compare].
  destruct (Z.leb_spec 0 (-2 + Z.of_nat (String.length entry))); [|lia].
  destruct (Z.ltb_spec (-2 + Z.of_nat (String.length entry))
                       (Z.of_nat (String.length entry))); [|lia].
  cbn [andb].
  destruct (String.get _ entry) as [c|] eqn:G; [eauto|].
  apply string_get_None in G. lia.
Qed.

Section ReadBack.
Context `{PyBuiltins}.

(** [readTargetFrequencies] on the text of at least two entries of [n]
    residues, for [n] at least 1. *)
Lemma fasta_text_read_back (rows : list (list Z)) (n : nat) (reader : Optimizer) :
  (1 <= n)%nat -> (2 <= length rows)%nat ->
  Forall (fun rs => length rs = n /\ Forall residue_index rs) rows ->
  exists tf reader',
    readTargetFrequencies (lines_of (fasta_text rows)) reader = (Ok tf, reader')
    /\ nPositions reader' = Z.of_nat n
    /\ forall i j, (i < n)%nat -> (j < 20)%nat ->
         exists q, cell tf i j = Some (Val q)
                   /\ (q * inject_Z (Z.of_nat (length rows) - 1)
                       == inject_Z (Z.of_nat (column_count (removelast rows) i j)))%Q.
Proof.
  intros Hn Hrows F.
  assert (Fr : Forall (Forall residue_index) rows)
    by (eapply Forall_impl; [exact F | intros rs [_ Hr]; exact Hr]).
  rewrite (lines_of_fasta_text rows Fr).
  pose proof (counted_entries_fasta rows Fr) as Hcounted.
  pose proof (fasta_lines_not_empty rows Fr) as Hlines.
  destruct (removelast_rows _ rows F) as [Fc Hlc].
  destruct rows as [|rs0 [|rs1 rows]]; [cbn in Hrows; lia | cbn in Hrows; lia |].
  set (lines := flat_map (fun rs => [header_line; entry_line rs]) (rs0 :: rs1 :: rows)) in *.
  set (counted := removelast (rs0 :: rs1 :: rows)) in *.
  apply Forall_cons in F as [[Hlen0 Hrs0] _].
  assert (Hentry : first_entry "" (tail lines) = Ok (entry_line rs0)).
  { subst lines. cbn [flat_map app tail first_entry].
    destruct (entry_line_head rs0 Hrs0) as (c & t & E & Hc).
    rewrite E at 1. rewrite str_getitem_head. cbn [mbind result_bind]. rewrite Hc.
    change header_line with (String ">" (" Null" +:+ String NL "")).
    rewrite str_getitem_head. reflexivity. }
  unfold readTargetFrequencies. rewrite run_lift_bind, Hentry.
  rewrite run_modify_bind, run_lift_bind.
  rewrite (entry_line_length rs0 Hrs0), Hlen0.
  destruct (str_getitem_minus2_returns (entry_line rs0)) as [c2 ->];
    [rewrite (entry_line_length rs0 Hrs0); lia|].
  rewrite run_get_bind, run_bind. cbn [set_nPositions nPositions].
  replace (Z.to_nat (Z.of_nat (S n) - 1)) with n by lia.
  unfold count_residues. rewrite run_modify_bind.
  rewrite (read_entries_count_entries _ _ _ _ _ Hlines), Hcounted.
  set (s0 := set_targetFrequencies _ _).
  destruct (count_entries_returns n (entry_line <$> counted)) with
    (nEntries := zeros1 n) (s := s0) as (nEntries & s1 & C).
  { apply Forall_fmap. eapply Forall_impl; [exact Fc|].
    intros rs [Hl Hr]. unfold compose. rewrite (entry_line_length rs Hr). lia. }
  assert (Hs1 : nPositions s1 = Z.of_nat n).
  { pose proof (read_entries_frame (seq 0 n) lines "" (zeros1 n) s0) as [Fs _].
    rewrite (read_entries_count_entries _ _ _ _ _ Hlines), Hcounted, C in Fs.
    cbn [snd] in Fs. unfold same_but_profile in Fs. rewrite Fs. subst s0. cbn. lia. }
  rewrite C. rewrite run_modify_bind, run_modify_bind, run_get_bind, run_ret.
  eexists _, _. split; [reflexivity|].
  cbn [set_targetFreqsRead set_targetFrequencies targetFrequencies nPositions].
  split; [exact Hs1|].
  apply count_entries_effect in C as [_ Heff].
  intros i j Hi Hj. destruct (Heff i Hi) as [HN Hc]. specialize (Hc j).
  destruct (counts_of_rows counted n i Fc Hi) as [Hobs Hres].
  rewrite Hobs in HN. rewrite Hres in Hc.
  unfold zeros1 in HN. rewrite lookup_replicate_2 in HN by exact Hi. cbn in HN.
  subst s0. cbn [set_targetFrequencies targetFrequencies] in Hc.
  assert (Hz : cell (zeros2 n 20) i j = Some (Val 0)).
  { unfold cell, zeros2. rewrite lookup_replicate_2 by exact Hi.
    cbn [mbind option_bind]. apply lookup_replicate_2. exact Hj. }
  rewrite Hz in Hc. cbn [fmap option_fmap option_map] in Hc.
  destruct (iter_incr_val (column_count counted i j) 0) as (q & Eq & Hq).
  rewrite Eq in Hc.
  assert (Hpos : 0 < Z.of_nat (length counted)) by (rewrite Hlc; cbn; lia).
  exists (q / inject_Z (Z.of_nat (length counted)))%Q. split.
  - unfold cell in Hc |- *. unfold counts_to_frequencies. rewrite lookup_zip_with.
    destruct (targetFrequencies s1 !! i) as [row|]; [|discriminate Hc].
    cbn [mbind option_bind] in Hc |- *. rewrite HN. cbn [mbind option_bind].
    rewrite list_lookup_fmap, Hc. cbn [fmap option_fmap option_map np_div].
    destruct (Z.eqb_spec (Z.of_nat (length counted)) 0); [lia | reflexivity].
  - replace (Z.of_nat (length (rs0 :: rs1 :: rows)) - 1)
      with (Z.of_nat (length counted)) by (rewrite Hlc; cbn [length]; lia).
    rewrite Hq. field. unfold Qeq, inject_Z. cbn. lia.
Qed.

(** X19. What [writeFrequenciesToFASTA] writes with a precision from 1 to
    18, for at least one position, [readTargetFrequencies] reads back
    without raising and with the same number of positions, but without
    the last entry: the frequency it gives a residue at a position is the
    number of entries other than the last that have the residue there,
    divided by [10 ** precision - 1]. *)
Theorem written_profile_read_back (self reader : Optimizer)
    (frequencies : list (list float)) (outFileName : string) (precision : Z)
    (fs fs' : gmap string string) (z : Z) :
  writeFrequenciesToFASTA self frequencies outFileName precision fs = (Ok z, fs') ->
  1 <= nPositions self -> 1 <= precision <= 18 ->
  exists rows tf reader',
    fs' !! fasta_name outFileName = Some (fasta_text rows)
    /\ Z.of_nat (length rows) = 10 ^ precision
    /\ readTargetFrequencies (lines_of (fasta_text rows)) reader = (Ok tf, reader')
    /\ nPositions reader' = nPositions self
    /\ forall i j, Z.of_nat i < nPositions self -> (j < 20)%nat ->
         exists q, cell tf i j = Some (Val q)
                   /\ (q * inject_Z (10 ^ precision - 1)
                       == inject_Z (Z.of_nat (column_count (removelast rows) i j)))%Q.
Proof.
  rewrite writeFrequenciesToFASTA_run. cbn zeta.
  destruct (Z.ltb_spec precision 0) as [|Hp]; [discriminate|].
  destruct (Z.ltb_spec (nPositions self) 0) as [|Hn]; [discriminate|].
  destruct (write_entries _ _ _ _ _ _) as [[[]|e] fs1] eqn:W; [|discriminate].
  intros E Hn1 Hp1. injection E as <- <-.
  apply write_entries_text in W as (rows & Hlen & Hrows & _ & Happ);
    [|unfold zeros1; apply length_replicate | apply zeros1_residues].
  pose proof (pow10_small precision ltac:(lia)) as Hsmall.
  rewrite wrap64_small in Hlen by lia.
  assert (Hten : 10 <= 10 ^ precision).
  { change 10 with (10 ^ 1) at 1. apply Z.pow_le_mono_r; lia. }
  destruct (fasta_text_read_back rows (Z.to_nat (nPositions self)) reader)
    as (tf & reader' & R & Hnp & Hcells); [lia | lia | exact Hrows |].
  exists rows, tf, reader'. conjs.
  - unfold appended in Happ. rewrite Happ, lookup_alter, decide_True by reflexivity.
    rewrite lookup_insert_eq. reflexivity.
  - lia.
  - exact R.
  - lia.
  - intros i j Hi Hj. destruct (Hcells i j ltac:(lia) Hj) as (q & Hc & Hq).
    exists q. split; [exact Hc|]. rewrite <- Hq. rewrite Hlen.
    rewrite Z2Nat.id by lia. reflexivity.
Qed.

End ReadBack.

(** The profile of two positions, written with one decimal and read
    back: the reader finds the two positions. *)
Lemma written_profile_read_back_witness :
  let fs' := (writeFrequenciesToFASTA Fixtures.optimizer2 Fixtures.profile2
                "profile" 1 ∅).2 in
  exists text tf reader',
    fs' !! "profile.fasta" = Some text
    /\ readTargetFrequencies (lines_of text) (Optimizer_init ∅ true) = (Ok tf, reader')
    /\ nPositions reader' = 2.
Proof.
  intros fs'.
  assert (E : writeFrequenciesToFASTA Fixtures.optimizer2 Fixtures.profile2
                "profile" 1 ∅ = (Ok 0, fs')) by (vm_compute; reflexivity).
  destruct (written_profile_read_back Fixtures.optimizer2 (Optimizer_init ∅ true)
              _ _ _ _ _ _ E) as (rows & tf & reader' & Ht & _ & R & Hn & _).
  - vm_compute. discriminate.
  - lia.
  - exists (fasta_text rows), tf, reader'.
    change (fasta_name "profile") with "profile.fasta" in Ht.
    conjs; [exact Ht | exact R | exact Hn].
Defined.
